(** * mdp.parallel.parallelflows: the ParallelFlow coordinator

    A shallow embedding of [src/mdp/parallel/parallelflows.py].  The
    coordinator object is a record; every method is a computation in a
    state-and-exception monad over that record, so that the state a Python
    exception leaves behind stays observable. *)

From stdpp Require Import base option list gmap strings.

Set Default Proof Using "Type".

(** ** Values handled by the coordinator *)

(** A data chunk (a numx array): the sequence of its rows. *)
Definition Chunk := list nat.

(** Values that can be stored in an attribute namespace or passed as a
    keyword argument. *)
Inductive Value :=
| VBool (b : bool)
| VNat (n : nat)
| VStr (s : string).

(** The diagnostics carried by the exceptions of the module; node numbers
    are the 1-based numbers the messages print. *)
Inductive Diag :=
| TrainingUnderway            (* "Parallel training is underway." *)
| TrainingAlreadyUnderway     (* "Parallel training is already underway." *)
| TrainCallableWithoutScheduler
| ExecuteCallableWithoutScheduler
| NotReplayable (nodeno : nat)  (* "... could not be repeated for the second training phase ..." *)
| IteratorEmpty (nodeno : nat)  (* "The training data iterator for node no. %d is empty." *)
| ExecuteIteratorEmpty          (* "The execute data iterator is empty." *)
| NoDataForTask                 (* "No data available for execution task." *)
| NoTaskAvailable               (* "No task available for execution." *)
| NoResults                     (* "Could not get any training tasks or results ..." *)
| WrongIterables.

Inductive Exn :=
| ParallelFlowException (d : Diag)
| NoTaskException (d : Diag)
| FlowException (d : Diag)
| TrainingFinishedException
| PlainException (d : Diag)
| IndexError
| TypeError
| AttributeError
| ValueError
| StopIteration.

(** ** Nodes *)

Module Node.

(** Modelled from the spec: the Node class ([mdp.Node] and its parallel
    subclasses) is not among the sources.  Following sections 3 and 6 of
    the specification a node exposes [is_training],
    [get_current_train_phase], [get_remaining_train_phase], [fork], [join]
    and [stop_training]; it needs one or more sequential training phases,
    each of which it may decline to fork.  [train_seq] has one entry per
    training phase, [true] when the phase can be forked; [learned] records
    every chunk trained or joined into the node, with the phase it was
    learned in. *)
Record t := mk {
  train_seq : list bool;
  train_phase : nat;
  learned : list (nat * Chunk)
}.

(** Modelled from the spec: [get_current_train_phase() -> int], the number
    of the phase the node is in, counted from 0. *)
Definition get_current_train_phase (n : t) : nat := train_phase n.

(** Modelled from the spec: [get_remaining_train_phase() -> int], the phases
    that are not closed yet. *)
Definition get_remaining_train_phase (n : t) : nat :=
  length (train_seq n) - train_phase n.

(** Modelled from the spec: [is_training()] is false for a node that is
    fully trained, so a node is training until its last phase has been
    closed. *)
Definition is_training (n : t) : bool :=
  negb (get_remaining_train_phase n =? 0).

(** Modelled from the spec: [train] lets the node learn one chunk in the
    current phase. *)
Definition train (x : Chunk) (n : t) : t :=
  mk (train_seq n) (train_phase n) (learned n ++ [(train_phase n, x)]).

(** Modelled from the spec: [stop_training] closes one training phase,
    possibly leaving more phases pending.  A node whose training is over has
    no phase to close. *)
Definition stop_training (n : t) : Exn + t :=
  if is_training n
  then inr (mk (train_seq n) (S (train_phase n)) (learned n))
  else inl TrainingFinishedException.

(** Modelled from the spec: [fork() -> clone | fails with
    NotParallelizable], an independent clone for the current phase. *)
Definition fork (n : t) : option t :=
  match train_seq n !! train_phase n with
  | Some true => Some (mk (train_seq n) (train_phase n) [])
  | _ => None
  end.

(** Modelled from the spec: [join(clone)] merges what a clone has learned
    into the node. *)
Definition join (forked : t) (n : t) : t :=
  mk (train_seq n) (train_phase n) (learned n ++ learned forked).

End Node.

(** ** Data sources

    A Python iterable is either re-iterable (a list: every [iter] starts
    again at the first chunk) or a one-shot iterator object, for which [iter]
    returns the object itself.  One-shot iterators live in a store shared
    with the caller, so that what one phase consumes is gone for the next. *)
Inductive Iterable :=
| Relist (chunks : list Chunk)
| OneShot (ref : nat).

Inductive Iterator :=
| ListIterator (rest : list Chunk)
| SharedIterator (ref : nat).

Definition Store := gmap nat (list Chunk).

(** [iter(iterable)] *)
Definition iter (d : Iterable) : Iterator :=
  match d with
  | Relist l => ListIterator l
  | OneShot r => SharedIterator r
  end.

(** [iterator.next()]: the chunk, the advanced iterator and the store, or
    [None] for StopIteration. *)
Definition next (it : Iterator) (h : Store) : option (Chunk * Iterator * Store) :=
  match it with
  | ListIterator [] => None
  | ListIterator (x :: rest) => Some (x, ListIterator rest, h)
  | SharedIterator r =>
      match h !! r with
      | Some (x :: rest) => Some (x, SharedIterator r, <[r := rest]> h)
      | _ => None
      end
  end.

(** The chunks an iterator still holds. *)
Definition remaining (it : Iterator) (h : Store) : list Chunk :=
  match it with
  | ListIterator l => l
  | SharedIterator r => default [] (h !! r)
  end.

(** ** Tasks, callables, results *)

Inductive CallableClass :=
| FlowTrainCallable
| FlowExecuteCallable
| CustomCallable (id : nat).

(** A callable instance: the class it was built from and the flow (forked
    or shared) it wraps. *)
Record Callable := mkCallable {
  callable_class : CallableClass;
  callable_flow : list Node.t
}.

(** Task: pair (dataChunk, callableOrNone). *)
Definition Task := (Chunk * option Callable)%type.

(** What a scheduler hands back: trained nodes for training, arrays for
    execution. *)
Inductive Result :=
| RNode (n : Node.t)
| RArray (a : Chunk).

(** A checkpoint function: [(trainedNode) -> mapping | None].  It reads the
    node it is given. *)
Definition CheckpointFn := Node.t -> option (gmap string Value).

(** The calls and hook points whose order the specification talks about. *)
Inductive Event :=
| EJoin (i : nat) (r : Result)
| EStopTrainingHook
| EStopTraining (i : nat)
| EPostStopTrainingHook
| ECheckpoint (i : nat) (seen : Node.t)
| ELocalTrain (i : nat) (x : Chunk)
| EFlowNodeStopTraining (i : nat)
| EShutdown (id : nat)
| ENextScheduler
| EAddTask (id : nat) (t : Task)
| EGetResults (id : nat).

(** ** The coordinator object *)

Inductive FlowClass := ParallelFlowClass | ParallelCheckpointFlowClass.

(** The attributes of a ParallelFlow (or ParallelCheckpointFlow) object.
    The names that a checkpoint function adds to [__dict__] are kept in
    [attrs], beside the attributes that the class itself defines.  [store]
    holds the one-shot iterators that the caller has handed in, and [log]
    records the calls made on nodes, hooks and schedulers. *)
Record ParallelFlow := mkPF {
  cls : FlowClass;
  flow : list Node.t;
  verbose : bool;
  crash_recovery : bool;
  _train_data_iterables : option (list Iterable);
  _train_data_iterator : option Iterator;
  _i_train_node : option nat;
  _flownode : bool;              (* a FlowNode around the live flow exists *)
  _exec_data_iterator : option Iterator;
  _next_task : option Task;
  _train_callable_class : option CallableClass;
  _execute_callable_class : option CallableClass;
  _checkpoints : option (list (option CheckpointFn));
  attrs : gmap string Value;     (* names injected into __dict__ *)
  store : Store;                 (* the one-shot iterators of the caller *)
  log : list Event
}.

(** Field updates (Python attribute assignment). *)
Definition set_flow (v : list Node.t) (s : ParallelFlow) : ParallelFlow :=
  mkPF (cls s) v (verbose s) (crash_recovery s) (_train_data_iterables s)
       (_train_data_iterator s) (_i_train_node s) (_flownode s)
       (_exec_data_iterator s) (_next_task s) (_train_callable_class s)
       (_execute_callable_class s) (_checkpoints s) (attrs s) (store s) (log s).
Definition set_train_data_iterables (v : option (list Iterable)) (s : ParallelFlow) : ParallelFlow :=
  mkPF (cls s) (flow s) (verbose s) (crash_recovery s) v
       (_train_data_iterator s) (_i_train_node s) (_flownode s)
       (_exec_data_iterator s) (_next_task s) (_train_callable_class s)
       (_execute_callable_class s) (_checkpoints s) (attrs s) (store s) (log s).
Definition set_train_data_iterator (v : option Iterator) (s : ParallelFlow) : ParallelFlow :=
  mkPF (cls s) (flow s) (verbose s) (crash_recovery s) (_train_data_iterables s)
       v (_i_train_node s) (_flownode s)
       (_exec_data_iterator s) (_next_task s) (_train_callable_class s)
       (_execute_callable_class s) (_checkpoints s) (attrs s) (store s) (log s).
Definition set_i_train_node (v : option nat) (s : ParallelFlow) : ParallelFlow :=
  mkPF (cls s) (flow s) (verbose s) (crash_recovery s) (_train_data_iterables s)
       (_train_data_iterator s) v (_flownode s)
       (_exec_data_iterator s) (_next_task s) (_train_callable_class s)
       (_execute_callable_class s) (_checkpoints s) (attrs s) (store s) (log s).
Definition set_flownode (v : bool) (s : ParallelFlow) : ParallelFlow :=
  mkPF (cls s) (flow s) (verbose s) (crash_recovery s) (_train_data_iterables s)
       (_train_data_iterator s) (_i_train_node s) v
       (_exec_data_iterator s) (_next_task s) (_train_callable_class s)
       (_execute_callable_class s) (_checkpoints s) (attrs s) (store s) (log s).
Definition set_exec_data_iterator (v : option Iterator) (s : ParallelFlow) : ParallelFlow :=
  mkPF (cls s) (flow s) (verbose s) (crash_recovery s) (_train_data_iterables s)
       (_train_data_iterator s) (_i_train_node s) (_flownode s)
       v (_next_task s) (_train_callable_class s)
       (_execute_callable_class s) (_checkpoints s) (attrs s) (store s) (log s).
Definition set_next_task (v : option Task) (s : ParallelFlow) : ParallelFlow :=
  mkPF (cls s) (flow s) (verbose s) (crash_recovery s) (_train_data_iterables s)
       (_train_data_iterator s) (_i_train_node s) (_flownode s)
       (_exec_data_iterator s) v (_train_callable_class s)
       (_execute_callable_class s) (_checkpoints s) (attrs s) (store s) (log s).
Definition set_train_callable_class (v : option CallableClass) (s : ParallelFlow) : ParallelFlow :=
  mkPF (cls s) (flow s) (verbose s) (crash_recovery s) (_train_data_iterables s)
       (_train_data_iterator s) (_i_train_node s) (_flownode s)
       (_exec_data_iterator s) (_next_task s) v
       (_execute_callable_class s) (_checkpoints s) (attrs s) (store s) (log s).
Definition set_execute_callable_class (v : option CallableClass) (s : ParallelFlow) : ParallelFlow :=
  mkPF (cls s) (flow s) (verbose s) (crash_recovery s) (_train_data_iterables s)
       (_train_data_iterator s) (_i_train_node s) (_flownode s)
       (_exec_data_iterator s) (_next_task s) (_train_callable_class s)
       v (_checkpoints s) (attrs s) (store s) (log s).
Definition set_checkpoints (v : option (list (option CheckpointFn))) (s : ParallelFlow) : ParallelFlow :=
  mkPF (cls s) (flow s) (verbose s) (crash_recovery s) (_train_data_iterables s)
       (_train_data_iterator s) (_i_train_node s) (_flownode s)
       (_exec_data_iterator s) (_next_task s) (_train_callable_class s)
       (_execute_callable_class s) v (attrs s) (store s) (log s).
Definition set_attrs (v : gmap string Value) (s : ParallelFlow) : ParallelFlow :=
  mkPF (cls s) (flow s) (verbose s) (crash_recovery s) (_train_data_iterables s)
       (_train_data_iterator s) (_i_train_node s) (_flownode s)
       (_exec_data_iterator s) (_next_task s) (_train_callable_class s)
       (_execute_callable_class s) (_checkpoints s) v (store s) (log s).
Definition set_store (v : Store) (s : ParallelFlow) : ParallelFlow :=
  mkPF (cls s) (flow s) (verbose s) (crash_recovery s) (_train_data_iterables s)
       (_train_data_iterator s) (_i_train_node s) (_flownode s)
       (_exec_data_iterator s) (_next_task s) (_train_callable_class s)
       (_execute_callable_class s) (_checkpoints s) (attrs s) v (log s).
Definition emit (e : Event) (s : ParallelFlow) : ParallelFlow :=
  mkPF (cls s) (flow s) (verbose s) (crash_recovery s) (_train_data_iterables s)
       (_train_data_iterator s) (_i_train_node s) (_flownode s)
       (_exec_data_iterator s) (_next_task s) (_train_callable_class s)
       (_execute_callable_class s) (_checkpoints s) (attrs s) (store s) (log s ++ [e]).

(** ** The state-and-exception monad of the methods *)

Inductive Res (A : Type) :=
| Ok (a : A)
| Raise (e : Exn)
| OutOfFuel.   (* a loop of the model used up its budget; shown not to happen *)
Arguments Ok {A} a.
Arguments Raise {A} e.
Arguments OutOfFuel {A}.

(** Computations over a state [St]; the methods of the object run over the
    object itself. *)
Definition MS (St A : Type) : Type := St -> Res A * St.
Definition M (A : Type) : Type := MS ParallelFlow A.

Definition ret {St A} (a : A) : MS St A := fun s => (Ok a, s).
Definition raise {St A} (e : Exn) : MS St A := fun s => (Raise e, s).
Definition bind {St A B} (m : MS St A) (k : A -> MS St B) : MS St B :=
  fun s => match m s with
           | (Ok a, s') => k a s'
           | (Raise e, s') => (Raise e, s')
           | (OutOfFuel, s') => (OutOfFuel, s')
           end.
Definition get {St} : MS St St := fun s => (Ok s, s).
Definition modify {St} (f : St -> St) : MS St unit := fun s => (Ok tt, f s).

(** [try: body finally: cleanup] *)
Definition finally {St A} (body : MS St A) (cleanup : MS St unit) : MS St A :=
  fun s => match body s with
           | (r, s') =>
               match cleanup s' with
               | (Ok _, s'') => (r, s'')
               | (Raise e, s'') => (Raise e, s'')
               | (OutOfFuel, s'') => (OutOfFuel, s'')
               end
           end.

Declare Scope pf_scope.
Delimit Scope pf_scope with pf.
Notation "x <- m ;; k" := (bind m (fun x => k))
  (at level 100, m at next level, right associativity) : pf_scope.
Notation "m ;;; k" := (bind m (fun _ => k))
  (at level 100, right associativity) : pf_scope.
Open Scope pf_scope.

(** ** Properties of the object *)

Definition is_parallel_training (s : ParallelFlow) : bool :=
  bool_decide (_i_train_node s ≠ None).

Definition is_parallel_executing (s : ParallelFlow) : bool :=
  bool_decide (_exec_data_iterator s ≠ None).

Definition task_available (s : ParallelFlow) : bool :=
  bool_decide (_next_task s ≠ None).

(** ** The FlowNode around the live flow *)

Module FlowNode.

(** Modelled from the spec: the node a FlowNode works on, the first node of
    its flow that is still training. *)
Fixpoint first_training (fl : list Node.t) : option nat :=
  match fl with
  | [] => None
  | n :: rest => if Node.is_training n then Some 0
                 else S <$> first_training rest
  end.

(** Modelled from the spec: [mdp.hinet.FlowNode] is not among the sources.
    It wraps the live flow (the node objects are shared, not copied) so
    that the flow trains, forks and closes a phase as a single node; each
    operation concerns the first node that is still training.  [fork]
    forks that node and copies the others, or signals that the phase is
    not parallelizable. *)
Definition fork (fl : list Node.t) : option (list Node.t) :=
  match first_training fl with
  | None => None
  | Some j =>
      match fl !! j with
      | None => None
      | Some n =>
          match Node.fork n with
          | Some c => Some (<[j := c]> fl)
          | None => None
          end
      end
  end.

(** Modelled from the spec: [FlowNode.train(x)], the node in training
    learns the chunk. *)
Definition train (x : Chunk) : M unit := fun s =>
  match first_training (flow s) with
  | None => (Raise TrainingFinishedException, s)
  | Some j =>
      (Ok tt, emit (ELocalTrain j x)
                (set_flow (alter (Node.train x) j (flow s)) s))
  end.

(** Modelled from the spec: [FlowNode.stop_training()] closes the phase of
    the node in training. *)
Definition stop_training : M unit := fun s =>
  match first_training (flow s) with
  | None => (Raise TrainingFinishedException, s)
  | Some j =>
      match flow s !! j with
      | None => (Raise IndexError, s)
      | Some n =>
          match Node.stop_training n with
          | inl e => (Raise e, s)
          | inr n' => (Ok tt, emit (EFlowNodeStopTraining j)
                                (set_flow (<[j := n']> (flow s)) s))
          end
      end
  end.

End FlowNode.

(** ** Task creation *)

(** [_create_train_task]: a task without callable from the phase's iterator,
    [None] at the end of the data. *)
Definition _create_train_task : M (option Task) := fun s =>
  match _train_data_iterator s with
  | None => (Raise AttributeError, s)
  | Some it =>
      match next it (store s) with
      | Some (x, it', h') =>
          (Ok (Some (x, None)), set_store h' (set_train_data_iterator (Some it') s))
      | None => (Ok None, s)
      end
  end.

(** [_create_execute_task] *)
Definition _create_execute_task : M (option Task) := fun s =>
  match _exec_data_iterator s with
  | None => (Raise AttributeError, s)
  | Some it =>
      match next it (store s) with
      | Some (x, it', h') =>
          (Ok (Some (x, None)), set_store h' (set_exec_data_iterator (Some it') s))
      | None => (Ok None, s)
      end
  end.

(** [get_task] *)
Definition get_task : M Task := fun s =>
  match _next_task s with
  | Some task =>
      if is_parallel_training s then
        (t <- _create_train_task ;;
         modify (set_next_task t) ;;;
         ret task) s
      else if is_parallel_executing s then
        (t <- _create_execute_task ;;
         modify (set_next_task t) ;;;
         ret task) s
      else
        raise (NoTaskException NoDataForTask) s
  | None => raise (NoTaskException NoTaskAvailable) s
  end.

(** ** Hooks *)

(** [_stop_training_hook] of the base Flow: a hook point without effect. *)
Definition _stop_training_hook : M unit := modify (emit EStopTrainingHook).

(** [ParallelFlow._post_stop_training_hook]: pass. *)
Definition ParallelFlow_post_stop_training_hook : M unit :=
  modify (emit EPostStopTrainingHook).

(** [self.__dict__.update(dict)] *)
Definition dict_update (d : gmap string Value) (s : ParallelFlow) : ParallelFlow :=
  set_attrs (d ∪ attrs s) s.

(** [ParallelCheckpointFlow._post_stop_training_hook] *)
Definition ParallelCheckpointFlow_post_stop_training_hook : M unit :=
  ParallelFlow_post_stop_training_hook ;;;
  (fun s =>
     match _i_train_node s with
     | None => (Raise TypeError, s)
     | Some i_node =>
         match flow s !! i_node with
         | None => (Raise IndexError, s)
         | Some node =>
             if Node.get_remaining_train_phase node =? 0 then
               match _checkpoints s with
               | None => (Raise TypeError, s)
               | Some cps =>
                   if i_node <=? length cps then
                     match cps !! i_node with
                     | None => (Raise IndexError, s)
                     | Some None => (Ok tt, s)
                     | Some (Some f) =>
                         let s1 := emit (ECheckpoint i_node node) s in
                         match f node with
                         | Some d =>
                             if bool_decide (d = ∅) then (Ok tt, s1)
                             else (Ok tt, dict_update d s1)
                         | None => (Ok tt, s1)
                         end
                     end
                   else (Ok tt, s)
               end
             else (Ok tt, s)
         end
     end).

(** Method resolution on the class of the object. *)
Definition _post_stop_training_hook : M unit := fun s =>
  match cls s with
  | ParallelFlowClass => ParallelFlow_post_stop_training_hook s
  | ParallelCheckpointFlowClass => ParallelCheckpointFlow_post_stop_training_hook s
  end.

(** ** Training phases *)

(** The phase-aware diagnostic for a data source without chunks
    (the same test in [_next_train_phase] and [_local_train_phase]). *)
Definition empty_source_error (current_node : Node.t) (i : nat) : Exn :=
  if Node.get_current_train_phase current_node =? 1
  then FlowException (NotReplayable (i + 1))
  else FlowException (IteratorEmpty (i + 1)).

(** [FlowTrainCallable.__call__] on the FlowNode itself (local training):
    train the flow node with the data. *)
Definition FlowTrainCallable_call (data : Chunk) : M unit :=
  FlowNode.train data.

(** The [for ... in enumerate(data_iterable)] loop of [_local_train_phase]:
    each chunk is taken from the source, then fed to the callable. *)
Fixpoint local_train_chunks (src : Iterator) (chunks : list Chunk) : M unit :=
  match chunks with
  | [] => ret tt
  | x :: rest =>
      modify (fun s => match src with
                       | SharedIterator r => set_store (<[r := rest]> (store s)) s
                       | ListIterator _ => s
                       end) ;;;
      FlowTrainCallable_call x ;;;
      local_train_chunks src rest
  end.

(** [_local_train_phase(data_iterable)] *)
Definition _local_train_phase (data_iterable : Iterable) : M unit := fun s =>
  match _i_train_node s with
  | None => (Raise TypeError, s)
  | Some i =>
      match flow s !! i with
      | None => (Raise IndexError, s)
      | Some _ =>
          match _train_callable_class s with
          | None => (Raise TypeError, s)
          | Some _ =>
              let src := iter data_iterable in
              let chunks := remaining src (store s) in
              (local_train_chunks src chunks ;;;
               (fun s' =>
                  match chunks with
                  | [] =>
                      match flow s' !! i with
                      | Some current_node => (Raise (empty_source_error current_node i), s')
                      | None => (Raise IndexError, s')
                      end
                  | _ :: _ => (Ok tt, s')
                  end)) s
          end
      end
  end.

(** The body of the [try] in [_next_train_phase] once the fork has
    succeeded: open the iterator, create the first task, buffer it with a
    new callable around the forked flow node. *)
Definition start_parallel_phase (i : nat) (data_iterable : Iterable)
    (forked : list Node.t) : M unit :=
  modify (set_train_data_iterator (Some (iter data_iterable))) ;;;
  first_task <- _create_train_task ;;
  (fun s =>
     match first_task with
     | None =>
         match flow s !! i with
         | Some current_node => (Raise (empty_source_error current_node i), s)
         | None => (Raise IndexError, s)
         end
     | Some ft =>
         match _train_callable_class s with
         | None => (Raise TypeError, s)
         | Some c =>
             (Ok tt, set_next_task (Some (ft.1, Some (mkCallable c forked))) s)
         end
     end).

(** The [except TrainingPhaseNotParallelException] branch: train locally,
    close the phase, run the hooks, advance when the node is done. *)
Definition local_fallback (i : nat) (data_iterable : Iterable) : M unit :=
  _local_train_phase data_iterable ;;;
  _stop_training_hook ;;;
  FlowNode.stop_training ;;;
  _post_stop_training_hook ;;;
  (fun s =>
     match _i_train_node s with
     | None => (Raise TypeError, s)
     | Some i' =>
         match flow s !! i' with
         | None => (Raise IndexError, s)
         | Some n =>
             if negb (Node.is_training n)
             then (Ok tt, set_i_train_node (Some (i' + 1)) s)
             else (Ok tt, s)
         end
     end).

(** The [while ... else] loop of [_next_train_phase]. *)
Fixpoint _next_train_phase_loop (fuel : nat) : M unit := fun s =>
  match fuel with
  | 0 => (OutOfFuel, s)
  | S fuel' =>
      match _i_train_node s with
      | None => (Raise TypeError, s)
      | Some i =>
          if i <? length (flow s) then
            match flow s !! i with
            | None => (Raise IndexError, s)
            | Some current_node =>
                if negb (Node.is_training current_node) then
                  _next_train_phase_loop fuel' (set_i_train_node (Some (i + 1)) s)
                else
                  match _train_data_iterables s with
                  | None => (Raise TypeError, s)
                  | Some its =>
                      match its !! i with
                      | None => (Raise IndexError, s)
                      | Some data_iterable =>
                          match FlowNode.fork (flow s) with
                          | Some forked =>
                              start_parallel_phase i data_iterable forked s
                          | None =>
                              (local_fallback i data_iterable ;;;
                               _next_train_phase_loop fuel') s
                          end
                      end
                  end
            end
          else (Ok tt, set_i_train_node None s)
      end
  end.

(** Training phases still to be closed in a flow. *)
Definition total_remaining (fl : list Node.t) : nat :=
  sum_list (Node.get_remaining_train_phase <$> fl).

(** A bound on the iterations of the loop: every iteration that continues
    either moves the index forward or closes a training phase. *)
Definition phase_budget (s : ParallelFlow) : nat :=
  S (length (flow s) + total_remaining (flow s)).

(** [_next_train_phase] *)
Definition _next_train_phase : M unit :=
  modify (set_flownode true) ;;;
  (fun s => _next_train_phase_loop (phase_budget s) s).

(** ** The base classes

    [mdp.Flow] and [mdp.CheckpointFlow] are not among the sources.  The
    methods of theirs that the module calls are the interface below; every
    result about the module holds for any implementation of it. *)
Class BaseFlow := {
  (** [Flow.__init__(flow, verbose=..., **kwargs)]: stores the flow and the
      verbose flag; the result is the crash-recovery state it sets up. *)
  Flow_init : list Node.t -> bool -> gmap string Value -> Exn + bool;
  (** [Flow._train_check_iterables]: checks the iterables against the flow
      and returns them sanitized. *)
  _train_check_iterables : list Node.t -> list Iterable -> Exn + list Iterable;
  (** [CheckpointFlow._train_check_checkpoints]: the same for the
      checkpoint functions. *)
  _train_check_checkpoints :
    list Node.t -> list (option CheckpointFn) -> Exn + list (option CheckpointFn);
  (** [Flow.train] (sequential training) *)
  Flow_train : list Iterable -> M unit;
  (** [Flow.execute] (sequential execution) *)
  Flow_execute : Iterable -> option nat -> M Chunk
}.

(** [numx.concatenate]: the arrays one after the other; numx rejects an
    empty sequence of arrays. *)
Definition concatenate (results : list Result) : Exn + Chunk :=
  match results with
  | [] => inl ValueError
  | _ =>
      foldr (fun r acc =>
               match r, acc with
               | RArray a, inr rest => inr (a ++ rest)
               | RArray _, inl e => inl e
               | RNode _, _ => inl TypeError
               end) (inr []) results
  end.

(** [node.join(result)] on the live node [flow[i]]. *)
Definition join_result (i : nat) (result : Result) : M unit := fun s =>
  match result with
  | RNode forked =>
      (Ok tt, emit (EJoin i result)
                (set_flow (alter (Node.join forked) i (flow s)) s))
  | RArray _ => (Raise TypeError, s)
  end.

(** [for result in results: node.join(result)] *)
Fixpoint join_results (i : nat) (results : list Result) : M unit :=
  match results with
  | [] => ret tt
  | r :: rest => join_result i r ;;; join_results i rest
  end.

(** [node.stop_training()] on the live node [flow[i]]. *)
Definition node_stop_training (i : nat) : M unit := fun s =>
  match flow s !! i with
  | None => (Raise IndexError, s)
  | Some n =>
      match Node.stop_training n with
      | inl e => (Raise e, s)
      | inr n' => (Ok tt, emit (EStopTraining i) (set_flow (<[i := n']> (flow s)) s))
      end
  end.

(** [if not node.is_training(): self._i_train_node += 1] for the node that
    was [flow[i]] on entry of [use_results]. *)
Definition advance_if_trained (i : nat) : M unit := fun s =>
  match flow s !! i with
  | None => (Raise IndexError, s)
  | Some n =>
      if negb (Node.is_training n) then
        match _i_train_node s with
        | None => (Raise TypeError, s)
        | Some i' => (Ok tt, set_i_train_node (Some (i' + 1)) s)
        end
      else (Ok tt, s)
  end.

(** The training branch of [use_results] up to the re-run of
    [_next_train_phase]: join, close the phase, hooks, advance. *)
Definition close_parallel_phase (i : nat) (results : list Result) : M unit :=
  join_results i results ;;;
  _stop_training_hook ;;;
  node_stop_training i ;;;
  _post_stop_training_hook ;;;
  advance_if_trained i.

(** [use_results(results)] *)
Definition use_results (results : list Result) : M (option Chunk) := fun s =>
  if is_parallel_training s then
    match _i_train_node s with
    | None => (Raise TypeError, s)
    | Some i =>
        match flow s !! i with
        | None => (Raise IndexError, s)
        | Some _ =>
            (close_parallel_phase i results ;;;
             _next_train_phase ;;;
             ret None) s
        end
    end
  else if is_parallel_executing s then
    (modify (set_exec_data_iterator None) ;;;
     match concatenate results with
     | inl e => raise e
     | inr out => ret (Some out)
     end) s
  else (Ok None, s).

Section Coordinator.
Context `{Base : BaseFlow}.

(** [ParallelFlow.setup_parallel_training] *)
Definition ParallelFlow_setup_parallel_training
    (data_iterables : list Iterable) (train_callable_class : CallableClass) : M unit :=
  fun s =>
    if is_parallel_training s then
      (Raise (ParallelFlowException TrainingAlreadyUnderway), s)
    else
      let s1 := set_train_callable_class (Some train_callable_class) s in
      match _train_check_iterables (flow s1) data_iterables with
      | inl e => (Raise e, s1)
      | inr its =>
          _next_train_phase
            (set_i_train_node (Some 0) (set_train_data_iterables (Some its) s1))
      end.

(** [ParallelCheckpointFlow.setup_parallel_training] *)
Definition ParallelCheckpointFlow_setup_parallel_training
    (data_iterables : list Iterable) (checkpoints : list (option CheckpointFn))
    (train_callable_class : CallableClass) : M unit :=
  fun s =>
    match _train_check_checkpoints (flow s) checkpoints with
    | inl e => (Raise e, s)
    | inr cps =>
        ParallelFlow_setup_parallel_training data_iterables train_callable_class
          (set_checkpoints (Some cps) s)
    end.

(** [self.setup_parallel_training(data_iterables, train_callable_class=...,
    **kwargs)] as [train] calls it: the method of the object's class, with
    [checkpoints] among the keywords or not. *)
Definition setup_parallel_training
    (data_iterables : list Iterable) (checkpoints : option (list (option CheckpointFn)))
    (train_callable_class : CallableClass) : M unit :=
  fun s =>
    match cls s, checkpoints with
    | ParallelFlowClass, None =>
        ParallelFlow_setup_parallel_training data_iterables train_callable_class s
    | ParallelCheckpointFlowClass, Some cps =>
        ParallelCheckpointFlow_setup_parallel_training
          data_iterables cps train_callable_class s
    | _, _ => (Raise TypeError, s)
    end.

(** [setup_parallel_execution(iterable, nodenr, execute_callable_class)];
    a single array is passed as the one-element list that the method would
    wrap it into.  The callable is built from the flow alone. *)
Definition setup_parallel_execution
    (iterable : Iterable) (nodenr : option nat)
    (execute_callable_class : CallableClass) : M unit :=
  fun s =>
    if is_parallel_training s then
      (Raise (ParallelFlowException TrainingUnderway), s)
    else
      (modify (set_execute_callable_class (Some execute_callable_class)) ;;;
       modify (set_exec_data_iterator (Some (iter iterable))) ;;;
       first_task <- _create_execute_task ;;
       match first_task with
       | None => raise (FlowException ExecuteIteratorEmpty)
       | Some ft =>
           (fun s' =>
              match _execute_callable_class s' with
              | None => (Raise TypeError, s')
              | Some c =>
                  (Ok tt, set_next_task
                            (Some (ft.1, Some (mkCallable c (flow s')))) s')
              end)
       end) s.

End Coordinator.

(** ** Schedulers (external collaborators)

    A scheduler is known by its interface only: [add_task], [get_results],
    [result_container] and [shutdown].  What it computes from the tasks it was
    given is its own business, the [worker] of the model. *)
Inductive Container := NodeResultContainer | OrderedResultContainer | OtherContainer.

Record Scheduler := mkScheduler {
  sched_id : nat;
  result_container : Container;
  queue : list Task;
  worker : Container -> list Task -> list Result
}.

(** What the [scheduler] argument and local variable of [train] can hold:
    [None], a Scheduler instance, or an iterable of schedulers (each of which
    may be [None]). *)
Inductive SchedulerValue :=
| IsNone
| IsScheduler (sc : Scheduler)
| IsIterable (scs : list (option Scheduler)).

Definition of_entry (e : option Scheduler) : SchedulerValue :=
  match e with Some sc => IsScheduler sc | None => IsNone end.

(** The activation frame of [train] and [execute]: the object and the local
    variables that the [finally] clause still reads. *)
Record Frame := mkFrame {
  self : ParallelFlow;
  scheduler : SchedulerValue;
  schedulers : option (list (option Scheduler));
  last_trained_node : option nat
}.

Definition on_self {A} (m : M A) : MS Frame A := fun f =>
  match m (self f) with
  | (r, s') => (r, mkFrame s' (scheduler f) (schedulers f) (last_trained_node f))
  end.

Definition set_scheduler (v : SchedulerValue) (f : Frame) : Frame :=
  mkFrame (self f) v (schedulers f) (last_trained_node f).
Definition set_schedulers (v : option (list (option Scheduler))) (f : Frame) : Frame :=
  mkFrame (self f) (scheduler f) v (last_trained_node f).
Definition set_last_trained_node (v : option nat) (f : Frame) : Frame :=
  mkFrame (self f) (scheduler f) (schedulers f) v.
Definition emit_frame (e : Event) (f : Frame) : Frame :=
  mkFrame (emit e (self f)) (scheduler f) (schedulers f) (last_trained_node f).

(** [if scheduler is not None: scheduler.shutdown()] *)
Definition shutdown_unless_none : MS Frame unit := fun f =>
  match scheduler f with
  | IsScheduler sc => (Ok tt, emit_frame (EShutdown (sched_id sc)) f)
  | IsNone => (Ok tt, f)
  | IsIterable _ => (Raise AttributeError, f)
  end.

(** [scheduler = schedulers.next()] *)
Definition next_scheduler : MS Frame unit := fun f =>
  match schedulers f with
  | None => (Raise AttributeError, f)
  | Some [] => (Raise StopIteration, f)
  | Some (e :: rest) =>
      (Ok tt, emit_frame ENextScheduler
                (set_schedulers (Some rest) (set_scheduler (of_entry e) f)))
  end.

(** [for _ in range(n): if scheduler is not None: scheduler.shutdown();
    scheduler = schedulers.next()] *)
Fixpoint dispose_schedulers (n : nat) : MS Frame unit :=
  match n with
  | 0 => ret tt
  | S n' => shutdown_unless_none ;;; next_scheduler ;;; dispose_schedulers n'
  end.

(** [isinstance(container, NodeResultContainer)] *)
Definition is_node_result_container (c : Container) : bool :=
  match c with NodeResultContainer => true | _ => false end.

(** The compatibility check of the result container in [train]. *)
Definition ensure_node_result_container (overwrite_result_container : bool) : MS Frame unit :=
  fun f =>
    match scheduler f with
    | IsScheduler sc =>
        if overwrite_result_container
           && negb (is_node_result_container (result_container sc))
        then (Ok tt, set_scheduler
                       (IsScheduler (mkScheduler (sched_id sc) NodeResultContainer
                                       (queue sc) (worker sc))) f)
        else (Ok tt, f)
    | IsNone => (Ok tt, f)
    | IsIterable _ =>
        if overwrite_result_container then (Raise AttributeError, f) else (Ok tt, f)
    end.

(** [scheduler.add_task(data, callable)] *)
Definition add_task (task : Task) : MS Frame unit := fun f =>
  match scheduler f with
  | IsScheduler sc =>
      (Ok tt, emit_frame (EAddTask (sched_id sc) task)
                (set_scheduler
                   (IsScheduler (mkScheduler (sched_id sc) (result_container sc)
                                   (queue sc ++ [task]) (worker sc))) f))
  | _ => (Raise AttributeError, f)
  end.

(** [scheduler.get_results()] *)
Definition get_results : MS Frame (list Result) := fun f =>
  match scheduler f with
  | IsScheduler sc =>
      (Ok (worker sc (result_container sc) (queue sc)),
       emit_frame (EGetResults (sched_id sc))
         (set_scheduler
            (IsScheduler (mkScheduler (sched_id sc) (result_container sc) []
                            (worker sc))) f))
  | _ => (Raise AttributeError, f)
  end.

(** [while self.task_available: task = self.get_task();
    scheduler.add_task(data, callable)] *)
Fixpoint drain_tasks (fuel : nat) : MS Frame unit := fun f =>
  match fuel with
  | 0 => (OutOfFuel, f)
  | S fuel' =>
      if task_available (self f) then
        (task <- on_self get_task ;;
         add_task task ;;;
         drain_tasks fuel') f
      else (Ok tt, f)
  end.

(** Every task handed out takes a chunk from the iterator in use or empties
    the buffer. *)
Definition drain_budget (s : ParallelFlow) : nat :=
  2 + length (from_option (fun it => remaining it (store s)) [] (_train_data_iterator s))
    + length (from_option (fun it => remaining it (store s)) [] (_exec_data_iterator s)).

(** The switch to the next scheduler after [use_results] in [train]. *)
Definition switch_scheduler (overwrite_result_container : bool) : MS Frame unit :=
  fun f =>
    match schedulers f, _i_train_node (self f) with
    | Some _, Some i =>
        match last_trained_node f with
        | Some last =>
            if last <? i then
              (dispose_schedulers (i - last) ;;;
               modify (set_last_trained_node (Some i)) ;;;
               ensure_node_result_container overwrite_result_container) f
            else (Ok tt, f)
        | None => (Raise TypeError, f)
        end
    | _, _ => (Ok tt, f)
    end.

(** One round of the [while self.is_parallel_training] loop of [train]. *)
Definition train_round (overwrite_result_container : bool) : MS Frame unit :=
  (fun f => drain_tasks (drain_budget (self f)) f) ;;;
  results <- get_results ;;
  match results with
  | [] => raise (PlainException NoResults)
  | _ => on_self (use_results results) ;;; ret tt
  end ;;;
  switch_scheduler overwrite_result_container.

(** The [while self.is_parallel_training] loop of [train]. *)
Fixpoint train_loop (overwrite_result_container : bool) (fuel : nat) : MS Frame unit :=
  fun f =>
    match fuel with
    | 0 => (OutOfFuel, f)
    | S fuel' =>
        if is_parallel_training (self f) then
          (train_round overwrite_result_container ;;;
           train_loop overwrite_result_container fuel') f
        else (Ok tt, f)
    end.

(** The scheduler preparation of [train] when [scheduler] is an iterable. *)
Definition prepare_schedulers (scs : list (option Scheduler)) : MS Frame unit :=
  modify (set_schedulers (Some scs)) ;;;
  next_scheduler ;;;
  (fun f =>
     match _i_train_node (self f) with
     | Some i =>
         if 0 <? i then dispose_schedulers i f else (Ok tt, f)
     | None => dispose_schedulers (length (flow (self f)) - 1) f
     end) ;;;
  (fun f => (Ok tt, set_last_trained_node (_i_train_node (self f)) f)).

(** The [finally] clause of [train]. *)
Definition train_cleanup : MS Frame unit :=
  on_self (modify (set_train_data_iterables None)) ;;;
  on_self (modify (set_train_data_iterator None)) ;;;
  (fun f =>
     match schedulers f with
     | Some _ => shutdown_unless_none f
     | None => (Ok tt, f)
     end).

Section Drivers.
Context `{Base : BaseFlow}.

(** The parallel branch of [train]: the [try ... finally] statement. *)
Definition train_parallel
    (data_iterables : list Iterable) (checkpoints : option (list (option CheckpointFn)))
    (train_callable_class : CallableClass)
    (overwrite_result_container : bool) : MS Frame unit :=
  finally
    (on_self (setup_parallel_training data_iterables checkpoints train_callable_class) ;;;
     (fun f =>
        match scheduler f with
        | IsIterable scs => prepare_schedulers scs f
        | _ => (Ok tt, set_schedulers None f)
        end) ;;;
     ensure_node_result_container overwrite_result_container ;;;
     (fun f => train_loop overwrite_result_container
                 (S (total_remaining (flow (self f)))) f))
    train_cleanup.

(** [ParallelFlow.train(data_iterables, scheduler, train_callable_class,
    overwrite_result_container, **kwargs)], run on a frame whose
    [scheduler] holds the argument. *)
Definition train
    (data_iterables : list Iterable) (checkpoints : option (list (option CheckpointFn)))
    (train_callable_class : option CallableClass)
    (overwrite_result_container : bool) : MS Frame unit :=
  fun f =>
    if is_parallel_training (self f) then
      (Raise (ParallelFlowException TrainingUnderway), f)
    else
      match scheduler f with
      | IsNone =>
          match train_callable_class with
          | Some _ => (Raise (ParallelFlowException TrainCallableWithoutScheduler), f)
          | None => on_self (Flow_train data_iterables) f
          end
      | _ =>
          train_parallel data_iterables checkpoints
            (default FlowTrainCallable train_callable_class)
            overwrite_result_container (set_schedulers None f)
      end.

(** [ParallelCheckpointFlow.train]: the same with the checkpoints among the
    keywords; its default for [train_callable_class] is the class
    FlowTrainCallable, not [None]. *)
Definition ParallelCheckpointFlow_train
    (data_iterables : list Iterable) (checkpoints : list (option CheckpointFn))
    (train_callable_class : option CallableClass)
    (overwrite_result_container : bool) : MS Frame unit :=
  train data_iterables (Some checkpoints) train_callable_class
    overwrite_result_container.

(** The result-container check of [execute]. *)
Definition ensure_ordered_result_container (overwrite_result_container : bool)
    : MS Frame unit :=
  fun f =>
    if overwrite_result_container then
      match scheduler f with
      | IsScheduler sc =>
          match result_container sc with
          | OrderedResultContainer => (Ok tt, f)
          | _ => (Ok tt, set_scheduler
                          (IsScheduler (mkScheduler (sched_id sc) OrderedResultContainer
                                          (queue sc) (worker sc))) f)
          end
      | _ => (Raise AttributeError, f)
      end
    else (Ok tt, f).

(** [ParallelFlow.execute(iterable, nodenr, scheduler,
    execute_callable_class, overwrite_result_container)] *)
Definition execute
    (iterable : Iterable) (nodenr : option nat)
    (execute_callable_class : option CallableClass)
    (overwrite_result_container : bool) : MS Frame (option Chunk) :=
  fun f =>
    if is_parallel_training (self f) then
      (Raise (ParallelFlowException TrainingUnderway), f)
    else
      match scheduler f with
      | IsNone =>
          match execute_callable_class with
          | Some _ => (Raise (ParallelFlowException ExecuteCallableWithoutScheduler), f)
          | None => on_self (x <- Flow_execute iterable nodenr ;; ret (Some x)) f
          end
      | _ =>
          (ensure_ordered_result_container overwrite_result_container ;;;
           finally
             (on_self (setup_parallel_execution iterable nodenr
                         (default FlowExecuteCallable execute_callable_class)) ;;;
              (fun f1 => drain_tasks (drain_budget (self f1)) f1) ;;;
              results <- get_results ;;
              on_self (use_results results))
             (on_self (modify (set_exec_data_iterator None)))) f
      end.

(** ** Construction *)

(** [ParallelFlow.__init__(flow, verbose=False, **kwargs)] for an object of
    class [c]; [cps] is what the subclass constructor put into
    [_checkpoints] before. *)
Definition ParallelFlow_init (c : FlowClass) (fl : list Node.t) (verb : bool)
    (kwargs : gmap string Value) : Exn + ParallelFlow :=
  let kwargs := <["crash_recovery" := VBool false]> kwargs in
  match Flow_init fl verb kwargs with
  | inl e => inl e
  | inr cr =>
      inr (mkPF c fl verb cr None None None false None None None None None ∅ ∅ [])
  end.

(** [ParallelCheckpointFlow.__init__] *)
Definition ParallelCheckpointFlow_init (fl : list Node.t) (verb : bool)
    (kwargs : gmap string Value) : Exn + ParallelFlow :=
  ParallelFlow_init ParallelCheckpointFlowClass fl verb kwargs.

End Drivers.

(** ** Reachable states

    The states a caller can bring the object into: construct it, then call
    the manual protocol or the driver methods in any order, whatever they
    return or raise.  The store of one-shot iterators belongs to the caller,
    who may put any iterators there. *)
Inductive Call :=
| CallSetupTraining (its : list Iterable) (cps : option (list (option CheckpointFn)))
    (tcc : CallableClass)
| CallSetupExecution (it : Iterable) (nodenr : option nat) (ecc : CallableClass)
| CallGetTask
| CallUseResults (rs : list Result)
| CallTrain (its : list Iterable) (cps : option (list (option CheckpointFn)))
    (sched : SchedulerValue) (tcc : option CallableClass) (overwrite : bool)
| CallExecute (it : Iterable) (nodenr : option nat)
    (sched : SchedulerValue) (ecc : option CallableClass) (overwrite : bool)
| CallerSetsStore (h : Store).

Section Reachable.
Context `{Base : BaseFlow}.

(** The state after a call. *)
Definition after (c : Call) (s : ParallelFlow) : ParallelFlow :=
  match c with
  | CallSetupTraining its cps tcc => (setup_parallel_training its cps tcc s).2
  | CallSetupExecution it nodenr ecc => (setup_parallel_execution it nodenr ecc s).2
  | CallGetTask => (get_task s).2
  | CallUseResults rs => (use_results rs s).2
  | CallTrain its cps sched tcc ow =>
      self (train its cps tcc ow (mkFrame s sched None None)).2
  | CallExecute it nodenr sched ecc ow =>
      self (execute it nodenr ecc ow (mkFrame s sched None None)).2
  | CallerSetsStore h => set_store h s
  end.

Definition run (calls : list Call) (s : ParallelFlow) : ParallelFlow :=
  foldl (fun st c => after c st) s calls.

Inductive reachable : ParallelFlow -> Prop :=
| reachable_init c fl verb kwargs s :
    ParallelFlow_init c fl verb kwargs = inr s -> reachable s
| reachable_call c s :
    reachable s -> reachable (after c s).

End Reachable.

(** ** Sample objects

    A plain implementation of the base-class interface and a few nodes and
    flows, to run the methods on. *)

(** The base constructor takes the keyword [crash_recovery] (default False)
    and no other; the checks compare lengths with the flow and pad the
    checkpoints with [None]. *)
Definition SampleBase : BaseFlow := {|
  Flow_init := fun _ _ kwargs =>
    if bool_decide (delete "crash_recovery" kwargs = ∅) then
      match kwargs !! "crash_recovery" with
      | Some (VBool b) => inr b
      | Some _ => inr true
      | None => inr false
      end
    else inl TypeError;
  _train_check_iterables := fun fl its =>
    if length its =? length fl then inr its else inl (FlowException WrongIterables);
  _train_check_checkpoints := fun fl cps =>
    if length cps <=? length fl
    then inr (cps ++ replicate (length fl - length cps) None)
    else inl (FlowException WrongIterables);
  Flow_train := fun _ => ret tt;
  Flow_execute := fun _ _ => ret []
|}.

(** A node with the given phases (forkable or not), untrained. *)
Definition fresh_node (phases : list bool) : Node.t := Node.mk phases 0 [].

(** A new ParallelFlow around [fl], with the caller's iterators in [h]. *)
Definition new_flow (c : FlowClass) (fl : list Node.t) (h : Store) : ParallelFlow :=
  mkPF c fl false false None None None false None None None None None ∅ h [].

(** An execution over two chunks whose results are handed in after the
    first task only: the second task is left in the buffer. *)
Definition stale_buffer_state : ParallelFlow :=
  run (Base := SampleBase)
    [CallSetupExecution (Relist [[1]; [2]]) None FlowExecuteCallable;
     CallGetTask;
     CallUseResults [RArray [1]]]
    (new_flow ParallelFlowClass [fresh_node [true]] ∅).

(** A parallel execution has been set up and not finished. *)
Definition executing_state : ParallelFlow :=
  run (Base := SampleBase)
    [CallSetupExecution (Relist [[1]; [2]]) None FlowExecuteCallable]
    (new_flow ParallelFlowClass [fresh_node [true]] ∅).

(** Training set up on top of an unfinished execution. *)
Definition training_over_execution_state : ParallelFlow :=
  run (Base := SampleBase)
    [CallSetupTraining [Relist [[7]]] None FlowTrainCallable]
    executing_state.

(** The constructor honours the keyword it is given. *)
Definition honours_crash_recovery_keyword (Base : BaseFlow) : Prop :=
  forall fl verb kwargs b cr,
    kwargs !! "crash_recovery" = Some (VBool b) ->
    Flow_init fl verb kwargs = inr cr -> cr = b.

(** A phase is open for [get_task]: parallel training is underway with its
    data iterator, or no training but a parallel execution is underway. *)
Definition phase_open (s : ParallelFlow) : Prop :=
  (is_parallel_training s = true /\ _train_data_iterator s <> None)
  \/ (is_parallel_training s = false /\ is_parallel_executing s = true).

(** ** The loop of [_next_train_phase], one iteration at a time *)

(** What one iteration of the loop does: go round again ([continue], or the
    end of the [except] branch), or leave the loop ([break], the [else] of
    the [while], an exception). *)
Inductive Step :=
| Continue (s' : ParallelFlow)
| Stop (r : Res unit) (s' : ParallelFlow).

Definition phase_step (s : ParallelFlow) : Step :=
  match _i_train_node s with
  | None => Stop (Raise TypeError) s
  | Some i =>
      if i <? length (flow s) then
        match flow s !! i with
        | None => Stop (Raise IndexError) s
        | Some current_node =>
            if negb (Node.is_training current_node) then
              Continue (set_i_train_node (Some (i + 1)) s)
            else
              match _train_data_iterables s with
              | None => Stop (Raise TypeError) s
              | Some its =>
                  match its !! i with
                  | None => Stop (Raise IndexError) s
                  | Some data_iterable =>
                      match FlowNode.fork (flow s) with
                      | Some forked =>
                          let (r, s') := start_parallel_phase i data_iterable forked s in
                          Stop r s'
                      | None =>
                          match local_fallback i data_iterable s with
                          | (Ok _, s') => Continue s'
                          | (r, s') => Stop r s'
                          end
                      end
                  end
              end
        end
      else Stop (Ok tt) (set_i_train_node None s)
  end.

(** The loop variant: nodes still to visit plus phases still to close. *)
Definition phase_measure (s : ParallelFlow) : nat :=
  match _i_train_node s with
  | Some i => (length (flow s) - i) + total_remaining (flow s)
  | None => 0
  end.

(** ** States in which training can go on *)

(** An object of the checkpoint class has checkpoints for all its nodes
    (what [_train_check_checkpoints] is there to ensure). *)
Definition checkpoints_ready (s : ParallelFlow) : Prop :=
  match cls s with
  | ParallelFlowClass => True
  | ParallelCheckpointFlowClass =>
      exists cps, _checkpoints s = Some cps /\ length (flow s) <= length cps
  end.

(** [setup_parallel_training] has stored iterables for all nodes, the
    callable class and the checkpoints. *)
Definition training_ready (s : ParallelFlow) : Prop :=
  (exists its, _train_data_iterables s = Some its /\ length (flow s) <= length its)
  /\ is_Some (_train_callable_class s)
  /\ checkpoints_ready s.

(** The nodes in front of index [i] are fully trained. *)
Definition prefix_trained (fl : list Node.t) (i : nat) : Prop :=
  forall k n, k < i -> fl !! k = Some n -> Node.is_training n = false.

(** The invariant of the loop of [_next_train_phase]. *)
Definition loop_inv (s : ParallelFlow) : Prop :=
  training_ready s
  /\ exists i, _i_train_node s = Some i /\ i <= length (flow s)
               /\ prefix_trained (flow s) i.

(** A parallel training phase is open at node [i]: the state
    [_next_train_phase] leaves behind when it has found a phase. *)
Definition training_phase_open (s : ParallelFlow) (i : nat) (n : Node.t) : Prop :=
  training_ready s
  /\ _i_train_node s = Some i
  /\ flow s !! i = Some n
  /\ Node.is_training n = true
  /\ prefix_trained (flow s) i.

(** A node after [stop_training]. *)
Definition stopped (n : Node.t) : Node.t :=
  Node.mk (Node.train_seq n) (S (Node.train_phase n)) (Node.learned n).

(** The checkpoint function that [_post_stop_training_hook] calls for node
    [i], seen in state [n], if any. *)
Definition checkpoint_at (s : ParallelFlow) (i : nat) (n : Node.t) : option CheckpointFn :=
  match cls s with
  | ParallelFlowClass => None
  | ParallelCheckpointFlowClass =>
      if Node.get_remaining_train_phase n =? 0 then
        match _checkpoints s with
        | Some cps => if i <=? length cps then mjoin (cps !! i) else None
        | None => None
        end
      else None
  end.

(** The effect of calling it. *)
Definition fire (i : nat) (n : Node.t) (f : option CheckpointFn) (s : ParallelFlow)
    : ParallelFlow :=
  match f with
  | None => s
  | Some f =>
      let s1 := emit (ECheckpoint i n) s in
      match f n with
      | Some d => if bool_decide (d = ∅) then s1 else dict_update d s1
      | None => s1
      end
  end.

(** The state after the chunks of a local training phase have been fed to
    node [j]. *)
Fixpoint local_trained (j : nat) (src : Iterator) (chunks : list Chunk)
    (s : ParallelFlow) : ParallelFlow :=
  match chunks with
  | [] => s
  | x :: rest =>
      let s1 := match src with
                | SharedIterator r => set_store (<[r := rest]> (store s)) s
                | ListIterator _ => s
                end in
      local_trained j src rest
        (emit (ELocalTrain j x) (set_flow (alter (Node.train x) j (flow s1)) s1))
  end.

(** The state after a phase of node [i] was closed: [stop_event] records the
    call of [stop_training], then come the hook and the step to the next
    node when [i] has no phase left. *)
Definition phase_closed (i : nat) (n : Node.t) (stop_event : Event) (s : ParallelFlow)
    : ParallelFlow :=
  let s2 := emit stop_event
              (set_flow (<[i := stopped n]> (flow s)) (emit EStopTrainingHook s)) in
  let s3 := fire i (stopped n) (checkpoint_at s2 i (stopped n))
              (emit EPostStopTrainingHook s2) in
  if Node.is_training (stopped n) then s3 else set_i_train_node (Some (i + 1)) s3.

(** What decides whether a node is training: its phases and the phase it is
    in. *)
Definition status (n : Node.t) : list bool * nat :=
  (Node.train_seq n, Node.train_phase n).

(** No node of the flow is training any more. *)
Definition all_trained (fl : list Node.t) : Prop :=
  forall k n, fl !! k = Some n -> Node.is_training n = false.

(** How [_next_train_phase] can end: with a phase open and its first task,
    callable included, in the buffer; with the training finished; or with
    the failure of a data source that has no chunk. *)
Definition phase_outcome (r : Res unit) (s' : ParallelFlow) : Prop :=
  match r with
  | Ok _ =>
      (exists i n x c,
         training_phase_open s' i n
         /\ _next_task s' = Some (x, Some c)
         /\ is_Some (_train_data_iterator s'))
      \/ (_i_train_node s' = None /\ all_trained (flow s') /\ training_ready s')
  | Raise e =>
      exists i n, training_phase_open s' i n /\ e = empty_source_error n i
  | OutOfFuel => False
  end.

(** [s1] differs from [s] in nothing that the course of the training
    depends on: same class, index, iterables, callable class and
    checkpoints, and nodes in the same phases. *)
Definition same_setup (s s1 : ParallelFlow) : Prop :=
  cls s1 = cls s
  /\ _i_train_node s1 = _i_train_node s
  /\ _train_data_iterables s1 = _train_data_iterables s
  /\ _train_callable_class s1 = _train_callable_class s
  /\ _checkpoints s1 = _checkpoints s
  /\ status <$> flow s1 = status <$> flow s.

(** The state after the results of a parallel phase have been joined into
    node [i]. *)
Fixpoint joined (i : nat) (results : list Node.t) (s : ParallelFlow) : ParallelFlow :=
  match results with
  | [] => s
  | r :: rest =>
      joined i rest
        (emit (EJoin i (RNode r)) (set_flow (alter (Node.join r) i (flow s)) s))
  end.

(** A node after it has absorbed the results, in their order. *)
Definition join_all (results : list Node.t) (n : Node.t) : Node.t :=
  foldl (fun m r => Node.join r m) n results.

(** A two-phase forkable node in front of a one-phase node that cannot be
    forked, with two chunks of data each; parallel training has been set
    up. *)
Definition two_node_flow : list Node.t :=
  [fresh_node [true; true]; fresh_node [false]].

Definition training_state : ParallelFlow :=
  run (Base := SampleBase)
    [CallSetupTraining [Relist [[1]; [2]]; Relist [[3]; [4]]] None FlowTrainCallable]
    (new_flow ParallelFlowClass two_node_flow ∅).

(** A clone of the first node that has learned chunk [x] in phase [ph]. *)
Definition trained_clone (ph : nat) (x : Chunk) : Node.t :=
  Node.mk [true; true] ph [(ph, x)].

(** A three-phase node fed from a one-shot iterator with three chunks; the
    caller follows the manual protocol, one task per phase, and is about to
    hand in the results of the second phase. *)
Definition second_phase_done_state : ParallelFlow :=
  run (Base := SampleBase)
    [CallSetupTraining [OneShot 0] None FlowTrainCallable;
     CallGetTask;
     CallUseResults [RNode (Node.mk [true; true; true] 0 [(0, [1])])];
     CallGetTask]
    (new_flow ParallelFlowClass [fresh_node [true; true; true]]
       {[0 := [[1]; [2]; [3]]]}).

(** A two-phase node fed from a one-shot iterator that the first phase uses
    up (the scenario of the specification); the results of the first phase
    are about to be handed in. *)
Definition first_phase_done_state : ParallelFlow :=
  run (Base := SampleBase)
    [CallSetupTraining [OneShot 0] None FlowTrainCallable;
     CallGetTask;
     CallGetTask]
    (new_flow ParallelFlowClass [fresh_node [true; true]] {[0 := [[1]; [2]]]}).

(** The tasks handed out by [k] calls of [get_task] in a row (fewer when a
    call raises). *)
Fixpoint get_tasks (k : nat) (s : ParallelFlow) : list Task :=
  match k with
  | 0 => []
  | S k' =>
      match get_task s with
      | (Ok t, s') => t :: get_tasks k' s'
      | _ => []
      end
  end.

(** The state in which [setup_parallel_training] enters [_next_train_phase]
    for a node that is in its second phase and has an empty list of data. *)
Definition empty_source_state : ParallelFlow :=
  set_i_train_node (Some 0)
    (set_train_data_iterables (Some [Relist []])
       (set_train_callable_class (Some FlowTrainCallable)
          (new_flow ParallelFlowClass [Node.mk [true; true] 1 []] ∅))).

(** ** Scheduler rotation *)






(** The schedulers a log records as taken from the sequence, and the
    identifiers of those it records as shut down. *)
Definition pulled_count (l : list Event) : nat :=
  length (omap (fun e => match e with ENextScheduler => Some tt | _ => None end) l).

Definition shutdown_ids (l : list Event) : list nat :=
  omap (fun e => match e with EShutdown id => Some id | _ => None end) l.


(** The frame in which [train] runs its parallel branch on a sequence of
    schedulers. *)
Definition sample_scheduler (id : nat) : Scheduler :=
  mkScheduler id OtherContainer [] (fun _ _ => []).

Definition rotation_frame : Frame :=
  mkFrame (set_i_train_node (Some 2)
             (new_flow ParallelFlowClass
                [fresh_node []; fresh_node []; fresh_node [true]] ∅))
    (IsScheduler (sample_scheduler 10))
    (Some [None; Some (sample_scheduler 12); Some (sample_scheduler 13)]) (Some 0).


(** A scheduler that runs every task at once: each task yields a clone that
    has learned the chunk of the task. *)
Definition echo_scheduler (id : nat) : Scheduler :=
  mkScheduler id OtherContainer []
    (fun _ tasks => (fun t : Task => RNode (Node.mk [true] 0 [(0, t.1)])) <$> tasks).

(** [train] on a flow whose first node is not trainable, with one scheduler
    per node, the first of them [None]. *)
Definition rotation_run : Res unit * Frame :=
  train (Base := SampleBase)
    [Relist []; Relist [[1]; [2]]; Relist [[3]]] None None true
    (mkFrame (new_flow ParallelFlowClass
                [fresh_node []; fresh_node [true]; fresh_node [true]] ∅)
       (IsIterable [None; Some (echo_scheduler 1); Some (echo_scheduler 2)])
       None None).

(** ** Checkpoints over a training run *)

(** The calls of the manual protocol during a training run. *)
Inductive ProtocolCall :=
| PGetTask
| PUseResults (rs : list Result).

Definition protocol_step (c : ProtocolCall) (s : ParallelFlow) : ParallelFlow :=
  match c with
  | PGetTask => (get_task s).2
  | PUseResults rs => (use_results rs s).2
  end.

Definition protocol_run (calls : list ProtocolCall) (s : ParallelFlow) : ParallelFlow :=
  foldl (fun st c => protocol_step c st) s calls.

(** How often the checkpoint function of node [j] was called in a log. *)
Definition checkpoint_count (j : nat) (l : list Event) : nat :=
  length (omap (fun e => match e with
                         | ECheckpoint k _ => if decide (k = j) then Some tt else None
                         | _ => None
                         end) l).

(** A checkpoint function is registered for node [j]. *)
Definition registered (cps : option (list (option CheckpointFn))) (j : nat) : bool :=
  match cps with
  | Some l => match l !! j with Some (Some _) => true | _ => false end
  | None => false
  end.

Definition is_checkpoint_class (c : FlowClass) : bool :=
  match c with ParallelCheckpointFlowClass => true | ParallelFlowClass => false end.

(** Node [j] of the flow is (still) training; is fully trained. *)
Definition training_at (fl : list Node.t) (j : nat) : bool :=
  match fl !! j with Some n => Node.is_training n | None => false end.

Definition trained_at (fl : list Node.t) (j : nat) : bool :=
  match fl !! j with Some n => negb (Node.is_training n) | None => false end.

(** Every call of a checkpoint function in the log comes right after a
    [stop_training] of its node and the hook point, and sees a node without
    a remaining training phase. *)
Definition checkpoints_after_stop (l : list Event) : Prop :=
  forall l1 l2 j seen,
    l = l1 ++ ECheckpoint j seen :: l2 ->
    Node.get_remaining_train_phase seen = 0
    /\ exists l0 ev,
         l1 = l0 ++ [ev; EPostStopTrainingHook]
         /\ (ev = EStopTraining j \/ ev = EFlowNodeStopTraining j).

(** No call of a checkpoint function in the log. *)
Definition checkpoint_free (l : list Event) : Prop :=
  forall j seen, ECheckpoint j seen ∉ l.

(** The invariant of a training run that started in [s0]: the checkpoint
    function of a node has been called once when the node was training at
    the start, is trained now and has a function registered, and not at all
    otherwise. *)
Definition run_inv (s0 s : ParallelFlow) : Prop :=
  cls s = cls s0
  /\ _checkpoints s = _checkpoints s0
  /\ length (flow s) = length (flow s0)
  /\ (forall j, training_at (flow s) j = true -> training_at (flow s0) j = true)
  /\ exists l,
       log s = log s0 ++ l
       /\ checkpoints_after_stop l
       /\ forall j,
            checkpoint_count j l
            = if is_checkpoint_class (cls s0) && registered (_checkpoints s0) j
                 && training_at (flow s0) j && trained_at (flow s) j
              then 1 else 0.

(** Between two calls of the protocol: when training is underway a phase is
    open at the node of the index, and when it is over all nodes are
    trained. *)
Definition boundary_inv (s : ParallelFlow) : Prop :=
  training_ready s
  /\ match _i_train_node s with
     | Some i => exists n, training_phase_open s i n
     | None => all_trained (flow s)
     end.

(** A checkpoint function that reports the phase count of the node it is
    given. *)
Definition sample_checkpoint : CheckpointFn :=
  fun n => Some {["phases_done" := VNat (Node.train_phase n)]}.

(** A checkpoint flow whose first node has no training phase (it is not
    trainable) and whose second node trains in one forkable phase, with a
    checkpoint function registered for both; the training is run to its end
    through the manual protocol. *)
Definition checkpoint_flow : ParallelFlow :=
  new_flow ParallelCheckpointFlowClass [fresh_node []; fresh_node [true]] ∅.



(** ** The task callables and the merging result container *)

(** The extensions of the mdp package that are active in a process, by
    name. *)
Definition Extensions := gset string.

(** Modelled from the spec: [mdp.get_active_extensions] is not among the
    sources; it reads the extensions that are active in the process
    (section 4.1 of the specification speaks of the extension state of the
    environment). *)
Definition get_active_extensions (env : Extensions) : Extensions := env.

(** Modelled from the spec: [mdp.activate_extensions(names)] switches the
    named extensions on. *)
Definition activate_extensions (names env : Extensions) : Extensions :=
  env ∪ names.

(** Modelled from the spec: [mdp.deactivate_extensions(names)] switches the
    named extensions off. *)
Definition deactivate_extensions (names env : Extensions) : Extensions :=
  env ∖ names.

(** The part of a callable that the base class FlowTaskCallable keeps. *)
Record FlowTaskCallable := mkFlowTaskCallable {
  _used_extensions : Extensions
}.

(** [FlowTaskCallable.__init__], run where the extensions [env] are active:
    store the currently active extensions. *)
Definition FlowTaskCallable_init (env : Extensions) : FlowTaskCallable :=
  mkFlowTaskCallable (get_active_extensions env).

(** [FlowTaskCallable.setup_environment], run where the extensions [env] are
    active: deactivate all active extensions, then activate the stored
    ones.  The result is what is active afterwards. *)
Definition setup_environment (c : FlowTaskCallable) (env : Extensions) : Extensions :=
  activate_extensions (_used_extensions c)
    (deactivate_extensions (get_active_extensions env) env).

(** Modelled from the spec: [FlowNode.train(x)] on the flow node that a
    callable wraps, a flow of its own and not the live one: the first node
    that is still training learns the chunk. *)
Definition flownode_train (x : Chunk) (fl : list Node.t) : Exn + list Node.t :=
  match FlowNode.first_training fl with
  | None => inl TrainingFinishedException
  | Some j => inr (alter (Node.train x) j fl)
  end.

(** [FlowTrainCallable.__call__(data)] on a callable instance: train the
    wrapped flow node with the chunk, then return the first node of it that
    is still training ([None] when the [for] loop finds none).  The callable
    is returned as well, since its flow node has changed. *)
Definition FlowTrainCallable__call__ (data : Chunk) (c : Callable)
    : Exn + (option Node.t * Callable) :=
  match flownode_train data (callable_flow c) with
  | inl e => inl e
  | inr fl' =>
      inr (List.find Node.is_training fl', mkCallable (callable_class c) fl')
  end.

(** [FlowTrainCallable.fork]: a callable of the same class around a fork of
    the flow node; [None] when the flow node refuses to fork. *)
Definition FlowTrainCallable_fork (c : Callable) : option Callable :=
  mkCallable (callable_class c) <$> FlowNode.fork (callable_flow c).

(** Modelled from the spec: the schedulers are not among the sources.  A
    scheduler runs each task of a phase on a fork of the callable that came
    with the first task (section 4.1: each fork of a training callable is
    used once); this is the node that the task returns, if any. *)
Definition task_result (c : Callable) (data : Chunk) : option Node.t :=
  match FlowTrainCallable_fork c with
  | None => None
  | Some c' =>
      match FlowTrainCallable__call__ data c' with
      | inr (r, _) => r
      | inl _ => None
      end
  end.

Module NodeResults.

(** The class NodeResultContainer: the node that accumulates the results,
    [None] as long as there is none. *)
Record t := mk {
  _node : option Node.t
}.

(** [NodeResultContainer.__init__] *)
Definition init : t := mk None.

(** [NodeResultContainer.add_result(result, task_index)]: the first result
    becomes the accumulator, every later one is joined into it.  (A node
    object is true in a condition.) *)
Definition add_result (result : Node.t) (task_index : nat) (c : t) : t :=
  match _node c with
  | None => mk (Some result)
  | Some n => mk (Some (Node.join result n))
  end.

(** [NodeResultContainer.get_results()]: the list with the one node, and the
    container emptied. *)
Definition get_results (c : t) : list (option Node.t) * t :=
  ([_node c], mk None).

(** The container after the results of the tasks have come in, each with
    its task index. *)
Definition add_results (results : list (Node.t * nat)) (c : t) : t :=
  foldl (fun acc r => add_result r.1 r.2 acc) c results.

End NodeResults.

(** ** Reference points for a training run *)

(** A node after it has learned the chunks in its current phase. *)
Definition train_all (chunks : list Chunk) (n : Node.t) : Node.t :=
  foldl (fun m x => Node.train x m) n chunks.




(** The state after [k] calls of [get_task] in a row. *)
Definition after_tasks (k : nat) (s : ParallelFlow) : ParallelFlow :=
  Nat.iter k (fun st => (get_task st).2) s.

(** A task without callable for a chunk. *)
Definition plain_task (x : Chunk) : Task := (x, None).

(** The iterator that [get_task] reads: that of the training phase while
    parallel training is underway, that of the execution otherwise. *)
Definition active_iterator (s : ParallelFlow) : option Iterator :=
  if is_parallel_training s then _train_data_iterator s else _exec_data_iterator s.

(** A ParallelCheckpointFlow whose training has been set up and is
    underway. *)
Definition checkpoint_training_state : ParallelFlow :=
  (ParallelCheckpointFlow_setup_parallel_training (Base := SampleBase)
     [Relist []; Relist [[1]; [2]]]
     [Some sample_checkpoint; Some sample_checkpoint]
     FlowTrainCallable checkpoint_flow).2.

(** The state in which [setup_parallel_training] enters [_next_train_phase]
    for the two-node flow, with two chunks of data for each node. *)
Definition training_entry_state : ParallelFlow :=
  set_i_train_node (Some 0)
    (set_train_data_iterables (Some [Relist [[1]; [2]]; Relist [[3]; [4]]])
       (set_train_callable_class (Some FlowTrainCallable)
          (new_flow ParallelFlowClass two_node_flow ∅))).







(** The frame of a [train] or [execute] of a one-node flow on a scheduler
    that runs every task at once, for data given at the call. *)
Definition one_node_frame : Frame :=
  mkFrame (new_flow ParallelFlowClass [fresh_node [true]] ∅)
    (IsScheduler (echo_scheduler 1)) None None.

(** A scheduler that returns, for every task, the chunk of the task as the
    output array, in the order of submission. *)
Definition identity_scheduler (id : nat) : Scheduler :=
  mkScheduler id OrderedResultContainer []
    (fun _ tasks => (fun t : Task => RArray t.1) <$> tasks).

Definition identity_frame : Frame :=
  mkFrame (new_flow ParallelFlowClass [fresh_node [true]] ∅)
    (IsScheduler (identity_scheduler 1)) None None.

(** A flow of two nodes that cannot be forked, of two phases and of one,
    in the frame of a [train] with a scheduler. *)
Definition unforkable_flow : list Node.t :=
  [fresh_node [false; false]; fresh_node [false]].


(** The object without its record of calls: two objects with the same
    image have the same attributes. *)
Definition forget_log (s : ParallelFlow) : ParallelFlow :=
  mkPF (cls s) (flow s) (verbose s) (crash_recovery s) (_train_data_iterables s)
       (_train_data_iterator s) (_i_train_node s) (_flownode s)
       (_exec_data_iterator s) (_next_task s) (_train_callable_class s)
       (_execute_callable_class s) (_checkpoints s) (attrs s) (store s) [].

(** A method whose course does not depend on the record of calls: on two
    objects with the same attributes it returns the same and leaves the same
    attributes. *)
Definition log_blind {A} (m : M A) : Prop :=
  forall s1 s2, forget_log s1 = forget_log s2 ->
    (m s1).1 = (m s2).1 /\ forget_log (m s1).2 = forget_log (m s2).2.

(** ** A training run on lists of data *)






(** A scheduler that runs the tasks at once, each on a fork of the callable
    of the first task; a NodeResultContainer merges the results into the
    first of them. *)
Definition inline_worker (cont : Container) (tasks : list Task) : list Result :=
  match tasks with
  | (_, Some c) :: _ =>
      let nodes := omap (fun t : Task => task_result c t.1) tasks in
      match cont, nodes with
      | NodeResultContainer, r :: rest => [RNode (join_all rest r)]
      | _, _ => RNode <$> nodes
      end
  | _ => []
  end.

Definition inline_scheduler (id : nat) : Scheduler :=
  mkScheduler id OtherContainer [] inline_worker.

(** The frame of a [train] of the two-node flow on this scheduler. *)
Definition inline_frame : Frame :=
  mkFrame (new_flow ParallelFlowClass two_node_flow ∅)
    (IsScheduler (inline_scheduler 1)) None None.


(** The state in which [setup_parallel_training] enters [_next_train_phase]
    for a node of two phases that do not fork, fed from a one-shot iterator
    with two chunks. *)
Definition one_shot_entry_state : ParallelFlow :=
  set_i_train_node (Some 0)
    (set_train_data_iterables (Some [OneShot 0])
       (set_train_callable_class (Some FlowTrainCallable)
          (new_flow ParallelFlowClass [fresh_node [false; false]]
             {[0 := [[1]; [2]]]}))).

(** * Properties *)

(** ** Basic facts about the monad and the properties *)

Lemma is_parallel_training_true s :
  is_parallel_training s = true <-> exists i, _i_train_node s = Some i.
Proof.
  unfold is_parallel_training. destruct (_i_train_node s) as [i|]; simpl.
  - split; [eauto | done].
  - split; [done | by intros [? ?]].
Qed.

Lemma is_parallel_training_false s :
  is_parallel_training s = false <-> _i_train_node s = None.
Proof.
  unfold is_parallel_training. destruct (_i_train_node s); simpl; split; done.
Qed.

Lemma is_parallel_executing_false s :
  is_parallel_executing s = false <-> _exec_data_iterator s = None.
Proof.
  unfold is_parallel_executing. destruct (_exec_data_iterator s); simpl; split; done.
Qed.

Lemma task_available_false s :
  task_available s = false <-> _next_task s = None.
Proof.
  unfold task_available. destruct (_next_task s); simpl; split; done.
Qed.

Lemma task_available_true s :
  task_available s = true <-> exists t, _next_task s = Some t.
Proof.
  unfold task_available. destruct (_next_task s) as [t|]; simpl.
  - split; [eauto | done].
  - split; [done | by intros [? ?]].
Qed.

Lemma reachable_run `{Base : BaseFlow} calls s :
  reachable s -> reachable (run calls s).
Proof.
  revert s. induction calls as [|c calls IH]; intros s Hs; simpl; [done|].
  apply IH. by constructor.
Qed.

Lemma reachable_new_flow c fl : reachable (Base := SampleBase) (new_flow c fl ∅).
Proof. by apply (reachable_init c fl false ∅). Qed.

Lemma reachable_new_flow_store c fl h :
  reachable (Base := SampleBase) (new_flow c fl h).
Proof.
  apply (reachable_call (CallerSetsStore h) _ (reachable_new_flow c fl)).
Qed.

(** ** get_task *)

(** The two failure branches of [get_task] raise before any assignment. *)
Lemma get_task_raise_inv s e s' :
  get_task s = (Raise e, s') ->
  (e = NoTaskException NoTaskAvailable /\ _next_task s = None /\ s' = s)
  \/ (e = NoTaskException NoDataForTask /\ _next_task s <> None
      /\ is_parallel_training s = false /\ is_parallel_executing s = false /\ s' = s)
  \/ (e = AttributeError /\ _next_task s <> None).
Proof.
  unfold get_task. destruct (_next_task s) as [task|] eqn:Hb.
  - destruct (is_parallel_training s) eqn:Ht.
    + unfold bind, _create_train_task, modify, ret.
      destruct (_train_data_iterator s) as [it|]; [|intros [= <- <-]; auto].
      destruct (next it (store s)) as [[[x it'] h']|]; simpl; intros [=].
    + destruct (is_parallel_executing s) eqn:He.
      * unfold bind, _create_execute_task, modify, ret.
        destruct (_exec_data_iterator s) as [it|]; [|intros [= <- <-]; auto].
        destruct (next it (store s)) as [[[x it'] h']|]; simpl; intros [=].
      * unfold raise. intros [= <- <-]. right; left. done.
  - unfold raise. intros [= <- <-]. left. done.
Qed.

(** C10: [get_task] is atomic on failure.  Whenever it raises
    NoTaskException the whole coordinator state, lookahead buffer included,
    is what it was before the call; and with a task buffered while neither
    parallel training nor parallel execution is underway, it raises
    NoTaskException and the task stays in the buffer. *)
Theorem get_task_atomic_on_failure :
  (forall s d s', get_task s = (Raise (NoTaskException d), s') -> s' = s)
  /\ (forall s task,
        _next_task s = Some task ->
        is_parallel_training s = false ->
        is_parallel_executing s = false ->
        get_task s = (Raise (NoTaskException NoDataForTask), s)
        /\ _next_task (get_task s).2 = Some task).
Proof.
  split.
  - intros s d s' H. apply get_task_raise_inv in H.
    destruct H as [(_ & _ & ->)|[(_ & _ & _ & _ & ->)|([=] & _)]]; done.
  - intros s task Hb Ht He. unfold get_task. rewrite Hb, Ht, He. done.
Qed.

Lemma get_task_atomic_on_failure_witness :
  get_task stale_buffer_state
  = (Raise (NoTaskException NoDataForTask), stale_buffer_state)
  /\ _next_task (get_task stale_buffer_state).2 = Some ([2], None).
Proof.
  apply (proj2 get_task_atomic_on_failure stale_buffer_state ([2], None));
    vm_compute; reflexivity.
Defined.

Lemma get_task_ok_buffered s t :
  _next_task s = Some t -> phase_open s ->
  exists s', get_task s = (Ok t, s').
Proof.
  intros Hb [[Ht Hit]|[Ht He]]; unfold get_task; rewrite Hb, Ht.
  - unfold bind, _create_train_task, modify, ret.
    destruct (_train_data_iterator s) as [it|]; [|done].
    destruct (next it (store s)) as [[[x it'] h']|]; simpl; eauto.
  - rewrite He. unfold bind, _create_execute_task, modify, ret.
    apply bool_decide_eq_true in He.
    destruct (_exec_data_iterator s) as [it|]; [|done].
    destruct (next it (store s)) as [[[x it'] h']|]; simpl; eauto.
Qed.

(** C4, as the code has it: [task_available] is false exactly when
    [get_task] raises the "no task available" NoTaskException, leaving the
    state alone.  With a task buffered, [get_task] returns that task whenever
    a phase is open (training underway with its data iterator, or else
    execution underway); with a task buffered and neither training nor
    execution underway it raises the "no data available" NoTaskException. *)
Theorem task_available_get_task s :
  (task_available s = false <->
   get_task s = (Raise (NoTaskException NoTaskAvailable), s))
  /\ (phase_open s ->
      (task_available s = true <->
       exists t s', get_task s = (Ok t, s') /\ _next_task s = Some t))
  /\ (task_available s = true ->
      is_parallel_training s = false -> is_parallel_executing s = false ->
      get_task s = (Raise (NoTaskException NoDataForTask), s)).
Proof.
  split; [|split].
  - split.
    + intros H. apply task_available_false in H. unfold get_task. by rewrite H.
    + intros H. apply get_task_raise_inv in H.
      destruct H as [(_ & Hb & _)|[([=] & _)|([=] & _)]].
      by apply task_available_false.
  - intros Hopen. split.
    + intros H. apply task_available_true in H as [t Hb].
      destruct (get_task_ok_buffered s t Hb Hopen) as [s' Hg]. eauto.
    + intros (t & s' & _ & Hb). apply task_available_true. eauto.
  - intros H Ht He. apply task_available_true in H as [t Hb].
    unfold get_task. by rewrite Hb, Ht, He.
Qed.

Lemma task_available_get_task_witness :
  task_available executing_state = true <->
  exists t s', get_task executing_state = (Ok t, s')
               /\ _next_task executing_state = Some t.
Proof.
  apply (proj1 (proj2 (task_available_get_task executing_state))).
  right. split; vm_compute; reflexivity.
Defined.

(** C4 as stated fails: in a state reached through the manual protocol a
    task is available and [get_task] raises. *)
Lemma task_available_but_get_task_raises :
  reachable (Base := SampleBase) stale_buffer_state
  /\ task_available stale_buffer_state = true
  /\ get_task stale_buffer_state
     = (Raise (NoTaskException NoDataForTask), stale_buffer_state).
Proof.
  split; [|split].
  - apply reachable_run, reachable_new_flow.
  - vm_compute; reflexivity.
  - vm_compute; reflexivity.
Qed.

(** ** Construction *)

Lemma SampleBase_honours : honours_crash_recovery_keyword SampleBase.
Proof.
  intros fl verb kwargs b cr Hk. simpl. rewrite Hk.
  case_bool_decide; [|done]. by intros [= ->].
Qed.

(** C9: constructing a ParallelFlow disables crash recovery.  Whatever the
    caller passes for the keyword [crash_recovery], the base constructor is
    called with [crash_recovery=False] (so the caller's value makes no
    difference to the outcome), and with a base constructor that stores the
    keyword it is given, every constructed instance has crash recovery
    off. *)
Theorem init_disables_crash_recovery `{Base : BaseFlow} c fl verb kwargs :
  (<["crash_recovery" := VBool false]> kwargs) !! "crash_recovery" = Some (VBool false)
  /\ (forall v, ParallelFlow_init c fl verb (<["crash_recovery" := v]> kwargs)
                = ParallelFlow_init c fl verb kwargs)
  /\ (honours_crash_recovery_keyword Base ->
      forall s, ParallelFlow_init c fl verb kwargs = inr s ->
                crash_recovery s = false).
Proof.
  split; [|split].
  - apply lookup_insert_eq.
  - intros v. unfold ParallelFlow_init. by rewrite insert_insert_eq.
  - intros Hh s. unfold ParallelFlow_init.
    destruct (Flow_init fl verb (<["crash_recovery":=VBool false]> kwargs))
      as [e|cr] eqn:Hinit; [done|].
    intros [= <-]. simpl.
    eapply Hh; [|exact Hinit]. apply lookup_insert_eq.
Qed.

Lemma init_disables_crash_recovery_witness :
  exists s,
    ParallelFlow_init (Base := SampleBase) ParallelFlowClass [fresh_node [true]] true
      {["crash_recovery" := VBool true]} = inr s
    /\ crash_recovery s = false.
Proof.
  eexists. split; [vm_compute; reflexivity|].
  apply (proj2 (proj2 (init_disables_crash_recovery (Base := SampleBase)
                         ParallelFlowClass [fresh_node [true]] true
                         {["crash_recovery" := VBool true]}))
           SampleBase_honours).
  vm_compute; reflexivity.
Defined.

(** ** Training and execution guards *)

(** C3, as the code has it: every entry point tests [is_parallel_training]
    and nothing else.  While parallel training is underway, starting an
    execution ([setup_parallel_execution], [execute]) or another training
    ([ParallelFlow.setup_parallel_training], [train]) raises
    ParallelFlowException and leaves the state as it was.  When no training
    is underway, [setup_parallel_training] is not refused, whether an
    execution is underway or not: it records the callable class, checks the
    iterables and goes on to set up the first phase. *)
Theorem start_refused_only_while_training `{Base : BaseFlow} s :
  (is_parallel_training s = true ->
   (forall it nodenr ecc,
      setup_parallel_execution it nodenr ecc s
      = (Raise (ParallelFlowException TrainingUnderway), s))
   /\ (forall it nodenr ecc ow sched scs last,
         execute it nodenr ecc ow (mkFrame s sched scs last)
         = (Raise (ParallelFlowException TrainingUnderway), mkFrame s sched scs last))
   /\ (forall its tcc,
         ParallelFlow_setup_parallel_training its tcc s
         = (Raise (ParallelFlowException TrainingAlreadyUnderway), s))
   /\ (forall its cps tcc ow sched scs last,
         train its cps tcc ow (mkFrame s sched scs last)
         = (Raise (ParallelFlowException TrainingUnderway), mkFrame s sched scs last)))
  /\ (is_parallel_training s = false ->
      forall its tcc,
        ParallelFlow_setup_parallel_training its tcc s
        = let s1 := set_train_callable_class (Some tcc) s in
          match _train_check_iterables (flow s1) its with
          | inl e => (Raise e, s1)
          | inr its' =>
              _next_train_phase
                (set_i_train_node (Some 0) (set_train_data_iterables (Some its') s1))
          end).
Proof.
  split.
  - intros Ht. repeat split; intros.
    + unfold setup_parallel_execution. by rewrite Ht.
    + unfold execute. simpl. by rewrite Ht.
    + unfold ParallelFlow_setup_parallel_training. by rewrite Ht.
    + unfold train. simpl. by rewrite Ht.
  - intros Ht its tcc. unfold ParallelFlow_setup_parallel_training. by rewrite Ht.
Qed.

Lemma start_refused_only_while_training_witness :
  setup_parallel_execution (Relist [[1]]) None FlowExecuteCallable
    training_over_execution_state
  = (Raise (ParallelFlowException TrainingUnderway), training_over_execution_state).
Proof.
  apply (proj1 (start_refused_only_while_training (Base := SampleBase)
                  training_over_execution_state)).
  vm_compute; reflexivity.
Defined.

(** C3 as stated fails: with a parallel execution underway,
    [setup_parallel_training] raises nothing and starts the training. *)
Lemma training_starts_during_execution :
  reachable (Base := SampleBase) executing_state
  /\ is_parallel_executing executing_state = true
  /\ (ParallelFlow_setup_parallel_training (Base := SampleBase)
        [Relist [[7]]] FlowTrainCallable executing_state).1 = Ok tt
  /\ is_parallel_training
       (ParallelFlow_setup_parallel_training (Base := SampleBase)
          [Relist [[7]]] FlowTrainCallable executing_state).2 = true.
Proof.
  split; [|repeat split; vm_compute; reflexivity].
  apply reachable_run, reachable_new_flow.
Qed.

(** ** Results of an execution *)





(** ** The loop of [_next_train_phase] *)

Lemma loop_unfold fuel s :
  _next_train_phase_loop (S fuel) s
  = match phase_step s with
    | Continue s' => _next_train_phase_loop fuel s'
    | Stop r s' => (r, s')
    end.
Proof.
  unfold phase_step. cbn [_next_train_phase_loop].
  destruct (_i_train_node s) as [i|]; [|done].
  destruct (i <? length (flow s)); [|done].
  destruct (flow s !! i) as [n|]; [|done].
  destruct (negb (Node.is_training n)); [done|].
  destruct (_train_data_iterables s) as [its|]; [|done].
  destruct (its !! i) as [d|]; [|done].
  destruct (FlowNode.fork (flow s)) as [forked|].
  - by destruct (start_parallel_phase i d forked s).
  - unfold bind at 1. by destruct (local_fallback i d s) as [[| |] s'].
Qed.

(** An invariant [P] that every continuing iteration keeps while lowering
    the variant carries over to the exit of the loop; with fuel above the
    variant, the budget is never exhausted. *)
Lemma loop_rule (P : ParallelFlow -> Prop) (Q : Res unit -> ParallelFlow -> Prop) :
  (forall s s', P s -> phase_step s = Continue s' ->
                P s' /\ phase_measure s' < phase_measure s) ->
  (forall s r s', P s -> phase_step s = Stop r s' -> Q r s') ->
  forall fuel s, P s -> phase_measure s < fuel ->
                 Q (_next_train_phase_loop fuel s).1 (_next_train_phase_loop fuel s).2.
Proof.
  intros Hcont Hstop. induction fuel as [|fuel IH]; intros s HP Hm; [lia|].
  rewrite loop_unfold. destruct (phase_step s) as [s'|r s'] eqn:Hstep.
  - destruct (Hcont s s' HP Hstep) as [HP' Hlt]. apply IH; [done|lia].
  - simpl. by eapply Hstop.
Qed.

(** ** Nodes and flows *)

Lemma stop_training_training n :
  Node.is_training n = true -> Node.stop_training n = inr (stopped n).
Proof. unfold Node.stop_training. by intros ->. Qed.

Lemma is_training_remaining n :
  Node.is_training n = true <-> 0 < Node.get_remaining_train_phase n.
Proof.
  unfold Node.is_training.
  destruct (Nat.eqb_spec (Node.get_remaining_train_phase n) 0); simpl; split; (lia || done).
Qed.


Lemma remaining_stopped n :
  Node.is_training n = true ->
  S (Node.get_remaining_train_phase (stopped n)) = Node.get_remaining_train_phase n.
Proof.
  intros H. apply is_training_remaining in H. revert H.
  unfold Node.get_remaining_train_phase, stopped. simpl. lia.
Qed.

Lemma first_training_Some fl j :
  FlowNode.first_training fl = Some j <->
  (exists n, fl !! j = Some n /\ Node.is_training n = true) /\ prefix_trained fl j.
Proof.
  revert j. induction fl as [|a fl IH]; intros j; simpl.
  - split; [done|]. by intros [(n & Hn & _) _].
  - destruct (Node.is_training a) eqn:Ha.
    + split.
      * intros [= <-]. split; [by exists a|]. intros k n Hk. lia.
      * intros [(n & Hn & Htr) Hpre]. destruct j as [|j]; [done|].
        specialize (Hpre 0 a). rewrite Hpre in Ha; [done|lia|done].
    + split.
      * intros H. apply fmap_Some in H as (j' & Hf & ->).
        apply IH in Hf as [(n & Hn & Htr) Hpre].
        split; [by exists n|]. intros [|k] m Hk Hm; simpl in Hm.
        -- by injection Hm as <-.
        -- eapply Hpre; [|done]. lia.
      * intros [(n & Hn & Htr) Hpre]. destruct j as [|j].
        { simpl in Hn. injection Hn as <-. congruence. }
        apply fmap_Some. exists j. split; [|done].
        apply IH. split; [by exists n|].
        intros k m Hk Hm. apply (Hpre (S k) m); [lia|done].
Qed.

Lemma total_remaining_cons a fl :
  total_remaining (a :: fl) = Node.get_remaining_train_phase a + total_remaining fl.
Proof. reflexivity. Qed.

Lemma total_remaining_insert fl i n n' :
  fl !! i = Some n ->
  total_remaining (<[i := n']> fl) + Node.get_remaining_train_phase n
  = total_remaining fl + Node.get_remaining_train_phase n'.
Proof.
  revert i. induction fl as [|a fl IH]; intros [|i]; try done.
  - intros [= ->]. change (<[0:=n']> (n :: fl)) with (n' :: fl).
    rewrite !total_remaining_cons. lia.
  - intros H. change (<[S i:=n']> (a :: fl)) with (a :: <[i:=n']> fl).
    rewrite !total_remaining_cons. specialize (IH i H). lia.
Qed.

Lemma total_remaining_alter f fl i :
  (forall n, Node.get_remaining_train_phase (f n) = Node.get_remaining_train_phase n) ->
  total_remaining (alter f i fl) = total_remaining fl.
Proof.
  intros Hf. revert i.
  induction fl as [|a fl IH]; intros [|i]; try done.
  - change (alter f 0 (a :: fl)) with (f a :: fl).
    by rewrite !total_remaining_cons, Hf.
  - change (alter f (S i) (a :: fl)) with (a :: alter f i fl).
    by rewrite !total_remaining_cons, IH.
Qed.

(** ** The hooks and the end of a phase *)

Lemma fire_frame i n f s :
  cls (fire i n f s) = cls s
  /\ flow (fire i n f s) = flow s
  /\ _i_train_node (fire i n f s) = _i_train_node s
  /\ _train_data_iterables (fire i n f s) = _train_data_iterables s
  /\ _train_data_iterator (fire i n f s) = _train_data_iterator s
  /\ _train_callable_class (fire i n f s) = _train_callable_class s
  /\ _checkpoints (fire i n f s) = _checkpoints s
  /\ _next_task (fire i n f s) = _next_task s
  /\ _exec_data_iterator (fire i n f s) = _exec_data_iterator s
  /\ store (fire i n f s) = store s.
Proof.
  unfold fire. destruct f as [f|]; [|done].
  destruct (f n) as [d|]; [|done]. by case_bool_decide.
Qed.

Lemma fire_log i n f s :
  log (fire i n f s)
  = log s ++ match f with Some _ => [ECheckpoint i n] | None => [] end.
Proof.
  unfold fire. destruct f as [f|]; [|by rewrite app_nil_r].
  destruct (f n) as [d|]; [|done]. by case_bool_decide.
Qed.

Lemma post_stop_training_hook_ok s i n :
  checkpoints_ready s ->
  _i_train_node s = Some i ->
  flow s !! i = Some n ->
  _post_stop_training_hook s
  = (Ok tt, fire i n (checkpoint_at s i n) (emit EPostStopTrainingHook s)).
Proof.
  intros Hcp Hi Hn. unfold _post_stop_training_hook, checkpoints_ready, checkpoint_at in *.
  destruct (cls s); [done|].
  destruct Hcp as (cps & Hcps & Hlen).
  unfold ParallelCheckpointFlow_post_stop_training_hook, bind,
    ParallelFlow_post_stop_training_hook, modify.
  simpl. rewrite Hi, Hn, Hcps.
  destruct (Node.get_remaining_train_phase n =? 0); [|done].
  assert (i < length cps) as Hlt.
  { apply lookup_lt_Some in Hn. lia. }
  destruct (Nat.leb_spec i (length cps)); [|lia].
  destruct (cps !! i) as [[f|]|] eqn:Hf; simpl.
  - destruct (f n) as [d|]; [|done]. by case_bool_decide.
  - done.
  - apply lookup_ge_None in Hf. unfold CheckpointFn in *. lia.
Qed.

(** Closing a phase on the live node, as [use_results] does. *)
Lemma close_on_node_ok s i n :
  checkpoints_ready s ->
  _i_train_node s = Some i ->
  flow s !! i = Some n ->
  Node.is_training n = true ->
  (_stop_training_hook ;;; node_stop_training i ;;;
   _post_stop_training_hook ;;; advance_if_trained i) s
  = (Ok tt, phase_closed i n (EStopTraining i) s).
Proof.
  intros Hcp Hi Hn Htr.
  assert (i < length (flow s)) as Hlt by (by apply lookup_lt_Some in Hn).
  unfold bind at 1. unfold _stop_training_hook, modify.
  unfold bind at 1. unfold node_stop_training. simpl.
  rewrite Hn, (stop_training_training n Htr).
  unfold bind at 1.
  erewrite (post_stop_training_hook_ok _ i (stopped n)); simpl; try done.
  3:{ by rewrite list_lookup_insert_eq. }
  2:{ unfold checkpoints_ready in *. simpl. destruct (cls s); [done|].
      by rewrite length_insert. }
  unfold advance_if_trained, phase_closed.
  destruct (fire_frame i (stopped n)
              (checkpoint_at
                 (emit (EStopTraining i)
                    (set_flow (<[i:=stopped n]> (flow s)) (emit EStopTrainingHook s)))
                 i (stopped n))
              (emit EPostStopTrainingHook
                 (emit (EStopTraining i)
                    (set_flow (<[i:=stopped n]> (flow s)) (emit EStopTrainingHook s)))))
    as (_ & Hfl & Hidx & _).
  rewrite Hfl, Hidx. simpl. rewrite list_lookup_insert_eq by done. rewrite Hi.
  by destruct (Node.is_training (stopped n)).
Qed.

(** Closing a phase through the FlowNode, as the local fallback does. *)
Lemma close_on_flownode_ok s i n :
  checkpoints_ready s ->
  _i_train_node s = Some i ->
  flow s !! i = Some n ->
  Node.is_training n = true ->
  prefix_trained (flow s) i ->
  (_stop_training_hook ;;; FlowNode.stop_training ;;;
   _post_stop_training_hook ;;;
   (fun s =>
     match _i_train_node s with
     | None => (Raise TypeError, s)
     | Some i' =>
         match flow s !! i' with
         | None => (Raise IndexError, s)
         | Some n =>
             if negb (Node.is_training n)
             then (Ok tt, set_i_train_node (Some (i' + 1)) s)
             else (Ok tt, s)
         end
     end)) s
  = (Ok tt, phase_closed i n (EFlowNodeStopTraining i) s).
Proof.
  intros Hcp Hi Hn Htr Hpre.
  assert (i < length (flow s)) as Hlt by (by apply lookup_lt_Some in Hn).
  assert (FlowNode.first_training (flow s) = Some i) as Hfirst.
  { apply first_training_Some. split; [by exists n|done]. }
  unfold bind at 1. unfold _stop_training_hook, modify.
  unfold bind at 1. unfold FlowNode.stop_training. simpl.
  rewrite Hfirst, Hn, (stop_training_training n Htr).
  unfold bind at 1.
  erewrite (post_stop_training_hook_ok _ i (stopped n)); simpl; try done.
  3:{ by rewrite list_lookup_insert_eq. }
  2:{ unfold checkpoints_ready in *. simpl. destruct (cls s); [done|].
      by rewrite length_insert. }
  unfold phase_closed.
  destruct (fire_frame i (stopped n)
              (checkpoint_at
                 (emit (EFlowNodeStopTraining i)
                    (set_flow (<[i:=stopped n]> (flow s)) (emit EStopTrainingHook s)))
                 i (stopped n))
              (emit EPostStopTrainingHook
                 (emit (EFlowNodeStopTraining i)
                    (set_flow (<[i:=stopped n]> (flow s)) (emit EStopTrainingHook s)))))
    as (_ & Hfl & Hidx & _).
  cbv beta. rewrite Hfl, Hidx. simpl. rewrite Hi. rewrite list_lookup_insert_eq by done.
  by destruct (Node.is_training (stopped n)).
Qed.

(** ** Local training *)

Lemma is_training_status n n' :
  status n' = status n -> Node.is_training n' = Node.is_training n.
Proof.
  unfold status, Node.is_training, Node.get_remaining_train_phase.
  by intros [= -> ->].
Qed.

Lemma remaining_status n n' :
  status n' = status n ->
  Node.get_remaining_train_phase n' = Node.get_remaining_train_phase n.
Proof.
  unfold status, Node.get_remaining_train_phase. by intros [= -> ->].
Qed.

Lemma status_lookup (fl fl' : list Node.t) k n :
  status <$> fl' = status <$> fl ->
  fl !! k = Some n ->
  exists n', fl' !! k = Some n' /\ status n' = status n.
Proof.
  intros Heq Hk.
  assert ((status <$> fl') !! k = Some (status n)) as H.
  { by rewrite Heq, list_lookup_fmap, Hk. }
  rewrite list_lookup_fmap in H.
  destruct (fl' !! k) as [n'|]; [|done]. simpl in H.
  exists n'. split; [done|congruence].
Qed.

Lemma status_alter f (fl : list Node.t) j :
  (forall n, status (f n) = status n) ->
  status <$> alter f j fl = status <$> fl.
Proof.
  intros Hf. apply list_eq. intros k.
  rewrite !list_lookup_fmap.
  destruct (decide (j = k)) as [->|Hne].
  - rewrite list_lookup_alter_eq. destruct (fl !! k); simpl; [|done]. by rewrite Hf.
  - by rewrite list_lookup_alter_ne.
Qed.

Lemma status_length (fl fl' : list Node.t) :
  status <$> fl' = status <$> fl -> length fl' = length fl.
Proof. intros H. by rewrite <- (length_fmap status fl'), H, length_fmap. Qed.

Lemma status_prefix_trained (fl fl' : list Node.t) i :
  status <$> fl' = status <$> fl -> prefix_trained fl i -> prefix_trained fl' i.
Proof.
  intros Heq Hpre k n' Hk Hn'.
  destruct (status_lookup fl' fl k n' (eq_sym Heq) Hn') as (n & Hn & Hst).
  rewrite <- (is_training_status n' n Hst). eauto.
Qed.

Lemma status_total_remaining (fl fl' : list Node.t) :
  status <$> fl' = status <$> fl -> total_remaining fl' = total_remaining fl.
Proof.
  revert fl'. induction fl as [|a fl IH]; intros [|a' fl']; try done.
  rewrite !fmap_cons. intros [= Hs1 Hs2 Hrest].
  rewrite !total_remaining_cons. rewrite (IH fl'); [|done].
  f_equal. apply remaining_status. unfold status. by rewrite Hs1, Hs2.
Qed.

Lemma local_trained_frame j src chunks s :
  cls (local_trained j src chunks s) = cls s
  /\ _i_train_node (local_trained j src chunks s) = _i_train_node s
  /\ _train_data_iterables (local_trained j src chunks s) = _train_data_iterables s
  /\ _train_data_iterator (local_trained j src chunks s) = _train_data_iterator s
  /\ _train_callable_class (local_trained j src chunks s) = _train_callable_class s
  /\ _checkpoints (local_trained j src chunks s) = _checkpoints s
  /\ _next_task (local_trained j src chunks s) = _next_task s
  /\ _exec_data_iterator (local_trained j src chunks s) = _exec_data_iterator s
  /\ attrs (local_trained j src chunks s) = attrs s
  /\ status <$> flow (local_trained j src chunks s) = status <$> flow s
  /\ log (local_trained j src chunks s) = log s ++ (ELocalTrain j <$> chunks).
Proof.
  revert s. induction chunks as [|x rest IH]; intros s; simpl.
  - by rewrite app_nil_r.
  - destruct (IH (emit (ELocalTrain j x)
                    (set_flow
                       (alter (Node.train x) j
                          (flow match src with
                                | ListIterator _ => s
                                | SharedIterator r => set_store (<[r:=rest]> (store s)) s
                                end))
                       match src with
                       | ListIterator _ => s
                       | SharedIterator r => set_store (<[r:=rest]> (store s)) s
                       end)))
      as (H1 & H2 & H3 & H4 & H5 & H6 & H7 & H8 & H9 & H10 & H11).
    rewrite H1, H2, H3, H4, H5, H6, H7, H8, H9, H10, H11.
    destruct src; simpl; rewrite status_alter by done;
      by rewrite <- app_assoc.
Qed.

Lemma local_train_chunks_ok j src chunks s :
  FlowNode.first_training (flow s) = Some j ->
  local_train_chunks src chunks s = (Ok tt, local_trained j src chunks s).
Proof.
  revert s. induction chunks as [|x rest IH]; intros s Hfirst; [done|].
  cbn [local_train_chunks local_trained].
  unfold bind at 1. unfold modify.
  unfold bind at 1. unfold FlowTrainCallable_call, FlowNode.train.
  assert (forall s1, flow s1 = flow s ->
            FlowNode.first_training (flow s1) = Some j) as Hs1.
  { by intros s1 ->. }
  rewrite Hs1 by (by destruct src).
  apply IH. simpl.
  apply first_training_Some. apply first_training_Some in Hfirst as [(n & Hn & Htr) Hpre].
  assert (flow (match src with
                | ListIterator _ => s
                | SharedIterator r => set_store (<[r:=rest]> (store s)) s
                end) = flow s) as -> by (by destruct src).
  split.
  - exists (Node.train x n). by rewrite list_lookup_alter_eq, Hn.
  - eapply status_prefix_trained; [|done]. by apply status_alter.
Qed.

Lemma local_train_phase_spec s i n d :
  _i_train_node s = Some i ->
  flow s !! i = Some n ->
  Node.is_training n = true ->
  prefix_trained (flow s) i ->
  is_Some (_train_callable_class s) ->
  _local_train_phase d s
  = match remaining (iter d) (store s) with
    | [] => (Raise (empty_source_error n i), s)
    | chunks => (Ok tt, local_trained i (iter d) chunks s)
    end.
Proof.
  intros Hi Hn Htr Hpre [c Hc]. unfold _local_train_phase.
  rewrite Hi, Hn, Hc.
  assert (FlowNode.first_training (flow s) = Some i) as Hfirst.
  { apply first_training_Some. split; [by exists n|done]. }
  unfold bind. rewrite (local_train_chunks_ok i) by done.
  destruct (remaining (iter d) (store s)) as [|x rest]; [|done].
  simpl. by rewrite Hn.
Qed.

(** The node of the flow at index [i] once the chunks are trained. *)
Lemma local_trained_node s i n src chunks :
  flow s !! i = Some n ->
  exists n1, flow (local_trained i src chunks s) !! i = Some n1
             /\ status n1 = status n.
Proof.
  intros Hn. destruct (local_trained_frame i src chunks s)
    as (_ & _ & _ & _ & _ & _ & _ & _ & _ & Hst & _).
  by apply (status_lookup (flow s)).
Qed.

Lemma local_fallback_spec s i n d :
  training_ready s ->
  _i_train_node s = Some i ->
  flow s !! i = Some n ->
  Node.is_training n = true ->
  prefix_trained (flow s) i ->
  match remaining (iter d) (store s) with
  | [] => local_fallback i d s = (Raise (empty_source_error n i), s)
  | chunks =>
      exists n1,
        flow (local_trained i (iter d) chunks s) !! i = Some n1
        /\ status n1 = status n
        /\ local_fallback i d s
           = (Ok tt, phase_closed i n1 (EFlowNodeStopTraining i)
                       (local_trained i (iter d) chunks s))
  end.
Proof.
  intros (Hits & Hc & Hcp) Hi Hn Htr Hpre.
  pose proof (local_train_phase_spec s i n d Hi Hn Htr Hpre Hc) as Hlocal.
  destruct (remaining (iter d) (store s)) as [|x rest] eqn:Hrem.
  { unfold local_fallback. unfold bind at 1. by rewrite Hlocal. }
  destruct (local_trained_node s i n (iter d) (x :: rest) Hn) as (n1 & Hn1 & Hst).
  exists n1. split; [done|]. split; [done|].
  destruct (local_trained_frame i (iter d) (x :: rest) s)
    as (Hcls & Hidx & _ & _ & _ & Hcps & _ & _ & _ & Hstat & _).
  unfold local_fallback. unfold bind at 1. rewrite Hlocal.
  apply close_on_flownode_ok.
  - unfold checkpoints_ready in *. rewrite Hcls. destruct (cls s); [done|].
    destruct Hcp as (cps & Hcp1 & Hcp2). exists cps. split; [by rewrite Hcps|].
    by rewrite (status_length _ _ Hstat).
  - by rewrite Hidx.
  - done.
  - by rewrite (is_training_status _ _ Hst).
  - by eapply status_prefix_trained.
Qed.

Lemma start_parallel_phase_spec s i n d forked c :
  flow s !! i = Some n ->
  _train_callable_class s = Some c ->
  start_parallel_phase i d forked s
  = match next (iter d) (store s) with
    | None =>
        (Raise (empty_source_error n i), set_train_data_iterator (Some (iter d)) s)
    | Some (x, it', h') =>
        (Ok tt, set_next_task (Some (x, Some (mkCallable c forked)))
                  (set_store h' (set_train_data_iterator (Some it')
                     (set_train_data_iterator (Some (iter d)) s))))
    end.
Proof.
  intros Hn Hc. unfold start_parallel_phase, bind, modify, _create_train_task.
  simpl. destruct (next (iter d) (store s)) as [[[x it'] h']|]; simpl.
  - by rewrite Hc.
  - by rewrite Hn.
Qed.

Lemma next_None_remaining it h :
  next it h = None <-> remaining it h = [].
Proof.
  destruct it as [[|x l]|r]; simpl; [done|done|].
  destruct (h !! r) as [[|x l]|]; simpl; done.
Qed.

Lemma checkpoint_at_frame s s' i n :
  cls s' = cls s -> _checkpoints s' = _checkpoints s ->
  checkpoint_at s' i n = checkpoint_at s i n.
Proof. intros H1 H2. unfold checkpoint_at. by rewrite H1, H2. Qed.

Lemma phase_closed_frame i n ev s :
  cls (phase_closed i n ev s) = cls s
  /\ _train_data_iterables (phase_closed i n ev s) = _train_data_iterables s
  /\ _train_data_iterator (phase_closed i n ev s) = _train_data_iterator s
  /\ _train_callable_class (phase_closed i n ev s) = _train_callable_class s
  /\ _checkpoints (phase_closed i n ev s) = _checkpoints s
  /\ _next_task (phase_closed i n ev s) = _next_task s
  /\ _exec_data_iterator (phase_closed i n ev s) = _exec_data_iterator s
  /\ store (phase_closed i n ev s) = store s
  /\ flow (phase_closed i n ev s) = <[i := stopped n]> (flow s)
  /\ _i_train_node (phase_closed i n ev s)
     = (if Node.is_training (stopped n) then _i_train_node s else Some (i + 1))
  /\ log (phase_closed i n ev s)
     = log s ++ [EStopTrainingHook; ev; EPostStopTrainingHook]
         ++ match checkpoint_at s i (stopped n) with
            | Some _ => [ECheckpoint i (stopped n)]
            | None => []
            end.
Proof.
  unfold phase_closed.
  rewrite (checkpoint_at_frame s _ i (stopped n)) by done.
  destruct (checkpoint_at s i (stopped n)) as [f|]; unfold fire;
    [destruct (f (stopped n)) as [d|]; [case_bool_decide|]|];
    destruct (Node.is_training (stopped n)); simpl;
    rewrite <- ?app_assoc; done.
Qed.

Lemma phase_step_cases s :
  loop_inv s ->
  exists i its c,
    _i_train_node s = Some i
    /\ _train_data_iterables s = Some its
    /\ _train_callable_class s = Some c
    /\ ((i = length (flow s)
         /\ phase_step s = Stop (Ok tt) (set_i_train_node None s))
        \/ (exists n,
              flow s !! i = Some n /\ Node.is_training n = false
              /\ phase_step s = Continue (set_i_train_node (Some (i + 1)) s))
        \/ (exists n d forked,
              flow s !! i = Some n /\ Node.is_training n = true
              /\ its !! i = Some d
              /\ FlowNode.fork (flow s) = Some forked
              /\ phase_step s
                 = match next (iter d) (store s) with
                   | None =>
                       Stop (Raise (empty_source_error n i))
                         (set_train_data_iterator (Some (iter d)) s)
                   | Some (x, it', h') =>
                       Stop (Ok tt)
                         (set_next_task (Some (x, Some (mkCallable c forked)))
                            (set_store h' (set_train_data_iterator (Some it')
                               (set_train_data_iterator (Some (iter d)) s))))
                   end)
        \/ (exists n d,
              flow s !! i = Some n /\ Node.is_training n = true
              /\ its !! i = Some d
              /\ FlowNode.fork (flow s) = None
              /\ match remaining (iter d) (store s) with
                 | [] => phase_step s = Stop (Raise (empty_source_error n i)) s
                 | chunks =>
                     exists n1,
                       flow (local_trained i (iter d) chunks s) !! i = Some n1
                       /\ status n1 = status n
                       /\ phase_step s
                          = Continue (phase_closed i n1 (EFlowNodeStopTraining i)
                                        (local_trained i (iter d) chunks s))
                 end)).
Proof.
  intros (Hready & i & Hi & Hle & Hpre).
  pose proof Hready as ((its & Hits & Hlen) & [c Hc] & Hcp).
  exists i, its, c. split; [done|]. split; [done|]. split; [done|].
  unfold phase_step. rewrite Hi, Hits.
  destruct (Nat.ltb_spec i (length (flow s))) as [Hlt|Hge].
  2:{ left. split; [lia|done]. }
  right.
  destruct (lookup_lt_is_Some_2 (flow s) i Hlt) as [n Hn]. rewrite Hn.
  destruct (Node.is_training n) eqn:Htr; simpl.
  2:{ left. by exists n. }
  right.
  destruct (lookup_lt_is_Some_2 its i ltac:(lia)) as [d Hd]. rewrite Hd.
  destruct (FlowNode.fork (flow s)) as [forked|] eqn:Hfork.
  - left. exists n, d, forked. repeat (split; [done|]).
    rewrite (start_parallel_phase_spec s i n d forked c) by done.
    by destruct (next (iter d) (store s)) as [[[x it'] h']|].
  - right. exists n, d. repeat (split; [done|]).
    pose proof (local_fallback_spec s i n d Hready Hi Hn Htr Hpre) as Hlocal.
    destruct (remaining (iter d) (store s)) as [|x rest].
    + by rewrite Hlocal.
    + destruct Hlocal as (n1 & Hn1 & Hst & ->). by exists n1.
Qed.

Lemma training_ready_frame s s' :
  cls s' = cls s ->
  _train_data_iterables s' = _train_data_iterables s ->
  _train_callable_class s' = _train_callable_class s ->
  _checkpoints s' = _checkpoints s ->
  length (flow s') = length (flow s) ->
  training_ready s -> training_ready s'.
Proof.
  intros H1 H2 H3 H4 H5 (Hits & Hc & Hcp).
  unfold training_ready, checkpoints_ready in *.
  rewrite H1, H2, H3, H4, H5. done.
Qed.

Lemma prefix_trained_step (fl : list Node.t) i n :
  prefix_trained fl i -> fl !! i = Some n -> Node.is_training n = false ->
  prefix_trained fl (i + 1).
Proof.
  intros Hpre Hn Htr k m Hk Hm.
  destruct (decide (k = i)) as [->|Hne]; [congruence|].
  apply (Hpre k m); [lia|done].
Qed.

Lemma prefix_trained_insert (fl : list Node.t) i n' :
  prefix_trained fl i -> prefix_trained (<[i := n']> fl) i.
Proof.
  intros Hpre k m Hk Hm. rewrite list_lookup_insert_ne in Hm by lia. eauto.
Qed.

(** Closing a phase of node [i] keeps the loop invariant and lowers the
    variant. *)
Lemma phase_closed_inv s s1 i n n1 ev :
  loop_inv s ->
  same_setup s s1 ->
  _i_train_node s = Some i ->
  flow s !! i = Some n ->
  Node.is_training n = true ->
  flow s1 !! i = Some n1 ->
  status n1 = status n ->
  loop_inv (phase_closed i n1 ev s1)
  /\ phase_measure (phase_closed i n1 ev s1) < phase_measure s.
Proof.
  intros (Hready & i0 & Hi0 & Hle & Hpre) (L1 & L2 & L3 & L5 & L6 & L10) Hi Hn Htr Hn1 Hst.
  assert (i0 = i) as -> by congruence.
  destruct (phase_closed_frame i n1 ev s1)
    as (C1 & C2 & C3 & C4 & C5 & C6 & C7 & C8 & C9 & C10 & C11).
  set (s' := phase_closed i n1 ev s1) in *.
  assert (i < length (flow s)) as Hlt by (by apply lookup_lt_Some in Hn).
  assert (length (flow s') = length (flow s)) as Hlen.
  { rewrite C9, length_insert. by apply status_length. }
  assert (Node.is_training n1 = true) as Htr1
    by (by rewrite (is_training_status _ _ Hst)).
  assert (prefix_trained (flow s') i) as Hpre'.
  { rewrite C9. apply prefix_trained_insert.
    by eapply status_prefix_trained. }
  assert (flow s' !! i = Some (stopped n1)) as Hn'.
  { rewrite C9. apply list_lookup_insert_eq.
    rewrite (status_length _ _ L10). done. }
  assert (S (total_remaining (flow s')) = total_remaining (flow s)) as Htot.
  { rewrite C9.
    pose proof (total_remaining_insert _ i n1 (stopped n1) Hn1) as Hins.
    pose proof (remaining_stopped n1 Htr1) as Hrem.
    rewrite (status_total_remaining _ _ L10) in Hins. lia. }
  split.
  - split.
    + eapply training_ready_frame; [..|exact Hready]; try congruence.
    + destruct (Node.is_training (stopped n1)) eqn:Hs.
      * exists i. rewrite C10, L2. split; [done|]. split; [lia|done].
      * exists (i + 1). rewrite C10. split; [done|]. split; [lia|].
        by eapply prefix_trained_step.
  - unfold phase_measure. rewrite C10, L2, Hi, Hlen.
    destruct (Node.is_training (stopped n1)); lia.
Qed.

Lemma local_trained_same_setup s i src chunks :
  same_setup s (local_trained i src chunks s).
Proof.
  destruct (local_trained_frame i src chunks s)
    as (L1 & L2 & L3 & L4 & L5 & L6 & L7 & L8 & L9 & L10 & L11).
  by repeat split.
Qed.

Lemma loop_inv_continue s s' :
  loop_inv s -> phase_step s = Continue s' ->
  loop_inv s' /\ phase_measure s' < phase_measure s.
Proof.
  intros Hinv Hstep.
  destruct (phase_step_cases s Hinv) as (i & its & c & Hi & Hits & Hc & Hcases).
  pose proof Hinv as (Hready & i0 & Hi0 & Hle & Hpre).
  assert (i0 = i) as -> by congruence.
  destruct Hcases as [(_ & H)|[(n & Hn & Htr & H)|[(n & d & forked & Hn & Htr & Hd & Hf & H)
                     |(n & d & Hn & Htr & Hd & Hf & H)]]].
  - congruence.
  - rewrite H in Hstep. injection Hstep as <-.
    assert (i < length (flow s)) as Hlt by (by apply lookup_lt_Some in Hn).
    split.
    + split; [by eapply training_ready_frame; [..|exact Hready]|].
      exists (i + 1). simpl. split; [done|]. split; [lia|].
      by eapply prefix_trained_step.
    + unfold phase_measure. simpl. rewrite Hi. lia.
  - rewrite H in Hstep. by destruct (next (iter d) (store s)) as [[[x it'] h']|].
  - destruct (remaining (iter d) (store s)) as [|x rest]; [congruence|].
    destruct H as (n1 & Hn1 & Hst & H). rewrite H in Hstep. injection Hstep as <-.
    exact (phase_closed_inv s _ i n n1 _ Hinv
             (local_trained_same_setup s i (iter d) (x :: rest)) Hi Hn Htr Hn1 Hst).
Qed.

Lemma loop_inv_stop s r s' :
  loop_inv s -> phase_step s = Stop r s' -> phase_outcome r s'.
Proof.
  intros Hinv Hstep.
  destruct (phase_step_cases s Hinv) as (i & its & c & Hi & Hits & Hc & Hcases).
  pose proof Hinv as (Hready & i0 & Hi0 & Hle & Hpre).
  assert (i0 = i) as -> by congruence.
  destruct Hcases as [(Hlen & H)|[(n & Hn & Htr & H)|[(n & d & forked & Hn & Htr & Hd & Hf & H)
                     |(n & d & Hn & Htr & Hd & Hf & H)]]].
  - rewrite H in Hstep. injection Hstep as <- <-. right. simpl.
    split; [done|]. split.
    + intros k n Hk. apply (Hpre k n); [|done]. apply lookup_lt_Some in Hk. lia.
    + by eapply training_ready_frame; [..|exact Hready].
  - congruence.
  - rewrite H in Hstep.
    destruct (next (iter d) (store s)) as [[[x it'] h']|];
      injection Hstep as <- <-.
    + left. exists i, n, x, (mkCallable c forked). simpl.
      split; [|split; [done|by eexists]].
      split; [by eapply training_ready_frame; [..|exact Hready]|done].
    + exists i, n. split; [|done].
      split; [by eapply training_ready_frame; [..|exact Hready]|done].
  - destruct (remaining (iter d) (store s)) as [|x rest].
    + rewrite H in Hstep. injection Hstep as <- <-. by exists i, n.
    + destruct H as (n1 & _ & _ & H). congruence.
Qed.


(** ** use_results during training *)

Lemma join_results_ok i results s :
  join_results i (RNode <$> results) s = (Ok tt, joined i results s).
Proof.
  revert s. induction results as [|r rest IH]; intros s; [done|].
  rewrite fmap_cons. cbn [join_results joined].
  unfold bind at 1. unfold join_result. apply IH.
Qed.

Lemma joined_frame i results s :
  cls (joined i results s) = cls s
  /\ _i_train_node (joined i results s) = _i_train_node s
  /\ _train_data_iterables (joined i results s) = _train_data_iterables s
  /\ _train_data_iterator (joined i results s) = _train_data_iterator s
  /\ _train_callable_class (joined i results s) = _train_callable_class s
  /\ _checkpoints (joined i results s) = _checkpoints s
  /\ _next_task (joined i results s) = _next_task s
  /\ _exec_data_iterator (joined i results s) = _exec_data_iterator s
  /\ store (joined i results s) = store s
  /\ attrs (joined i results s) = attrs s
  /\ flow (joined i results s) = alter (join_all results) i (flow s)
  /\ log (joined i results s) = log s ++ (EJoin i <$> (RNode <$> results)).
Proof.
  revert s. induction results as [|r rest IH]; intros s.
  - simpl. rewrite app_nil_r. repeat split.
    symmetry. by apply list_alter_id.
  - cbn [joined].
    destruct (IH (emit (EJoin i (RNode r))
                    (set_flow (alter (Node.join r) i (flow s)) s)))
      as (H1 & H2 & H3 & H4 & H5 & H6 & H7 & H8 & H9 & H10 & H11 & H12).
    rewrite H1, H2, H3, H4, H5, H6, H7, H8, H9, H10, H11, H12. simpl.
    repeat split.
    + by rewrite list_alter_alter_eq.
    + by rewrite <- app_assoc.
Qed.

Lemma status_join_all results n : status (join_all results n) = status n.
Proof.
  revert n. induction results as [|r rest IH]; intros n; [done|].
  simpl. by rewrite IH.
Qed.

Lemma joined_same_setup s i results : same_setup s (joined i results s).
Proof.
  destruct (joined_frame i results s)
    as (H1 & H2 & H3 & H4 & H5 & H6 & H7 & H8 & H9 & H10 & H11 & H12).
  repeat split; try done.
  rewrite H11. apply status_alter. apply status_join_all.
Qed.

Lemma list_insert_alter_same {A} (f : A -> A) (l : list A) i x :
  <[i := x]> (alter f i l) = <[i := x]> l.
Proof.
  apply list_eq. intros k. destruct (decide (i = k)) as [->|Hne].
  - destruct (decide (k < length l)).
    + rewrite !list_lookup_insert_eq; [done|done|by rewrite length_alter].
    + rewrite !lookup_ge_None_2; [done|rewrite length_insert; lia|].
      rewrite length_insert, length_alter. lia.
  - by rewrite !list_lookup_insert_ne, list_lookup_alter_ne.
Qed.

Lemma close_parallel_phase_ok s i n results :
  training_phase_open s i n ->
  close_parallel_phase i (RNode <$> results) s
  = (Ok tt, phase_closed i (join_all results n) (EStopTraining i) (joined i results s)).
Proof.
  intros ((Hits & Hc & Hcp) & Hi & Hn & Htr & Hpre).
  unfold close_parallel_phase. unfold bind at 1. rewrite join_results_ok.
  destruct (joined_frame i results s)
    as (H1 & H2 & H3 & H4 & H5 & H6 & H7 & H8 & H9 & H10 & H11 & H12).
  apply close_on_node_ok.
  - unfold checkpoints_ready in *. rewrite H1, H6, H11, length_alter. done.
  - congruence.
  - by rewrite H11, list_lookup_alter_eq, Hn.
  - by rewrite (is_training_status _ _ (status_join_all results n)).
Qed.




(** ** Empty data sources *)

(** C2, as the code has it: when the data source of a training phase yields
    no chunk, the set-up of the phase fails with a FlowException whose
    diagnostic depends on [get_current_train_phase()] of the node: "could
    not be repeated for the second training phase" exactly when that number
    is 1, "iterator is empty" for every other phase number; the same on the
    parallel path (first task of the phase) and on the local path. *)
Theorem empty_source_diagnostic s i n its d :
  training_ready s ->
  _i_train_node s = Some i ->
  flow s !! i = Some n ->
  Node.is_training n = true ->
  prefix_trained (flow s) i ->
  _train_data_iterables s = Some its ->
  its !! i = Some d ->
  remaining (iter d) (store s) = [] ->
  let diagnostic :=
    if Node.get_current_train_phase n =? 1
    then FlowException (NotReplayable (i + 1))
    else FlowException (IteratorEmpty (i + 1)) in
  (_next_train_phase s).1 = Raise diagnostic
  /\ (forall forked, (start_parallel_phase i d forked s).1 = Raise diagnostic)
  /\ (_local_train_phase d s).1 = Raise diagnostic.
Proof.
  intros Hready Hi Hn Htr Hpre Hits Hd Hrem diagnostic.
  pose proof Hready as (_ & [c Hc] & _).
  assert (diagnostic = empty_source_error n i) as -> by done.
  assert (next (iter d) (store s) = None) as Hnext by (by apply next_None_remaining).
  split; [|split].
  - unfold _next_train_phase, bind, modify. cbv beta iota.
    unfold phase_budget. rewrite loop_unfold.
    set (s0 := set_flownode true s).
    assert (loop_inv s0) as Hinv.
    { split; [by eapply training_ready_frame; [..|exact Hready]|].
      exists i. split; [done|]. split; [|done].
      apply lookup_lt_Some in Hn. simpl. lia. }
    destruct (phase_step_cases s0 Hinv) as (i0 & its0 & c0 & Hi0 & Hits0 & Hc0 & Hcases).
    simpl in Hi0, Hits0, Hc0.
    assert (i0 = i) as -> by congruence.
    assert (its0 = its) as -> by congruence.
    destruct Hcases as [(Hlen & _)|[(m & Hm & Hmtr & _)
                       |[(m & d0 & forked & Hm & _ & Hd0 & _ & H)
                        |(m & d0 & Hm & _ & Hd0 & _ & H)]]]; simpl in *.
    + apply lookup_lt_Some in Hn. lia.
    + congruence.
    + assert (m = n) as -> by congruence. assert (d0 = d) as -> by congruence.
      rewrite H, Hnext. done.
    + assert (m = n) as -> by congruence. assert (d0 = d) as -> by congruence.
      rewrite Hrem in H. by rewrite H.
  - intros forked. rewrite (start_parallel_phase_spec s i n d forked c) by done.
    by rewrite Hnext.
  - rewrite (local_train_phase_spec s i n d) by (done || by eexists).
    by rewrite Hrem.
Qed.

Lemma empty_source_diagnostic_witness :
  (_next_train_phase empty_source_state).1 = Raise (FlowException (NotReplayable 1)).
Proof.
  apply (empty_source_diagnostic empty_source_state 0 (Node.mk [true; true] 1 [])
           [Relist []] (Relist [])); try (vm_compute; reflexivity).
  - split; [|split].
    + eexists. split; [vm_compute; reflexivity|]. vm_compute. lia.
    + eexists. vm_compute. reflexivity.
    + exact I.
  - intros k n Hk. lia.
Defined.

(** The scenario of the specification: a one-shot iterator that the first
    phase has used up, for a node with two phases; the set-up of the second
    phase fails with the "could not be repeated" diagnostic. *)
Example one_shot_iterator_not_replayable :
  (use_results [RNode (Node.mk [true; true] 0 [(0, [1])])] first_phase_done_state).1
  = Raise (FlowException (NotReplayable 1)).
Proof. vm_compute. reflexivity. Qed.

(** C2 as stated fails: the set-up of a third phase (phase number 2) on a
    source without chunks reports the "iterator is empty" diagnostic, not the
    "could not be repeated" one. *)
Lemma later_phase_reports_empty_iterator :
  reachable (Base := SampleBase) second_phase_done_state
  /\ (use_results [RNode (Node.mk [true; true; true] 1 [(1, [3])])]
        second_phase_done_state).1
     = Raise (FlowException (IteratorEmpty 1))
  /\ Node.get_current_train_phase
       <$> flow (use_results [RNode (Node.mk [true; true; true] 1 [(1, [3])])]
                   second_phase_done_state).2 !! 0
     = Some 2.
Proof.
  split; [|split; vm_compute; reflexivity].
  apply reachable_run, reachable_new_flow_store.
Qed.

(** ** The callable travels with the first task of a phase *)










(** ** Scheduler rotation in [train] *)




















(** In that frame the scheduler in use is shut down, the [None] entry is
    passed over without a shutdown, and the second entry becomes the
    scheduler in use. *)
Example rotation_example :
  log (self (switch_scheduler true rotation_frame).2)
  = [EShutdown 10; ENextScheduler; ENextScheduler]
  /\ schedulers (switch_scheduler true rotation_frame).2
     = Some [Some (sample_scheduler 13)].
Proof. split; vm_compute; reflexivity. Qed.

(** A whole run of [train] with one scheduler per node: all three entries are
    taken from the sequence, and the two schedulers are shut down, each once,
    in the order of their nodes. *)
Example rotation_run_schedulers :
  rotation_run.1 = Ok tt
  /\ pulled_count (log (self rotation_run.2)) = 3
  /\ shutdown_ids (log (self rotation_run.2)) = [1; 2]
  /\ all_trained (flow (self rotation_run.2)).
Proof.
  split; [vm_compute; reflexivity|].
  split; [vm_compute; reflexivity|].
  split; [vm_compute; reflexivity|].
  intros [|[|[|k]]] n; vm_compute; intros [= <-]; reflexivity.
Qed.

(** ** Checkpoints over a training run *)

Lemma checkpoint_count_app j l1 l2 :
  checkpoint_count j (l1 ++ l2) = checkpoint_count j l1 + checkpoint_count j l2.
Proof. unfold checkpoint_count. by rewrite omap_app, length_app. Qed.

Lemma checkpoint_count_free j l :
  checkpoint_free l -> checkpoint_count j l = 0.
Proof.
  intros Hfree. induction l as [|e l IH]; [done|].
  change (e :: l) with ([e] ++ l). rewrite checkpoint_count_app, IH.
  - destruct e; try done. exfalso. apply (Hfree i seen). left.
  - intros k seen Hin. apply (Hfree k seen). by right.
Qed.

Lemma checkpoint_free_nil : checkpoint_free [].
Proof. intros j seen Hin. by apply elem_of_nil in Hin. Qed.

Lemma checkpoint_free_app l1 l2 :
  checkpoint_free l1 -> checkpoint_free l2 -> checkpoint_free (l1 ++ l2).
Proof.
  intros H1 H2 j seen Hin. apply elem_of_app in Hin as [Hin|Hin].
  - by apply (H1 j seen).
  - by apply (H2 j seen).
Qed.

Lemma checkpoint_free_fmap {A} (g : A -> Event) (l : list A) :
  (forall a j seen, g a <> ECheckpoint j seen) -> checkpoint_free (g <$> l).
Proof.
  intros Hg j seen Hin. apply list_elem_of_fmap in Hin as (a & Ha & _).
  by apply (Hg a j seen).
Qed.

Lemma after_stop_nil : checkpoints_after_stop [].
Proof. intros l1 l2 j seen H. by destruct l1. Qed.

Lemma after_stop_app_free l l' :
  checkpoints_after_stop l -> checkpoint_free l' ->
  checkpoints_after_stop (l ++ l').
Proof.
  intros Hl Hfree l1 l2 j seen Heq.
  apply app_eq_inv in Heq as [(k & Hk1 & Hk2)|(k & Hk1 & Hk2)].
  - destruct k as [|e k].
    + exfalso. apply (Hfree j seen). simpl in Hk2. rewrite <- Hk2. left.
    + simpl in Hk2. injection Hk2 as <- Hk2. by apply (Hl l1 k j seen).
  - exfalso. apply (Hfree j seen). rewrite Hk2.
    apply elem_of_app. right. left.
Qed.

Lemma after_stop_snoc l0 ev j seen :
  checkpoints_after_stop (l0 ++ [ev; EPostStopTrainingHook]) ->
  Node.get_remaining_train_phase seen = 0 ->
  ev = EStopTraining j \/ ev = EFlowNodeStopTraining j ->
  checkpoints_after_stop ((l0 ++ [ev; EPostStopTrainingHook]) ++ [ECheckpoint j seen]).
Proof.
  intros Hl Hrem Hev l1 l2 k seen' Heq.
  apply app_eq_inv in Heq as [(m & Hm1 & Hm2)|(m & Hm1 & Hm2)].
  - destruct m as [|e m]; simplify_eq/=.
    + rewrite app_nil_r in Hm1. subst l1. split; [done|]. by exists l0, ev.
    + by apply (Hl l1 m k seen').
  - destruct m as [|e m]; simplify_eq/=.
    + rewrite app_nil_r. split; [done|]. by exists l0, ev.
    + by destruct m.
Qed.

Lemma checkpoint_at_is_Some s i n :
  is_Some (checkpoint_at s i n)
  <-> is_checkpoint_class (cls s) && registered (_checkpoints s) i
      && (Node.get_remaining_train_phase n =? 0) = true.
Proof.
  unfold checkpoint_at, registered.
  destruct (cls s); simpl.
  { split; [by intros [? ?]|done]. }
  destruct (Node.get_remaining_train_phase n =? 0); simpl.
  2:{ rewrite andb_false_r. split; [by intros [? ?]|done]. }
  rewrite andb_true_r.
  destruct (_checkpoints s) as [cps|]; [|split; [by intros [? ?]|done]].
  destruct (Nat.leb_spec i (length cps)) as [Hle|Hgt].
  - destruct (cps !! i) as [[f|]|]; simpl; split;
      (done || by intros [? ?] || eauto).
  - rewrite (lookup_ge_None_2 cps i) by lia.
    split; [by intros [? ?]|done].
Qed.

Lemma training_at_status (fl fl' : list Node.t) j :
  status <$> fl' = status <$> fl -> training_at fl' j = training_at fl j.
Proof.
  intros Heq. unfold training_at.
  destruct (fl !! j) as [n|] eqn:Hn.
  - destruct (status_lookup fl fl' j n Heq Hn) as (n' & -> & Hst).
    by apply is_training_status.
  - assert (fl' !! j = None) as ->; [|done].
    apply lookup_ge_None. apply lookup_ge_None in Hn.
    by rewrite (status_length _ _ Heq).
Qed.

Lemma trained_at_status (fl fl' : list Node.t) j :
  status <$> fl' = status <$> fl -> trained_at fl' j = trained_at fl j.
Proof.
  intros Heq. unfold trained_at.
  destruct (fl !! j) as [n|] eqn:Hn.
  - destruct (status_lookup fl fl' j n Heq Hn) as (n' & -> & Hst).
    by rewrite (is_training_status _ _ Hst).
  - assert (fl' !! j = None) as ->; [|done].
    apply lookup_ge_None. apply lookup_ge_None in Hn.
    by rewrite (status_length _ _ Heq).
Qed.

Lemma training_trained_at fl j :
  training_at fl j = true -> trained_at fl j = false.
Proof.
  unfold training_at, trained_at. destruct (fl !! j); [|done]. by intros ->.
Qed.

Lemma run_inv_refl s : run_inv s s.
Proof.
  repeat split; try done. exists []. rewrite app_nil_r.
  split; [done|]. split; [apply after_stop_nil|].
  intros j. simpl.
  destruct (training_at (flow s) j) eqn:Ht.
  - rewrite (training_trained_at _ _ Ht). by rewrite andb_false_r.
  - by rewrite andb_false_r.
Qed.

(** A step that changes no phase of a node and calls no checkpoint
    function. *)
Lemma run_inv_frame s0 s s' l' :
  run_inv s0 s ->
  cls s' = cls s ->
  _checkpoints s' = _checkpoints s ->
  status <$> flow s' = status <$> flow s ->
  log s' = log s ++ l' ->
  checkpoint_free l' ->
  run_inv s0 s'.
Proof.
  intros (H1 & H2 & H3 & H4 & l & Hl & Hafter & Hcount) Hcls Hcps Hst Hlog Hfree.
  split; [congruence|]. split; [congruence|].
  split; [by rewrite (status_length _ _ Hst)|].
  split.
  - intros j. rewrite (training_at_status _ _ j Hst). apply H4.
  - exists (l ++ l'). split; [by rewrite Hlog, Hl, app_assoc|].
    split; [by apply after_stop_app_free|].
    intros j. rewrite checkpoint_count_app, (checkpoint_count_free j l') by done.
    rewrite Hcount, (trained_at_status _ _ j Hst). lia.
Qed.

Lemma training_at_insert_ne (fl : list Node.t) i j n' :
  i <> j -> training_at (<[i := n']> fl) j = training_at fl j.
Proof. intros Hne. unfold training_at. by rewrite list_lookup_insert_ne. Qed.

Lemma trained_at_insert_ne (fl : list Node.t) i j n' :
  i <> j -> trained_at (<[i := n']> fl) j = trained_at fl j.
Proof. intros Hne. unfold trained_at. by rewrite list_lookup_insert_ne. Qed.

Lemma checkpoint_count_single j i seen :
  checkpoint_count j [ECheckpoint i seen] = if decide (i = j) then 1 else 0.
Proof. unfold checkpoint_count. simpl. by destruct (decide (i = j)). Qed.

(** Closing a phase of node [i] keeps the invariant of the run: the
    checkpoint function is called exactly when this was the last phase. *)
Lemma run_inv_close s0 s i n ev :
  run_inv s0 s ->
  flow s !! i = Some n ->
  Node.is_training n = true ->
  ev = EStopTraining i \/ ev = EFlowNodeStopTraining i ->
  run_inv s0 (phase_closed i n ev s).
Proof.
  intros (H1 & H2 & H3 & H4 & l & Hl & Hafter & Hcount) Hn Htr Hev.
  destruct (phase_closed_frame i n ev s)
    as (C1 & C2 & C3 & C4 & C5 & C6 & C7 & C8 & C9 & C10 & C11).
  assert (i < length (flow s)) as Hlt by (by apply lookup_lt_Some in Hn).
  assert (training_at (flow s) i = true) as Hti.
  { unfold training_at. by rewrite Hn. }
  split; [congruence|]. split; [congruence|].
  split; [by rewrite C9, length_insert|].
  split.
  - intros j. rewrite C9. destruct (decide (i = j)) as [<-|Hne].
    + intros _. by apply H4.
    + rewrite training_at_insert_ne by done. apply H4.
  - pose proof (checkpoint_at_is_Some s i (stopped n)) as Hsome.
    exists (l ++ [EStopTrainingHook; ev; EPostStopTrainingHook]
              ++ match checkpoint_at s i (stopped n) with
                 | Some _ => [ECheckpoint i (stopped n)]
                 | None => []
                 end).
    split; [by rewrite C11, Hl, <- !app_assoc|].
    assert (checkpoints_after_stop (l ++ [EStopTrainingHook; ev; EPostStopTrainingHook]))
      as Hafter1.
    { apply after_stop_app_free; [done|].
      intros j seen Hin. destruct Hev as [-> | ->];
        repeat (apply elem_of_cons in Hin as [Hin|Hin]; [done|]);
        by apply elem_of_nil in Hin. }
    split.
    + destruct (checkpoint_at s i (stopped n)) as [f|] eqn:Hcp.
      * rewrite app_assoc.
        change (l ++ [EStopTrainingHook; ev; EPostStopTrainingHook])
          with (l ++ [EStopTrainingHook] ++ [ev; EPostStopTrainingHook]) in *.
        rewrite app_assoc in *.
        apply after_stop_snoc; [done| |done].
        destruct Hsome as [Hs _]. specialize (Hs ltac:(eauto)).
        apply andb_true_iff in Hs as [_ Hs]. by apply Nat.eqb_eq in Hs.
      * by rewrite app_nil_r.
    + intros j. rewrite !checkpoint_count_app, Hcount, C9.
      assert (checkpoint_count j [EStopTrainingHook; ev; EPostStopTrainingHook] = 0) as ->.
      { by destruct Hev as [-> | ->]. }
      destruct (decide (i = j)) as [<-|Hne].
      * rewrite (H4 i Hti).
        rewrite (training_trained_at _ _ Hti).
        unfold trained_at. rewrite list_lookup_insert_eq by done.
        rewrite H1, H2 in Hsome.
        rewrite andb_false_r, andb_true_r.
        assert (negb (Node.is_training (stopped n))
                = (Node.get_remaining_train_phase (stopped n) =? 0)) as Hneg.
        { unfold Node.is_training. by rewrite negb_involutive. }
        rewrite Hneg.
        destruct (is_checkpoint_class (cls s0) && registered (_checkpoints s0) i
                  && (Node.get_remaining_train_phase (stopped n) =? 0)) eqn:Hb.
        -- destruct Hsome as [_ Hs]. destruct (Hs eq_refl) as [f ->].
           by rewrite checkpoint_count_single, decide_True.
        -- destruct (checkpoint_at s i (stopped n)) as [f|]; [|done].
           destruct Hsome as [Hs _]. by specialize (Hs ltac:(eauto)).
      * rewrite trained_at_insert_ne by done.
        assert (checkpoint_count j
                  match checkpoint_at s i (stopped n) with
                  | Some _ => [ECheckpoint i (stopped n)]
                  | None => []
                  end = 0) as ->; [|lia].
        destruct (checkpoint_at s i (stopped n)); [|done].
        by rewrite checkpoint_count_single, decide_False.
Qed.

Lemma run_inv_same_log s0 s s' :
  run_inv s0 s ->
  cls s' = cls s ->
  _checkpoints s' = _checkpoints s ->
  flow s' = flow s ->
  log s' = log s ->
  run_inv s0 s'.
Proof.
  intros Hinv H1 H2 H3 H4.
  apply (run_inv_frame s0 s s' []); try done.
  - by rewrite H3.
  - by rewrite app_nil_r.
  - apply checkpoint_free_nil.
Qed.

Lemma run_inv_local_trained s0 s i src chunks :
  run_inv s0 s -> run_inv s0 (local_trained i src chunks s).
Proof.
  intros Hinv.
  destruct (local_trained_frame i src chunks s)
    as (L1 & L2 & L3 & L4 & L5 & L6 & L7 & L8 & L9 & L10 & L11).
  apply (run_inv_frame s0 s _ (ELocalTrain i <$> chunks)); try done.
  by apply checkpoint_free_fmap.
Qed.

Lemma run_inv_joined s0 s i results :
  run_inv s0 s -> run_inv s0 (joined i results s).
Proof.
  intros Hinv.
  destruct (joined_frame i results s)
    as (H1 & H2 & H3 & H4 & H5 & H6 & H7 & H8 & H9 & H10 & H11 & H12).
  destruct (joined_same_setup s i results) as (_ & _ & _ & _ & _ & Hst).
  apply (run_inv_frame s0 s _ (EJoin i <$> (RNode <$> results))); try done.
  by apply checkpoint_free_fmap.
Qed.

Lemma run_inv_continue s0 s s' :
  loop_inv s -> run_inv s0 s -> phase_step s = Continue s' -> run_inv s0 s'.
Proof.
  intros Hinv Hrun Hstep.
  destruct (phase_step_cases s Hinv) as (i & its & c & Hi & Hits & Hc & Hcases).
  destruct Hcases as [(_ & H)|[(n & Hn & Htr & H)|[(n & d & forked & Hn & Htr & Hd & Hf & H)
                     |(n & d & Hn & Htr & Hd & Hf & H)]]].
  - congruence.
  - rewrite H in Hstep. injection Hstep as <-. apply (run_inv_same_log s0 s _ Hrun); reflexivity.
  - rewrite H in Hstep. by destruct (next (iter d) (store s)) as [[[x it'] h']|].
  - destruct (remaining (iter d) (store s)) as [|x rest]; [congruence|].
    destruct H as (n1 & Hn1 & Hst & H). rewrite H in Hstep. injection Hstep as <-.
    apply run_inv_close;
      [exact (run_inv_local_trained s0 s i (iter d) (x :: rest) Hrun)|done| |by right].
    by rewrite (is_training_status _ _ Hst).
Qed.

Lemma run_inv_stop s0 s r s' :
  loop_inv s -> run_inv s0 s -> phase_step s = Stop r s' -> run_inv s0 s'.
Proof.
  intros Hinv Hrun Hstep.
  destruct (phase_step_cases s Hinv) as (i & its & c & Hi & Hits & Hc & Hcases).
  destruct Hcases as [(_ & H)|[(n & Hn & Htr & H)|[(n & d & forked & Hn & Htr & Hd & Hf & H)
                     |(n & d & Hn & Htr & Hd & Hf & H)]]].
  - rewrite H in Hstep. injection Hstep as <- <-. apply (run_inv_same_log s0 s _ Hrun); reflexivity.
  - congruence.
  - rewrite H in Hstep.
    destruct (next (iter d) (store s)) as [[[x it'] h']|];
      injection Hstep as <- <-; apply (run_inv_same_log s0 s _ Hrun); reflexivity.
  - destruct (remaining (iter d) (store s)) as [|x rest].
    + rewrite H in Hstep. by injection Hstep as <- <-.
    + destruct H as (n1 & _ & _ & H). congruence.
Qed.

(** [_next_train_phase] keeps the invariant of the run. *)
Lemma next_train_phase_run_inv s0 s :
  loop_inv s -> run_inv s0 s ->
  phase_outcome (_next_train_phase s).1 (_next_train_phase s).2
  /\ run_inv s0 (_next_train_phase s).2.
Proof.
  intros Hinv Hrun. unfold _next_train_phase, bind, modify. cbv beta iota.
  apply (loop_rule (fun s => loop_inv s /\ run_inv s0 s)
           (fun r s' => phase_outcome r s' /\ run_inv s0 s')).
  - intros s1 s2 [Hl Hr] Hstep.
    destruct (loop_inv_continue s1 s2 Hl Hstep) as [Hl2 Hm].
    split; [|done]. split; [done|]. exact (run_inv_continue s0 s1 s2 Hl Hr Hstep).
  - intros s1 r s2 [Hl Hr] Hstep. split.
    + exact (loop_inv_stop s1 r s2 Hl Hstep).
    + exact (run_inv_stop s0 s1 r s2 Hl Hr Hstep).
  - split.
    + destruct Hinv as (Hready & i & Hi & Hle & Hpre).
      split; [by eapply training_ready_frame; [..|exact Hready]|]. by exists i.
    + apply (run_inv_same_log s0 s _ Hrun); reflexivity.
  - unfold phase_measure, phase_budget. simpl.
    destruct (_i_train_node s); lia.
Qed.

Lemma phase_outcome_boundary r s' :
  phase_outcome r s' -> r <> OutOfFuel /\ boundary_inv s'.
Proof.
  unfold phase_outcome, boundary_inv. destruct r as [[]|e|].
  - intros [(i & n & x & c & Hopen & _)|(Hi & Hall & Hready)].
    + split; [done|]. pose proof Hopen as (Hready & Hi & _).
      split; [done|]. rewrite Hi. by exists n.
    + split; [done|]. split; [done|]. by rewrite Hi.
  - intros (i & n & Hopen & _). split; [done|].
    pose proof Hopen as (Hready & Hi & _).
    split; [done|]. rewrite Hi. by exists n.
  - done.
Qed.


Lemma get_task_frame s :
  cls (get_task s).2 = cls s
  /\ _i_train_node (get_task s).2 = _i_train_node s
  /\ _train_data_iterables (get_task s).2 = _train_data_iterables s
  /\ _train_callable_class (get_task s).2 = _train_callable_class s
  /\ _checkpoints (get_task s).2 = _checkpoints s
  /\ flow (get_task s).2 = flow s
  /\ log (get_task s).2 = log s
  /\ attrs (get_task s).2 = attrs s.
Proof.
  unfold get_task. destruct (_next_task s) as [task|]; [|done].
  destruct (is_parallel_training s).
  - unfold bind, _create_train_task, modify, ret.
    destruct (_train_data_iterator s) as [it|]; [|done].
    by destruct (next it (store s)) as [[[x it'] h']|].
  - destruct (is_parallel_executing s); [|done].
    unfold bind, _create_execute_task, modify, ret.
    destruct (_exec_data_iterator s) as [it|]; [|done].
    by destruct (next it (store s)) as [[[x it'] h']|].
Qed.

(** Joining stops at the first result that is not a node. *)
Lemma join_results_general i rs s :
  exists ns,
    (join_results i rs s).2 = joined i ns s
    /\ (((join_results i rs s).1 = Ok tt /\ rs = RNode <$> ns)
        \/ (join_results i rs s).1 = Raise TypeError).
Proof.
  revert s. induction rs as [|r rs IH]; intros s.
  - exists []. split; [done|]. by left.
  - cbn [join_results]. unfold bind at 1 2 3. destruct r as [n|a]; simpl.
    + destruct (IH (emit (EJoin i (RNode n))
                      (set_flow (alter (Node.join n) i (flow s)) s)))
        as (ns & Hs & Hr).
      exists (n :: ns). unfold bind. simpl.
      destruct (join_results i rs _) as [[[]|e|] s'] eqn:Hj; simpl in *.
      * split; [done|]. left. destruct Hr as [[_ ->]|]; done.
      * split; [done|]. right. by destruct Hr as [[? _]|].
      * by destruct Hr as [[? _]|].
    + exists []. split; [done|]. by right.
Qed.

Lemma boundary_inv_same_setup s s1 :
  same_setup s s1 -> boundary_inv s -> boundary_inv s1.
Proof.
  intros (H1 & H2 & H3 & H4 & H5 & Hst) [Hready Hb].
  assert (training_ready s1) as Hready'.
  { eapply training_ready_frame; [..|exact Hready]; try congruence.
    by apply status_length. }
  split; [done|]. rewrite H2.
  destruct (_i_train_node s) as [i|] eqn:Hi.
  - destruct Hb as (n & _ & _ & Hn & Htr & Hpre).
    destruct (status_lookup (flow s) (flow s1) i n Hst Hn) as (n1 & Hn1 & Hst1).
    exists n1. split; [done|]. split; [congruence|]. split; [done|].
    split; [by rewrite (is_training_status _ _ Hst1)|].
    by eapply status_prefix_trained.
  - intros k n1 Hn1.
    destruct (status_lookup (flow s1) (flow s) k n1 (eq_sym Hst) Hn1) as (n & Hn & Hstn).
    rewrite <- (is_training_status _ _ Hstn). by eapply Hb.
Qed.

Lemma bind_ret_state {St A B} (m : MS St A) (b : B) s :
  (bind m (fun _ => ret b) s).2 = (m s).2.
Proof. unfold bind, ret. by destruct (m s) as [[a|e|] s']. Qed.

Lemma bind_raise {St A B} (m : MS St A) (k : A -> MS St B) s e s' :
  m s = (Raise e, s') -> bind m k s = (Raise e, s').
Proof. unfold bind. by intros ->. Qed.

(** [use_results] keeps the invariants, whatever the results are. *)
Lemma use_results_inv s0 s rs :
  boundary_inv s -> run_inv s0 s ->
  boundary_inv (use_results rs s).2 /\ run_inv s0 (use_results rs s).2.
Proof.
  intros Hb Hrun. unfold use_results.
  destruct (is_parallel_training s) eqn:Ht.
  - apply is_parallel_training_true in Ht as [i Hi]. rewrite Hi.
    pose proof Hb as [Hready Hopen]. rewrite Hi in Hopen.
    destruct Hopen as (n & Hopen). pose proof Hopen as (_ & _ & Hn & Htr & Hpre).
    rewrite Hn.
    destruct (join_results_general i rs s) as (ns & Hs & Hr).
    destruct Hr as [[Hok ->]|Hraise].
    + set (s1 := phase_closed i (join_all ns n) (EStopTraining i) (joined i ns s)).
      assert (((close_parallel_phase i (RNode <$> ns) ;;;
                _next_train_phase ;;; ret None) s).2 = (_next_train_phase s1).2) as ->.
      { unfold bind at 1. rewrite (close_parallel_phase_ok s i n ns Hopen).
        apply bind_ret_state. }
      destruct (joined_frame i ns s)
        as (J1 & J2 & J3 & J4 & J5 & J6 & J7 & J8 & J9 & J10 & J11 & J12).
      assert (flow (joined i ns s) !! i = Some (join_all ns n)) as Hjn.
      { by rewrite J11, list_lookup_alter_eq, Hn. }
      assert (loop_inv s1) as Hinv.
      { eapply (phase_closed_inv s (joined i ns s) i n).
        - split; [done|]. exists i. split; [done|]. split; [|done].
          apply lookup_lt_Some in Hn. lia.
        - apply joined_same_setup.
        - done.
        - done.
        - done.
        - exact Hjn.
        - apply status_join_all. }
      assert (run_inv s0 s1) as Hrun1.
      { apply run_inv_close; [by apply run_inv_joined|done| |by left].
        by rewrite (is_training_status _ _ (status_join_all ns n)). }
      destruct (next_train_phase_run_inv s0 s1 Hinv Hrun1) as [Hout Hrun2].
      split; [|done]. by apply phase_outcome_boundary in Hout as [_ ?].
    + assert (close_parallel_phase i rs s = (Raise TypeError, joined i ns s)) as Hclose.
      { unfold close_parallel_phase. apply bind_raise.
        destruct (join_results i rs s) as [r s']. simpl in *. by subst. }
      rewrite (bind_raise _ _ _ _ _ Hclose). simpl.
      split.
      * eapply boundary_inv_same_setup; [apply joined_same_setup|done].
      * by apply run_inv_joined.
  - destruct (is_parallel_executing s).
    + assert (((modify (set_exec_data_iterator None) ;;;
                match concatenate rs with
                | inl e => raise e
                | inr out => ret (Some out)
                end) s).2 = set_exec_data_iterator None s) as ->.
      { unfold bind, modify. by destruct (concatenate rs). }
      split.
      * by eapply boundary_inv_same_setup; [|exact Hb].
      * apply (run_inv_same_log s0 s _ Hrun); reflexivity.
    + done.
Qed.

Lemma get_task_inv s0 s :
  boundary_inv s -> run_inv s0 s ->
  boundary_inv (get_task s).2 /\ run_inv s0 (get_task s).2.
Proof.
  intros Hb Hrun.
  destruct (get_task_frame s) as (H1 & H2 & H3 & H4 & H5 & H6 & H7 & H8).
  split.
  - eapply boundary_inv_same_setup; [|exact Hb].
    repeat split; try done. by rewrite H6.
  - by apply (run_inv_same_log s0 s _ Hrun).
Qed.

Lemma protocol_run_inv s0 calls s :
  boundary_inv s -> run_inv s0 s ->
  boundary_inv (protocol_run calls s) /\ run_inv s0 (protocol_run calls s).
Proof.
  revert s. induction calls as [|c calls IH]; intros s Hb Hrun; [done|].
  change (protocol_run (c :: calls) s) with (protocol_run calls (protocol_step c s)).
  destruct c as [|rs]; simpl.
  - destruct (get_task_inv s0 s Hb Hrun). by apply IH.
  - destruct (use_results_inv s0 s rs Hb Hrun). by apply IH.
Qed.






(** ** What the set-up leaves behind *)

(** [setup_parallel_training] of a plain ParallelFlow, with iterables that
    pass the check of the base class, ends in one of the three ways of
    [phase_outcome]; the states between the calls of the protocol that
    follow all satisfy [boundary_inv], so that whenever training is underway
    a phase is open in the sense of [training_phase_open]. *)
Lemma setup_parallel_training_outcome `{Base : BaseFlow} s its its' tcc calls :
  cls s = ParallelFlowClass ->
  is_parallel_training s = false ->
  _train_check_iterables (flow s) its = inr its' ->
  length (flow s) <= length its' ->
  phase_outcome (ParallelFlow_setup_parallel_training its tcc s).1
                (ParallelFlow_setup_parallel_training its tcc s).2
  /\ boundary_inv
       (protocol_run calls (ParallelFlow_setup_parallel_training its tcc s).2).
Proof.
  intros Hcls Ht Hits Hlen.
  unfold ParallelFlow_setup_parallel_training. rewrite Ht. simpl. rewrite Hits.
  set (entry := set_i_train_node (Some 0)
                  (set_train_data_iterables (Some its')
                     (set_train_callable_class (Some tcc) s))).
  assert (loop_inv entry) as Hinv.
  { split.
    - split; [by exists its'|]. split; [by eexists|].
      unfold checkpoints_ready. simpl. by rewrite Hcls.
    - exists 0. split; [done|]. split; [simpl; lia|]. intros k n Hk. lia. }
  destruct (next_train_phase_run_inv entry entry Hinv (run_inv_refl entry))
    as [Hout Hrun].
  split; [done|].
  apply phase_outcome_boundary in Hout as [_ Hb].
  by destruct (protocol_run_inv entry calls _ Hb Hrun).
Qed.

(** ** The loop of [_next_train_phase] always ends *)








(** ** The loops of [train] always end *)





















(** * Further properties of the module *)

(** ** The task callables *)

(** X1: a task callable restores the extensions of the place where it was
    built.  Whatever extensions are active in the process that runs
    [setup_environment], the extensions active afterwards are exactly those
    that were active when the callable was constructed. *)
Theorem setup_environment_restores (built_in run_in : Extensions) :
  setup_environment (FlowTaskCallable_init built_in) run_in = built_in.
Proof.
  unfold setup_environment, FlowTaskCallable_init, activate_extensions,
    deactivate_extensions, get_active_extensions. simpl.
  by rewrite difference_diag_L, (left_id_L ∅ (∪)).
Qed.

(** ** The merging result container *)

Lemma add_results_Some rs acc :
  NodeResults.add_results rs (NodeResults.mk (Some acc))
  = NodeResults.mk (Some (join_all (fst <$> rs) acc)).
Proof.
  revert acc. induction rs as [|[r k] rs IH]; intros acc; [done|].
  unfold NodeResults.add_results in *. simpl. apply IH.
Qed.

(** X2: the NodeResultContainer hands back one node that has absorbed all
    the results.  After the results [r], [rest] have been added to a new
    container (whatever their task indices), [get_results] returns the
    one-element list with [r] after every later result was joined into it,
    in the order of arrival, and leaves the container as new; on a
    container without results it returns the list [[None]], not the empty
    list. *)
Theorem node_result_container_collects :
  (forall r k rest,
     NodeResults.get_results
       (NodeResults.add_results ((r, k) :: rest) NodeResults.init)
     = ([Some (join_all (fst <$> rest) r)], NodeResults.init))
  /\ NodeResults.get_results NodeResults.init = ([None], NodeResults.init)
  /\ (forall c, NodeResults.get_results (NodeResults.get_results c).2
                = ([None], NodeResults.init)).
Proof.
  split; [|done]. intros r k rest.
  change (NodeResults.add_results ((r, k) :: rest) NodeResults.init)
    with (NodeResults.add_results rest (NodeResults.mk (Some r))).
  by rewrite add_results_Some.
Qed.

(** ** Entry points of the checkpoint class *)

(** X3: [ParallelCheckpointFlow.train] cannot train without a scheduler
    unless the caller passes [train_callable_class=None] explicitly.  Its
    default for [train_callable_class] is a class, and with any class and
    no scheduler the [train] of ParallelFlow that it calls raises
    ParallelFlowException, leaving the object as it was; the sequential
    training of the base class is not reached. *)
Theorem checkpoint_train_needs_scheduler `{Base : BaseFlow} its cps c ow f :
  scheduler f = IsNone ->
  ParallelCheckpointFlow_train its cps (Some c) ow f
  = (Raise (ParallelFlowException
              (if is_parallel_training (self f) then TrainingUnderway
               else TrainCallableWithoutScheduler)), f).
Proof.
  intros Hs. unfold ParallelCheckpointFlow_train, train.
  destruct (is_parallel_training (self f)); [done|]. by rewrite Hs.
Qed.

Lemma checkpoint_train_needs_scheduler_witness :
  ParallelCheckpointFlow_train (Base := SampleBase)
    [Relist []; Relist [[1]; [2]]] [Some sample_checkpoint; None]
    (Some FlowTrainCallable) true
    (mkFrame checkpoint_flow IsNone None None)
  = (Raise (ParallelFlowException TrainCallableWithoutScheduler),
     mkFrame checkpoint_flow IsNone None None).
Proof.
  apply (checkpoint_train_needs_scheduler (Base := SampleBase)
           [Relist []; Relist [[1]; [2]]] [Some sample_checkpoint; None]
           FlowTrainCallable true (mkFrame checkpoint_flow IsNone None None)).
  reflexivity.
Defined.

(** X4: a refused [ParallelCheckpointFlow.setup_parallel_training] is not
    without effect.  While parallel training is underway the call raises
    ParallelFlowException like that of ParallelFlow, but the checkpoint
    functions of the object have been replaced by the new ones before the
    test is made, so the training that is underway goes on with them; the
    method of ParallelFlow leaves the object as it was. *)
Theorem checkpoint_setup_refused_replaces_checkpoints `{Base : BaseFlow}
    s its cps cps' tcc :
  is_parallel_training s = true ->
  _train_check_checkpoints (flow s) cps = inr cps' ->
  ParallelCheckpointFlow_setup_parallel_training its cps tcc s
  = (Raise (ParallelFlowException TrainingAlreadyUnderway),
     set_checkpoints (Some cps') s)
  /\ ParallelFlow_setup_parallel_training its tcc s
     = (Raise (ParallelFlowException TrainingAlreadyUnderway), s).
Proof.
  intros Ht Hc. unfold ParallelCheckpointFlow_setup_parallel_training.
  rewrite Hc. unfold ParallelFlow_setup_parallel_training.
  assert (is_parallel_training (set_checkpoints (Some cps') s) = true) as -> by done.
  by rewrite Ht.
Qed.

Lemma checkpoint_setup_refused_replaces_checkpoints_witness :
  ParallelCheckpointFlow_setup_parallel_training (Base := SampleBase)
    [Relist []; Relist [[3]]] [None] FlowTrainCallable checkpoint_training_state
  = (Raise (ParallelFlowException TrainingAlreadyUnderway),
     set_checkpoints (Some [None; None]) checkpoint_training_state)
  /\ ParallelFlow_setup_parallel_training (Base := SampleBase)
       [Relist []; Relist [[3]]] FlowTrainCallable checkpoint_training_state
     = (Raise (ParallelFlowException TrainingAlreadyUnderway),
        checkpoint_training_state).
Proof.
  apply (checkpoint_setup_refused_replaces_checkpoints (Base := SampleBase)
           checkpoint_training_state [Relist []; Relist [[3]]] [None] [None; None]
           FlowTrainCallable).
  - vm_compute. reflexivity.
  - vm_compute. reflexivity.
Defined.

(** ** The stream of tasks *)

Lemma next_Some_remaining it h x it' h' :
  next it h = Some (x, it', h') -> remaining it h = x :: remaining it' h'.
Proof.
  destruct it as [[|y l]|r]; simpl; [done| |].
  - by intros [= <- <- <-].
  - destruct (h !! r) as [[|y l]|] eqn:Hr; try done.
    intros [= <- <- <-]. cbn [remaining]. unfold Store in *.
    by rewrite lookup_insert_eq.
Qed.

Lemma after_tasks_S k s : after_tasks (S k) s = after_tasks k (get_task s).2.
Proof. unfold after_tasks. by rewrite Nat.iter_succ_r. Qed.

Lemma after_tasks_idle k s : _next_task s = None -> after_tasks k s = s.
Proof.
  intros Hb. induction k as [|k IH]; [done|].
  rewrite after_tasks_S. unfold get_task. rewrite Hb. simpl. apply IH.
Qed.

Lemma get_tasks_idle k s : _next_task s = None -> get_tasks k s = [].
Proof. intros Hb. destruct k; [done|]. simpl. unfold get_task. by rewrite Hb. Qed.

(** The buffered task, then one task per chunk left in the iterator in use;
    after that the buffer is empty and the iterator used up. *)
Lemma get_tasks_stream k s t it :
  _next_task s = Some t ->
  active_iterator s = Some it ->
  length (remaining it (store s)) < k ->
  get_tasks k s = t :: (plain_task <$> remaining it (store s))
  /\ _next_task (after_tasks k s) = None
  /\ (exists it', active_iterator (after_tasks k s) = Some it'
                  /\ remaining it' (store (after_tasks k s)) = [])
  /\ flow (after_tasks k s) = flow s
  /\ _i_train_node (after_tasks k s) = _i_train_node s
  /\ log (after_tasks k s) = log s.
Proof.
  revert s t it. induction k as [|k IH]; intros s t it Hb Hit Hk; [lia|].
  rewrite after_tasks_S. cbn [get_tasks]. unfold active_iterator in Hit.
  assert (exists s',
    get_task s = (Ok t, s')
    /\ flow s' = flow s /\ _i_train_node s' = _i_train_node s /\ log s' = log s
    /\ match next it (store s) with
       | Some (y, it', h') =>
           _next_task s' = Some (plain_task y)
           /\ active_iterator s' = Some it' /\ store s' = h'
       | None =>
           _next_task s' = None
           /\ active_iterator s' = Some it /\ store s' = store s
       end) as (s' & Hg & Hfl & Hi & Hlog & Hnext).
  { unfold get_task. rewrite Hb.
    destruct (is_parallel_training s) eqn:Ht.
    - unfold bind, _create_train_task, modify, ret. rewrite Hit.
      destruct (next it (store s)) as [[[y it'] h']|]; simpl;
        (eexists; split; [reflexivity|]); simpl; repeat split; try done;
        unfold active_iterator, is_parallel_training in *; simpl; by rewrite Ht.
    - assert (is_parallel_executing s = true) as ->.
      { unfold is_parallel_executing. rewrite Hit. by apply bool_decide_eq_true. }
      unfold bind, _create_execute_task, modify, ret. rewrite Hit.
      destruct (next it (store s)) as [[[y it'] h']|]; simpl;
        (eexists; split; [reflexivity|]); simpl; repeat split; try done;
        unfold active_iterator, is_parallel_training in *; simpl; by rewrite Ht. }
  rewrite Hg. simpl.
  destruct (next it (store s)) as [[[y it'] h']|] eqn:Hn.
  - destruct Hnext as (Hb' & Hit' & Hst').
    apply next_Some_remaining in Hn. rewrite Hn in Hk |- *. simpl in Hk.
    destruct (IH s' (plain_task y) it' Hb' Hit') as (H1 & H2 & H3 & H4 & H5 & H6).
    { rewrite Hst'. lia. }
    rewrite Hst' in H1. rewrite H1, H4, H5, H6. by rewrite fmap_cons.
  - destruct Hnext as (Hb' & Hit' & Hst').
    apply next_None_remaining in Hn. rewrite Hn.
    rewrite (after_tasks_idle k s' Hb'), (get_tasks_idle k s' Hb').
    repeat split; try done. exists it. by rewrite Hst'.
Qed.

Lemma remaining_cons_next it h x rest :
  remaining it h = x :: rest ->
  exists it' h', next it h = Some (x, it', h') /\ remaining it' h' = rest.
Proof.
  intros Hr. destruct (next it h) as [[[y it'] h']|] eqn:Hn.
  - apply next_Some_remaining in Hn. rewrite Hr in Hn. simplify_eq.
    by exists it', h'.
  - apply next_None_remaining in Hn. by rewrite Hn in Hr.
Qed.

Lemma flownode_fork_at (fl : list Node.t) i n clone :
  fl !! i = Some n -> Node.is_training n = true -> prefix_trained fl i ->
  Node.fork n = Some clone ->
  FlowNode.fork fl = Some (<[i := clone]> fl).
Proof.
  intros Hn Htr Hpre Hfork. unfold FlowNode.fork.
  assert (FlowNode.first_training fl = Some i) as ->.
  { apply first_training_Some. split; [by exists n|done]. }
  by rewrite Hn, Hfork.
Qed.

(** X5: the tasks of a parallel training phase are the chunks of the node's
    data, each once and in order.  When [_next_train_phase] finds node [i]
    in training, with a phase that forks and data [x :: rest], it returns
    normally; from then on [get_task] hands out [x] with a callable around
    the forked flow, then the chunks of [rest] in their order without
    callable, and nothing else: after that many calls [task_available] is
    false while the training is still underway, waiting for the results. *)
Theorem phase_tasks_are_the_chunks s i n its d c clone x rest :
  training_ready s ->
  _i_train_node s = Some i ->
  flow s !! i = Some n ->
  Node.is_training n = true ->
  prefix_trained (flow s) i ->
  _train_data_iterables s = Some its ->
  its !! i = Some d ->
  _train_callable_class s = Some c ->
  Node.fork n = Some clone ->
  remaining (iter d) (store s) = x :: rest ->
  exists s',
    _next_train_phase s = (Ok tt, s')
    /\ forall k, length rest < k ->
         get_tasks k s'
         = (x, Some (mkCallable c (<[i := clone]> (flow s)))) :: (plain_task <$> rest)
         /\ task_available (after_tasks k s') = false
         /\ is_parallel_training (after_tasks k s') = true
         /\ flow (after_tasks k s') = flow s.
Proof.
  intros _ Hi Hn Htr Hpre Hits Hd Hc Hfork Hrem.
  destruct (remaining_cons_next _ _ _ _ Hrem) as (it' & h' & Hnext & Hrest).
  unfold _next_train_phase, bind, modify.
  change (phase_budget (set_flownode true s))
    with (S (length (flow s) + total_remaining (flow s))).
  rewrite loop_unfold. unfold phase_step. simpl. rewrite Hi.
  apply lookup_lt_Some in Hn as Hlt.
  apply Nat.ltb_lt in Hlt. rewrite Hlt, Hn, Htr. simpl. rewrite Hits, Hd.
  rewrite (flownode_fork_at _ _ _ _ Hn Htr Hpre Hfork).
  rewrite (start_parallel_phase_spec (set_flownode true s) i n d _ c Hn Hc).
  simpl. rewrite Hnext.
  eexists. split; [reflexivity|]. intros k Hk.
  match goal with |- context [get_tasks k ?st] => set (s' := st) end.
  destruct (get_tasks_stream k s' (x, Some (mkCallable c (<[i := clone]> (flow s)))) it')
    as (H1 & H2 & _ & H4 & H5 & _).
  - done.
  - unfold active_iterator, is_parallel_training. simpl. by rewrite Hi.
  - simpl. rewrite Hrest. lia.
  - simpl in H1. rewrite Hrest in H1. split; [done|]. split; [|split].
    + by apply task_available_false.
    + apply is_parallel_training_true. exists i. by rewrite H5.
    + by rewrite H4.
Qed.

Lemma phase_tasks_are_the_chunks_witness :
  exists s',
    _next_train_phase training_entry_state = (Ok tt, s')
    /\ forall k, length [[2]] < k ->
         get_tasks k s'
         = ([1], Some (mkCallable FlowTrainCallable
                         (<[0 := Node.mk [true; true] 0 []]> (flow training_entry_state))))
             :: (plain_task <$> [[2]])
         /\ task_available (after_tasks k s') = false
         /\ is_parallel_training (after_tasks k s') = true
         /\ flow (after_tasks k s') = flow training_entry_state.
Proof.
  apply (phase_tasks_are_the_chunks training_entry_state 0 (fresh_node [true; true])
           [Relist [[1]; [2]]; Relist [[3]; [4]]] (Relist [[1]; [2]])
           FlowTrainCallable (Node.mk [true; true] 0 []) [1] [[2]]).
  - split; [|split].
    + exists [Relist [[1]; [2]]; Relist [[3]; [4]]]. split; [reflexivity|simpl; lia].
    + by eexists.
    + exact I.
  - reflexivity.
  - reflexivity.
  - reflexivity.
  - intros k n Hk. lia.
  - reflexivity.
  - reflexivity.
  - reflexivity.
  - reflexivity.
  - reflexivity.
Defined.

(** X6: the tasks of a parallel execution are the chunks of the input, each
    once and in order.  With no training underway and input [x :: rest],
    [setup_parallel_execution] returns normally; [get_task] then hands out
    [x] with a callable around the flow, then the chunks of [rest] in their
    order without callable, and after that [task_available] is false.  The
    [nodenr] argument has no part in it: the callable is built from the flow
    alone. *)
Theorem execution_tasks_are_the_chunks s d nodenr ecc x rest :
  is_parallel_training s = false ->
  remaining (iter d) (store s) = x :: rest ->
  exists s',
    setup_parallel_execution d nodenr ecc s = (Ok tt, s')
    /\ forall k, length rest < k ->
         get_tasks k s'
         = (x, Some (mkCallable ecc (flow s))) :: (plain_task <$> rest)
         /\ task_available (after_tasks k s') = false
         /\ is_parallel_executing (after_tasks k s') = true
         /\ flow (after_tasks k s') = flow s.
Proof.
  intros Ht Hrem.
  destruct (remaining_cons_next _ _ _ _ Hrem) as (it' & h' & Hnext & Hrest).
  unfold setup_parallel_execution. rewrite Ht.
  unfold bind, modify, _create_execute_task. simpl. rewrite Hnext. simpl.
  eexists. split; [reflexivity|]. intros k Hk.
  match goal with |- context [get_tasks k ?st] => set (s' := st) end.
  assert (is_parallel_training s' = false) as Ht' by done.
  destruct (get_tasks_stream k s' (x, Some (mkCallable ecc (flow s))) it')
    as (H1 & H2 & (it2 & H3 & _) & H4 & H5 & _).
  - done.
  - unfold active_iterator. by rewrite Ht'.
  - simpl. rewrite Hrest. lia.
  - simpl in H1. rewrite Hrest in H1. split; [done|]. split; [|split].
    + by apply task_available_false.
    + unfold active_iterator in H3.
      assert (is_parallel_training (after_tasks k s') = false) as Ht2.
      { apply is_parallel_training_false. rewrite H5.
        by apply is_parallel_training_false. }
      rewrite Ht2 in H3. unfold is_parallel_executing. rewrite H3.
      by apply bool_decide_eq_true.
    + by rewrite H4.
Qed.

Lemma execution_tasks_are_the_chunks_witness :
  exists s',
    setup_parallel_execution (Relist [[1]; [2]; [3]]) (Some 0)
      FlowExecuteCallable (new_flow ParallelFlowClass two_node_flow ∅) = (Ok tt, s')
    /\ forall k, length [[2]; [3]] < k ->
         get_tasks k s'
         = ([1], Some (mkCallable FlowExecuteCallable two_node_flow))
             :: (plain_task <$> [[2]; [3]])
         /\ task_available (after_tasks k s') = false
         /\ is_parallel_executing (after_tasks k s') = true
         /\ flow (after_tasks k s') = two_node_flow.
Proof.
  apply (execution_tasks_are_the_chunks
           (new_flow ParallelFlowClass two_node_flow ∅) (Relist [[1]; [2]; [3]])
           (Some 0) FlowExecuteCallable [1] [[2]; [3]]).
  - reflexivity.
  - reflexivity.
Defined.

(** ** Every method comes to an end *)









(** ** Progress and consistency of a training run *)







(** ** The invariants of a training run inside [train] *)


















Lemma finally_inv {St A} (body : MS St A) (cleanup : MS St unit) s r s'' :
  finally body cleanup s = (r, s'') ->
  s'' = (cleanup (body s).2).2
  /\ forall a, r = Ok a -> (body s).1 = Ok a.
Proof.
  unfold finally. destruct (body s) as [r0 s']. simpl.
  destruct (cleanup s') as [[[]|e|] s3]; intros [= <- <-]; by split.
Qed.







(** ** A data source without chunks *)

(** The search for the next phase fails at the node of the index when its
    data source has no chunk, and leaves the index where it was. *)
Lemma next_train_phase_empty_source s i n its d :
  training_ready s ->
  _i_train_node s = Some i ->
  flow s !! i = Some n ->
  Node.is_training n = true ->
  prefix_trained (flow s) i ->
  _train_data_iterables s = Some its ->
  its !! i = Some d ->
  remaining (iter d) (store s) = [] ->
  exists s',
    _next_train_phase s = (Raise (empty_source_error n i), s')
    /\ _i_train_node s' = Some i
    /\ flow s' = flow s
    /\ log s' = log s.
Proof.
  intros Hready Hi Hn Htr Hpre Hits Hd Hrem.
  unfold _next_train_phase, bind, modify.
  change (phase_budget (set_flownode true s))
    with (S (length (flow s) + total_remaining (flow s))).
  rewrite loop_unfold.
  assert (loop_inv (set_flownode true s)) as Hinv.
  { split; [done|]. exists i. split; [done|]. split; [|done].
    apply lookup_lt_Some in Hn. simpl. lia. }
  destruct (phase_step_cases _ Hinv) as (i0 & its0 & c & Hi0 & Hits0 & Hc & Hcases).
  simpl in Hi0, Hits0. rewrite Hi in Hi0. rewrite Hits in Hits0.
  injection Hi0 as <-. injection Hits0 as <-.
  destruct Hcases as [[Hlen _]|[(n0 & Hn0 & Htr0 & _)|[H|H]]].
  - apply lookup_lt_Some in Hn. simpl in Hlen. lia.
  - simpl in Hn0. rewrite Hn in Hn0. injection Hn0 as <-. by rewrite Htr in Htr0.
  - destruct H as (n0 & d0 & forked & Hn0 & _ & Hd0 & _ & Hstep).
    simpl in Hn0, Hstep. rewrite Hn in Hn0. injection Hn0 as <-.
    rewrite Hd in Hd0. injection Hd0 as <-.
    apply next_None_remaining in Hrem. rewrite Hrem in Hstep. rewrite Hstep.
    eexists. split; [reflexivity|]. by simpl.
  - destruct H as (n0 & d0 & Hn0 & _ & Hd0 & _ & Hstep).
    simpl in Hn0, Hstep. rewrite Hn in Hn0. injection Hn0 as <-.
    rewrite Hd in Hd0. injection Hd0 as <-.
    rewrite Hrem in Hstep. rewrite Hstep.
    eexists. split; [reflexivity|]. by simpl.
Qed.

(** X12: a [train] that fails on an empty data source leaves the object in
    training mode.  When [train] is given a scheduler and the data of the
    first node, which needs training, has no chunk, it raises the
    FlowException of the empty source; its [finally] clause resets the
    references to the data, but the node index stays set, so that
    [is_parallel_training] is true afterwards and every later [train] or
    [execute] on the object is refused with ParallelFlowException. *)
Theorem failed_train_stays_in_training `{Base : BaseFlow}
    its its' tcc ow f sc n d :
  scheduler f = IsScheduler sc ->
  is_parallel_training (self f) = false ->
  cls (self f) = ParallelFlowClass ->
  _train_check_iterables (flow (self f)) its = inr its' ->
  length (flow (self f)) <= length its' ->
  flow (self f) !! 0 = Some n ->
  Node.is_training n = true ->
  its' !! 0 = Some d ->
  remaining (iter d) (store (self f)) = [] ->
  let out := train its None tcc ow f in
  out.1 = Raise (empty_source_error n 0)
  /\ is_parallel_training (self out.2) = true
  /\ _train_data_iterables (self out.2) = None
  /\ _train_data_iterator (self out.2) = None
  /\ flow (self out.2) = flow (self f)
  /\ (forall its2 cps2 tcc2 ow2,
        train its2 cps2 tcc2 ow2 out.2
        = (Raise (ParallelFlowException TrainingUnderway), out.2))
  /\ (forall it nodenr ecc ow2,
        execute it nodenr ecc ow2 out.2
        = (Raise (ParallelFlowException TrainingUnderway), out.2)).
Proof.
  intros Hs Ht Hc Hits Hlen Hn Htr Hd Hrem out.
  set (entry := set_i_train_node (Some 0)
                  (set_train_data_iterables (Some its')
                     (set_train_callable_class (Some (default FlowTrainCallable tcc))
                        (self f)))).
  destruct (next_train_phase_empty_source entry 0 n its' d)
    as (s' & Hnext & Hi' & Hfl' & _); try done.
  { split; [by exists its'|]. split; [by eexists|].
    unfold checkpoints_ready. simpl. by rewrite Hc. }
  { intros k m Hk. lia. }
  assert (out = (Raise (empty_source_error n 0),
                 mkFrame (set_train_data_iterator None
                            (set_train_data_iterables None s'))
                   (IsScheduler sc) None (last_trained_node f))) as Hout.
  { unfold out, train. rewrite Ht, Hs.
    unfold train_parallel, finally, bind at 1, on_self. simpl.
    unfold setup_parallel_training. rewrite Hc.
    unfold ParallelFlow_setup_parallel_training. rewrite Ht. simpl. rewrite Hits.
    fold entry. rewrite Hnext. simpl.
    unfold train_cleanup, bind, on_self, modify. simpl. by rewrite Hs. }
  rewrite Hout. simpl.
  assert (is_parallel_training
            (set_train_data_iterator None (set_train_data_iterables None s')) = true)
    as Ht'.
  { apply is_parallel_training_true. by exists 0. }
  split; [done|]. split; [done|]. split; [done|]. split; [done|].
  split; [done|]. split.
  - intros. unfold train. simpl. by rewrite Ht'.
  - intros. unfold execute. simpl. by rewrite Ht'.
Qed.

Lemma failed_train_stays_in_training_witness :
  let out := train (Base := SampleBase) [Relist []] None None true one_node_frame in
  out.1 = Raise (empty_source_error (fresh_node [true]) 0)
  /\ is_parallel_training (self out.2) = true
  /\ _train_data_iterables (self out.2) = None
  /\ _train_data_iterator (self out.2) = None
  /\ flow (self out.2) = flow (self one_node_frame)
  /\ (forall its2 cps2 tcc2 ow2,
        train (Base := SampleBase) its2 cps2 tcc2 ow2 out.2
        = (Raise (ParallelFlowException TrainingUnderway), out.2))
  /\ (forall it nodenr ecc ow2,
        execute (Base := SampleBase) it nodenr ecc ow2 out.2
        = (Raise (ParallelFlowException TrainingUnderway), out.2)).
Proof.
  apply (failed_train_stays_in_training (Base := SampleBase)
           [Relist []] [Relist []] None true one_node_frame (echo_scheduler 1)
           (fresh_node [true]) (Relist [])).
  - reflexivity.
  - reflexivity.
  - reflexivity.
  - reflexivity.
  - simpl. lia.
  - reflexivity.
  - reflexivity.
  - reflexivity.
  - reflexivity.
Defined.

(** ** Parallel execution through [execute] *)




(** X13: [execute] with a scheduler never leaves an execution underway.
    Whatever happens in the [try] block (the set-up, the task loop, the
    scheduler or [use_results] may raise), the [finally] clause has reset
    [_exec_data_iterator], so that [is_parallel_executing] is false when
    [execute] returns or raises. *)
Theorem execute_leaves_no_execution_underway `{Base : BaseFlow}
    it nodenr ecc ow f sc :
  scheduler f = IsScheduler sc ->
  is_parallel_training (self f) = false ->
  is_parallel_executing (self (execute it nodenr ecc ow f).2) = false.
Proof.
  intros Hs Ht. unfold execute. rewrite Ht, Hs. unfold bind at 1.
  assert (exists f1, ensure_ordered_result_container ow f = (Ok tt, f1))
    as [f1 ->].
  { unfold ensure_ordered_result_container. rewrite Hs.
    destruct ow; [|by eexists]. by destruct (result_container sc); eexists. }
  match goal with
  | |- context [finally ?b ?c f1] =>
      destruct (finally b c f1) as [r f'] eqn:Hf
  end.
  apply finally_inv in Hf as [-> _]. unfold on_self, modify. simpl.
  by apply is_parallel_executing_false.
Qed.

Lemma execute_leaves_no_execution_underway_witness :
  is_parallel_executing
    (self (execute (Base := SampleBase) (Relist [[1]; [2]]) None None true
             identity_frame).2) = false.
Proof.
  apply (execute_leaves_no_execution_underway (Base := SampleBase)
           (Relist [[1]; [2]]) None None true identity_frame (identity_scheduler 1)).
  - reflexivity.
  - reflexivity.
Defined.

(** X14: an empty input stops a parallel execution before any task exists,
    but the manual set-up does not undo what it has done.  With no training
    underway and an input without chunks, [setup_parallel_execution] raises
    the FlowException of the empty iterator and leaves the task buffer as it
    was; the iterator has been stored before the test, so
    [is_parallel_executing] is true after the failure.  [execute] raises the
    same exception without having handed anything to the scheduler. *)
Theorem empty_execution_input `{Base : BaseFlow} d nodenr ecc ecc' ow f sc :
  scheduler f = IsScheduler sc ->
  is_parallel_training (self f) = false ->
  remaining (iter d) (store (self f)) = [] ->
  (let out := setup_parallel_execution d nodenr ecc (self f) in
   out.1 = Raise (FlowException ExecuteIteratorEmpty)
   /\ _next_task out.2 = _next_task (self f)
   /\ is_parallel_executing out.2 = true)
  /\ (let out := execute d nodenr ecc' ow f in
      out.1 = Raise (FlowException ExecuteIteratorEmpty)
      /\ log (self out.2) = log (self f)
      /\ _next_task (self out.2) = _next_task (self f)).
Proof.
  intros Hs Ht Hrem. apply next_None_remaining in Hrem.
  assert (forall c s, is_parallel_training s = false -> store s = store (self f) ->
            exists s', setup_parallel_execution d nodenr c s
                       = (Raise (FlowException ExecuteIteratorEmpty), s')
                       /\ _next_task s' = _next_task s
                       /\ log s' = log s
                       /\ is_parallel_executing s' = true) as Hsetup.
  { intros c s Hts Hst. unfold setup_parallel_execution. rewrite Hts.
    unfold bind, modify, _create_execute_task, raise. simpl. rewrite Hst, Hrem.
    eexists. split; [reflexivity|]. by simpl. }
  split.
  - destruct (Hsetup ecc (self f) Ht eq_refl) as (s' & -> & Hb & _ & He). by simpl.
  - assert (exists f',
      execute d nodenr ecc' ow f = (Raise (FlowException ExecuteIteratorEmpty), f')
      /\ log (self f') = log (self f)
      /\ _next_task (self f') = _next_task (self f)) as (f' & -> & H1 & H2); [|done].
    unfold execute. rewrite Ht, Hs. unfold bind at 1.
    assert (exists f1, ensure_ordered_result_container ow f = (Ok tt, f1)
                       /\ self f1 = self f) as (f1 & -> & Hself).
    { unfold ensure_ordered_result_container. rewrite Hs.
      destruct ow; [|by eexists]. by destruct (result_container sc); eexists. }
    unfold finally, bind at 1, on_self.
    destruct (Hsetup (default FlowExecuteCallable ecc') (self f1))
      as (s' & -> & Hb & Hl & _); [by rewrite Hself|by rewrite Hself|].
    unfold modify. simpl. eexists. split; [reflexivity|]. simpl.
    split; congruence.
Qed.

Lemma empty_execution_input_witness :
  (let out := setup_parallel_execution (Relist []) None FlowExecuteCallable
                (self identity_frame) in
   out.1 = Raise (FlowException ExecuteIteratorEmpty)
   /\ _next_task out.2 = _next_task (self identity_frame)
   /\ is_parallel_executing out.2 = true)
  /\ (let out := execute (Base := SampleBase) (Relist []) None None true
                   identity_frame in
      out.1 = Raise (FlowException ExecuteIteratorEmpty)
      /\ log (self out.2) = log (self identity_frame)
      /\ _next_task (self out.2) = _next_task (self identity_frame)).
Proof.
  apply (empty_execution_input (Base := SampleBase) (Relist []) None
           FlowExecuteCallable None true identity_frame (identity_scheduler 1)).
  - reflexivity.
  - reflexivity.
  - reflexivity.
Defined.



(** With the scheduler that gives every chunk back, [execute] returns the
    input, chunk after chunk. *)
Example execute_identity :
  (execute (Base := SampleBase) (Relist [[1; 2]; [3]]) (Some 0) None true
     identity_frame).1 = Ok (Some [1; 2; 3]).
Proof. vm_compute. reflexivity. Qed.

(** ** Flows that cannot be forked *)


Lemma local_trained_flow j src chunks s :
  flow (local_trained j src chunks s) = alter (train_all chunks) j (flow s).
Proof.
  revert s. induction chunks as [|x rest IH]; intros s.
  - simpl. by rewrite list_alter_id.
  - cbn [local_trained]. rewrite IH. simpl.
    assert (forall fl : list Node.t,
              alter (train_all rest) j (alter (Node.train x) j fl)
              = alter (train_all (x :: rest)) j fl) as Hc.
    { intros fl. rewrite list_alter_alter_eq. by apply list_alter_ext. }
    destruct src; simpl; apply Hc.
Qed.









(** The first node of the sample flow after the set-up: both chunks learned
    in both phases. *)
Example unforkable_flow_first_node :
  flow (setup_parallel_training (Base := SampleBase)
          [Relist [[1]; [2]]; Relist [[3]]] None FlowTrainCallable
          (new_flow ParallelFlowClass unforkable_flow ∅)).2 !! 0
  = Some (Node.mk [false; false] 2 [(0, [1]); (0, [2]); (1, [1]); (1, [2])]).
Proof. vm_compute. reflexivity. Qed.



(** ** Tasks run on forks, and their results joined *)

Lemma find_first_training (fl : list Node.t) j :
  FlowNode.first_training fl = Some j -> List.find Node.is_training fl = fl !! j.
Proof.
  revert j. induction fl as [|a fl IH]; intros j; [done|]. simpl.
  destruct (Node.is_training a); [by intros [= <-]|].
  destruct (FlowNode.first_training fl) as [j'|]; [|done]. simpl.
  intros [= <-]. by apply IH.
Qed.

Lemma node_fork_clone n clone :
  Node.fork n = Some clone ->
  clone = Node.mk (Node.train_seq n) (Node.train_phase n) []
  /\ Node.fork clone = Some clone
  /\ status clone = status n.
Proof.
  unfold Node.fork.
  destruct (Node.train_seq n !! Node.train_phase n) as [[|]|] eqn:Hp; try done.
  intros [= <-]. simpl. by rewrite Hp.
Qed.

(** A task run on a fork of the callable of a phase returns the clone of
    the node in training, with the chunk of the task learned. *)
Lemma task_result_clone (fl : list Node.t) i n clone cc x :
  fl !! i = Some n -> Node.is_training n = true -> prefix_trained fl i ->
  Node.fork n = Some clone ->
  task_result (mkCallable cc (<[i := clone]> fl)) x = Some (Node.train x clone).
Proof.
  intros Hn Htr Hpre Hfork.
  destruct (node_fork_clone n clone Hfork) as (_ & Hfork' & Hst).
  assert (i < length fl) as Hlt by by apply lookup_lt_Some in Hn.
  assert (<[i := clone]> fl !! i = Some clone) as Hc
    by by apply list_lookup_insert_eq.
  assert (Node.is_training clone = true) as Htr'
    by by rewrite (is_training_status _ _ Hst).
  pose proof (prefix_trained_insert fl i clone Hpre) as Hpre'.
  unfold task_result, FlowTrainCallable_fork. simpl.
  rewrite (flownode_fork_at _ i clone clone Hc Htr' Hpre' Hfork'). simpl.
  rewrite list_insert_insert_eq.
  unfold FlowTrainCallable__call__, flownode_train. simpl.
  assert (FlowNode.first_training (<[i := clone]> fl) = Some i) as ->.
  { apply first_training_Some. split; [by exists clone|done]. }
  assert (FlowNode.first_training (alter (Node.train x) i (<[i := clone]> fl)) = Some i)
    as Hft.
  { apply first_training_Some. split.
    - exists (Node.train x clone). by rewrite list_lookup_alter_eq, Hc.
    - intros k m Hk Hm. rewrite list_lookup_alter_ne in Hm by lia.
      by apply (Hpre' k m). }
  by rewrite (find_first_training _ _ Hft), list_lookup_alter_eq, Hc.
Qed.

Lemma join_trained_clones clone xs m :
  Node.learned clone = [] ->
  Node.train_phase m = Node.train_phase clone ->
  join_all ((fun x => Node.train x clone) <$> xs) m = train_all xs m.
Proof.
  intros Hl. revert m. induction xs as [|x xs IH]; intros m Hp; [done|].
  unfold join_all, train_all in *. simpl. rewrite <- IH by done.
  f_equal. unfold Node.join, Node.train. simpl. by rewrite Hl, Hp.
Qed.

(** X18: a training phase done in parallel gives the node what local
    training gives.  For the node [i] in training, whose phase forks, the
    callable of the phase wraps the forked flow; every task run on a fork of
    this callable returns the clone of the node with the chunk of the task
    learned, and once [use_results] has joined the results of the chunks
    [xs], in their order, the live node is what it would be after learning
    the chunks itself: the flow is the flow that a local training phase on
    the same chunks leaves. *)
Theorem parallel_phase_matches_local s i n clone cc xs :
  flow s !! i = Some n ->
  Node.is_training n = true ->
  prefix_trained (flow s) i ->
  Node.fork n = Some clone ->
  let c := mkCallable cc (<[i := clone]> (flow s)) in
  let rs := (fun x => Node.train x clone) <$> xs in
  Forall2 (fun x r => task_result c x = Some r) xs rs
  /\ join_all rs n = train_all xs n
  /\ forall src, flow (joined i rs s) = flow (local_trained i src xs s).
Proof.
  intros Hn Htr Hpre Hfork c rs.
  destruct (node_fork_clone n clone Hfork) as (Hclone & _ & _).
  assert (join_all rs n = train_all xs n) as Hjoin.
  { apply join_trained_clones; by rewrite Hclone. }
  split; [|split; [done|]].
  - unfold rs. apply Forall2_fmap_r, Forall_Forall2_diag, Forall_forall.
    intros x _. by apply task_result_clone with n.
  - intros src. rewrite local_trained_flow.
    destruct (joined_frame i rs s) as (_ & _ & _ & _ & _ & _ & _ & _ & _ & _ & -> & _).
    apply list_alter_ext; [|done]. intros m Hm. rewrite Hn in Hm. by injection Hm as <-.
Qed.

Lemma parallel_phase_matches_local_witness :
  let s := new_flow ParallelFlowClass two_node_flow ∅ in
  let clone := Node.mk [true; true] 0 [] in
  let c := mkCallable FlowTrainCallable (<[0 := clone]> (flow s)) in
  let rs := (fun x => Node.train x clone) <$> [[1]; [2]] in
  Forall2 (fun x r => task_result c x = Some r) [[1]; [2]] rs
  /\ join_all rs (fresh_node [true; true]) = train_all [[1]; [2]] (fresh_node [true; true])
  /\ forall src, flow (joined 0 rs s) = flow (local_trained 0 src [[1]; [2]] s).
Proof.
  apply (parallel_phase_matches_local (new_flow ParallelFlowClass two_node_flow ∅) 0
           (fresh_node [true; true]) (Node.mk [true; true] 0 []) FlowTrainCallable
           [[1]; [2]]).
  - reflexivity.
  - reflexivity.
  - intros k n Hk. lia.
  - reflexivity.
Defined.

(** ** The record of calls has no influence on the methods *)

Lemma forget_log_fields s1 s2 :
  forget_log s1 = forget_log s2 ->
  cls s1 = cls s2 /\ flow s1 = flow s2 /\ _train_data_iterables s1 = _train_data_iterables s2
  /\ _train_data_iterator s1 = _train_data_iterator s2
  /\ _i_train_node s1 = _i_train_node s2
  /\ _exec_data_iterator s1 = _exec_data_iterator s2
  /\ _next_task s1 = _next_task s2
  /\ _train_callable_class s1 = _train_callable_class s2
  /\ _checkpoints s1 = _checkpoints s2
  /\ attrs s1 = attrs s2 /\ store s1 = store s2.
Proof. unfold forget_log. intros H. injection H. intros. by repeat split. Qed.

Ltac same_attributes :=
  let H := fresh in
  intros [] [] H; unfold forget_log in H; simpl in H; injection H; intros; subst;
  clear H.

Lemma log_blind_bind {A B} (m : M A) (k : A -> M B) :
  log_blind m -> (forall a, log_blind (k a)) -> log_blind (bind m k).
Proof.
  intros Hm Hk s1 s2 H. unfold bind. destruct (Hm s1 s2 H) as [H1 H2].
  destruct (m s1) as [r1 s1'], (m s2) as [r2 s2']. simpl in *. subst r2.
  destruct r1 as [a|e|]; [by apply Hk|done|done].
Qed.

Lemma log_blind_ret {A} (a : A) : log_blind (ret a).
Proof. by intros s1 s2 H. Qed.

Lemma log_blind_emit e : log_blind (modify (emit e)).
Proof. same_attributes. by unfold modify. Qed.

Lemma log_blind_flownode_train x : log_blind (FlowNode.train x).
Proof.
  same_attributes. unfold FlowNode.train. simpl.
  by destruct (FlowNode.first_training _).
Qed.

Lemma log_blind_flownode_stop_training : log_blind FlowNode.stop_training.
Proof.
  same_attributes. unfold FlowNode.stop_training. simpl.
  destruct (FlowNode.first_training _) as [j|]; [|done].
  destruct (_ !! j) as [n|]; [|done]. by destruct (Node.stop_training n).
Qed.

Lemma log_blind_node_stop_training i : log_blind (node_stop_training i).
Proof.
  same_attributes. unfold node_stop_training. simpl.
  destruct (_ !! i) as [n|]; [|done]. by destruct (Node.stop_training n).
Qed.

Lemma log_blind_advance_if_trained i : log_blind (advance_if_trained i).
Proof.
  same_attributes. unfold advance_if_trained. simpl.
  destruct (_ !! i) as [n|]; [|done].
  destruct (negb (Node.is_training n)); [|done].
  by match goal with |- context [match ?o with Some _ => _ | None => _ end] =>
       destruct o end.
Qed.

Lemma log_blind_post_stop_training_hook : log_blind _post_stop_training_hook.
Proof.
  same_attributes. unfold _post_stop_training_hook. simpl.
  match goal with |- context [match ?c with ParallelFlowClass => _ | _ => _ end] =>
    destruct c end; [done|].
  unfold ParallelCheckpointFlow_post_stop_training_hook, bind,
    ParallelFlow_post_stop_training_hook, modify. simpl.
  repeat case_match; done.
Qed.

Lemma log_blind_local_train_chunks src chunks : log_blind (local_train_chunks src chunks).
Proof.
  induction chunks as [|x rest IH]; [apply log_blind_ret|].
  cbn [local_train_chunks]. apply log_blind_bind.
  { same_attributes. unfold modify. by destruct src. }
  intros _. apply log_blind_bind; [apply log_blind_flownode_train|]. by intros _.
Qed.

Lemma log_blind_local_train_phase d : log_blind (_local_train_phase d).
Proof.
  intros s1 s2 H. pose proof (forget_log_fields s1 s2 H) as
    (_ & Hfl & _ & _ & Hi & _ & _ & Hc & _ & _ & Hst).
  unfold _local_train_phase. rewrite Hfl, Hi, Hc, Hst.
  destruct (_i_train_node s2) as [i|]; [|done].
  destruct (flow s2 !! i); [|done].
  destruct (_train_callable_class s2); [|done].
  remember (remaining (iter d) (store s2)) as chunks eqn:Hch. clear Hch.
  assert (log_blind
            (local_train_chunks (iter d) chunks ;;;
             (fun s' =>
                match chunks with
                | [] =>
                    match flow s' !! i with
                    | Some current_node => (Raise (empty_source_error current_node i), s')
                    | None => (Raise IndexError, s')
                    end
                | _ :: _ => (Ok tt, s')
                end))) as Hm; [|exact (Hm s1 s2 H)].
  apply log_blind_bind; [apply log_blind_local_train_chunks|].
  intros _ t1 t2 Ht. pose proof (forget_log_fields t1 t2 Ht) as (_ & Hfl' & _).
  rewrite Hfl'. destruct chunks; [|done]. by destruct (flow t2 !! i).
Qed.

Lemma log_blind_index_step :
  log_blind (fun s : ParallelFlow =>
    match _i_train_node s with
    | None => (Raise TypeError, s)
    | Some i' =>
        match flow s !! i' with
        | None => (Raise IndexError, s)
        | Some n =>
            if negb (Node.is_training n)
            then (Ok tt, set_i_train_node (Some (i' + 1)) s)
            else (Ok tt, s)
        end
    end).
Proof.
  same_attributes. simpl.
  match goal with |- context [match ?o with Some _ => _ | None => _ end] =>
    destruct o as [i'|] end; [|done].
  destruct (_ !! i') as [n|]; [|done]. by destruct (negb (Node.is_training n)).
Qed.

Lemma log_blind_local_fallback i d : log_blind (local_fallback i d).
Proof.
  unfold local_fallback.
  apply log_blind_bind; [apply log_blind_local_train_phase|]. intros _.
  apply log_blind_bind; [apply log_blind_emit|]. intros _.
  apply log_blind_bind; [apply log_blind_flownode_stop_training|]. intros _.
  apply log_blind_bind; [apply log_blind_post_stop_training_hook|]. intros _.
  apply log_blind_index_step.
Qed.

Lemma log_blind_start_parallel_phase i d forked :
  log_blind (start_parallel_phase i d forked).
Proof.
  unfold start_parallel_phase.
  apply log_blind_bind. { same_attributes. by unfold modify. }
  intros _. apply log_blind_bind.
  { same_attributes. unfold _create_train_task. simpl.
    match goal with |- context [match ?o with Some _ => _ | None => _ end] =>
      destruct o as [it|] end; [|done].
    by destruct (next it _) as [[[x it'] h']|]. }
  intros ft. same_attributes. simpl. destruct ft as [ft|].
  - by match goal with |- context [match ?o with Some _ => _ | None => _ end] =>
         destruct o end.
  - by destruct (_ !! i).
Qed.

Lemma log_blind_loop fuel : log_blind (_next_train_phase_loop fuel).
Proof.
  induction fuel as [|fuel IH]; [by intros s1 s2 H|].
  intros s1 s2 H.
  pose proof (forget_log_fields s1 s2 H) as (_ & Hfl & Hits & _ & Hi & _).
  cbn [_next_train_phase_loop]. rewrite Hfl, Hits, Hi.
  destruct (_i_train_node s2) as [i|]; [|done].
  destruct (i <? length (flow s2)).
  - destruct (flow s2 !! i) as [n|]; [|done].
    destruct (negb (Node.is_training n)).
    + apply IH. revert H. clear. destruct s1, s2. unfold forget_log. simpl.
      intros H. injection H. intros. by subst.
    + destruct (_train_data_iterables s2) as [its|]; [|done].
      destruct (its !! i) as [d|]; [|done].
      destruct (FlowNode.fork (flow s2)) as [forked|].
      * by apply log_blind_start_parallel_phase.
      * assert (log_blind (local_fallback i d ;;; _next_train_phase_loop fuel)) as Hm;
          [|exact (Hm s1 s2 H)].
        apply log_blind_bind; [apply log_blind_local_fallback|]. by intros _.
  - split; [done|]. revert H. clear. destruct s1, s2. unfold forget_log. simpl.
    intros H. injection H. intros. by subst.
Qed.

Lemma log_blind_next_train_phase : log_blind _next_train_phase.
Proof.
  unfold _next_train_phase. apply log_blind_bind.
  { same_attributes. by unfold modify. }
  intros _ s1 s2 H.
  pose proof (forget_log_fields s1 s2 H) as (_ & Hfl & _).
  unfold phase_budget. rewrite Hfl. by apply log_blind_loop.
Qed.

(** The part of the training branch of [use_results] that follows the
    joining of the results. *)
Lemma log_blind_after_join i :
  log_blind (_stop_training_hook ;;; node_stop_training i ;;;
             _post_stop_training_hook ;;; advance_if_trained i ;;;
             _next_train_phase ;;; ret (@None Chunk)).
Proof.
  apply log_blind_bind; [apply log_blind_emit|]. intros _.
  apply log_blind_bind; [apply log_blind_node_stop_training|]. intros _.
  apply log_blind_bind; [apply log_blind_post_stop_training_hook|]. intros _.
  apply log_blind_bind; [apply log_blind_advance_if_trained|]. intros _.
  apply log_blind_bind; [apply log_blind_next_train_phase|]. intros _.
  apply log_blind_ret.
Qed.

Lemma forget_log_joined i rs s :
  forget_log (joined i rs s)
  = forget_log (set_flow (alter (join_all rs) i (flow s)) s).
Proof.
  revert s. induction rs as [|r rs IH]; intros s.
  - simpl. unfold forget_log. simpl. by rewrite list_alter_id.
  - cbn [joined]. rewrite IH. unfold forget_log. simpl.
    by rewrite list_alter_alter_eq.
Qed.

Lemma join_all_fields rs m :
  join_all rs m
  = Node.mk (Node.train_seq m) (Node.train_phase m)
      (Node.learned m ++ concat (Node.learned <$> rs)).
Proof.
  revert m. induction rs as [|r rs IH]; intros m.
  - simpl. rewrite app_nil_r. by destruct m.
  - unfold join_all in *. simpl. rewrite IH. simpl. by rewrite app_assoc.
Qed.

Lemma use_results_unfold i n rs s :
  _i_train_node s = Some i -> flow s !! i = Some n ->
  use_results (RNode <$> rs) s
  = (_stop_training_hook ;;; node_stop_training i ;;;
     _post_stop_training_hook ;;; advance_if_trained i ;;;
     _next_train_phase ;;; ret None) (joined i rs s).
Proof.
  intros Hi Hn. unfold use_results.
  assert (is_parallel_training s = true) as ->
    by (apply is_parallel_training_true; eauto).
  rewrite Hi, Hn. unfold close_parallel_phase.
  unfold bind at 1. unfold bind at 1. rewrite join_results_ok.
  unfold bind.
  destruct (_stop_training_hook (joined i rs s)) as [[[]|e|] s1]; [|done|done].
  destruct (node_stop_training i s1) as [[[]|e|] s2]; [|done|done].
  destruct (_post_stop_training_hook s2) as [[[]|e|] s3]; [|done|done].
  by destruct (advance_if_trained i s3) as [[[]|e|] s4].
Qed.

Lemma join_collected r rest m :
  join_all [join_all rest r] m = join_all (r :: rest) m.
Proof.
  rewrite (join_all_fields [_] m), (join_all_fields (r :: rest) m),
    (join_all_fields rest r). simpl. by rewrite app_nil_r.
Qed.

(** X19: the NodeResultContainer can stand in for the list of results.  In
    a training phase, handing [use_results] the one node that the container
    returns, after the results [r], [rest] have been added to it, comes to
    the same as handing it the list of all these results: [use_results]
    returns or raises the same, and leaves the object with the same
    attributes; only the number of [join] calls on the live node differs. *)
Theorem node_result_container_is_drop_in s i n r k rest :
  _i_train_node s = Some i ->
  flow s !! i = Some n ->
  exists collected,
    (NodeResults.get_results
       (NodeResults.add_results ((r, k) :: rest) NodeResults.init)).1
    = [Some collected]
    /\ (use_results [RNode collected] s).1
       = (use_results (RNode <$> r :: (fst <$> rest)) s).1
    /\ forget_log (use_results [RNode collected] s).2
       = forget_log (use_results (RNode <$> r :: (fst <$> rest)) s).2.
Proof.
  intros Hi Hn. exists (join_all (fst <$> rest) r). split.
  - change (NodeResults.add_results ((r, k) :: rest) NodeResults.init)
      with (NodeResults.add_results rest (NodeResults.mk (Some r))).
    by rewrite add_results_Some.
  - change [RNode (join_all (fst <$> rest) r)]
      with (RNode <$> [join_all (fst <$> rest) r]).
    rewrite !(use_results_unfold i n) by done.
    apply log_blind_after_join. rewrite !forget_log_joined.
    unfold forget_log. simpl. f_equal.
    apply list_alter_ext; [|done]. intros m _. apply join_collected.
Qed.

Lemma node_result_container_is_drop_in_witness :
  exists collected,
    (NodeResults.get_results
       (NodeResults.add_results
          ((trained_clone 0 [1], 0) :: [(trained_clone 0 [2], 1)]) NodeResults.init)).1
    = [Some collected]
    /\ (use_results [RNode collected] training_state).1
       = (use_results (RNode <$> trained_clone 0 [1]
                         :: (fst <$> [(trained_clone 0 [2], 1)])) training_state).1
    /\ forget_log (use_results [RNode collected] training_state).2
       = forget_log
           (use_results (RNode <$> trained_clone 0 [1]
                           :: (fst <$> [(trained_clone 0 [2], 1)])) training_state).2.
Proof.
  apply (node_result_container_is_drop_in training_state 0 (fresh_node [true; true])
           (trained_clone 0 [1]) 0 [(trained_clone 0 [2], 1)]).
  - reflexivity.
  - reflexivity.
Defined.

(** ** [train] with a scheduler comes to the same as training in sequence *)













(** The two-node flow after [train] on the scheduler that runs the tasks at
    once: the first node, whose phases fork, has learned both chunks in
    both phases through tasks, the second one locally. *)
Example train_two_node_flow :
  (train (Base := SampleBase) [Relist [[1]; [2]]; Relist [[3]; [4]]] None None true
     inline_frame).1 = Ok tt
  /\ flow (self (train (Base := SampleBase) [Relist [[1]; [2]]; Relist [[3]; [4]]]
                   None None true inline_frame).2)
     = [Node.mk [true; true] 2 [(0, [1]); (0, [2]); (1, [1]); (1, [2])];
        Node.mk [false] 1 [(0, [3]); (0, [4])]].
Proof. split; vm_compute; reflexivity. Qed.

(** ** One-shot iterators and local training *)

Lemma local_trained_store j r chunks s :
  store s !! r = Some chunks ->
  store (local_trained j (SharedIterator r) chunks s) !! r = Some [].
Proof.
  revert s. induction chunks as [|x rest IH]; intros s Hs; [done|].
  cbn [local_trained]. apply IH. simpl. unfold Store in *.
  by rewrite lookup_insert_eq.
Qed.

Lemma loop_empty_source fuel s i n its d :
  loop_inv s ->
  _i_train_node s = Some i ->
  flow s !! i = Some n ->
  Node.is_training n = true ->
  _train_data_iterables s = Some its ->
  its !! i = Some d ->
  remaining (iter d) (store s) = [] ->
  exists s',
    _next_train_phase_loop (S fuel) s = (Raise (empty_source_error n i), s')
    /\ _i_train_node s' = Some i
    /\ flow s' = flow s.
Proof.
  intros Hinv Hi Hn Htr Hits Hd Hrem. rewrite loop_unfold.
  destruct (phase_step_cases _ Hinv) as (i0 & its0 & c & Hi0 & Hits0 & Hc & Hcases).
  rewrite Hi in Hi0. rewrite Hits in Hits0.
  injection Hi0 as <-. injection Hits0 as <-.
  destruct Hcases as [[Hlen _]|[(n0 & Hn0 & Htr0 & _)|[H|H]]].
  - apply lookup_lt_Some in Hn. lia.
  - rewrite Hn in Hn0. injection Hn0 as <-. by rewrite Htr in Htr0.
  - destruct H as (n0 & d0 & forked & Hn0 & _ & Hd0 & _ & Hstep).
    rewrite Hn in Hn0. injection Hn0 as <-.
    rewrite Hd in Hd0. injection Hd0 as <-.
    apply next_None_remaining in Hrem. rewrite Hrem in Hstep. rewrite Hstep.
    eexists. split; [reflexivity|]. by simpl.
  - destruct H as (n0 & d0 & Hn0 & _ & Hd0 & _ & Hstep).
    rewrite Hn in Hn0. injection Hn0 as <-.
    rewrite Hd in Hd0. injection Hd0 as <-.
    rewrite Hrem in Hstep. rewrite Hstep.
    eexists. split; [reflexivity|]. by simpl.
Qed.

(** X21: a one-shot iterator cannot feed a second phase of local training
    either.  When the node of the index is in its first phase of at least
    two, the phase does not fork, and its data is a one-shot iterator with
    chunks, [_next_train_phase] trains the first phase locally with all the
    chunks and stops it, then finds the iterator used up for the second
    phase and raises the FlowException that says the iteration could not be
    repeated.  The node keeps what it has learned and stays in its second
    phase, and parallel training stays underway. *)
Theorem one_shot_source_fails_second_local_phase s i n its r x rest :
  training_ready s ->
  _i_train_node s = Some i ->
  flow s !! i = Some n ->
  prefix_trained (flow s) i ->
  _train_data_iterables s = Some its ->
  its !! i = Some (OneShot r) ->
  store s !! r = Some (x :: rest) ->
  Node.train_phase n = 0 ->
  2 <= length (Node.train_seq n) ->
  Node.fork n = None ->
  exists s',
    _next_train_phase s = (Raise (FlowException (NotReplayable (i + 1))), s')
    /\ flow s' !! i = Some (stopped (train_all (x :: rest) n))
    /\ is_parallel_training s' = true.
Proof.
  intros Hready Hi Hn Hpre Hits Hd Hst Hph Hlen Hfork.
  assert (Node.is_training n = true) as Htr.
  { apply is_training_remaining. unfold Node.get_remaining_train_phase. lia. }
  apply lookup_lt_Some in Hn as Hlt.
  set (s0 := set_flownode true s).
  assert (loop_inv s0) as Hinv.
  { split; [done|]. exists i. split; [done|]. split; [simpl; lia|done]. }
  assert (exists m, phase_budget s0 = S (S m)) as [m Hm].
  { unfold phase_budget. simpl. exists (length (flow s) - 1 + total_remaining (flow s)).
    lia. }
  unfold _next_train_phase, bind, modify. fold s0. rewrite Hm, loop_unfold.
  (* the first phase is trained locally *)
  destruct (phase_step_cases _ Hinv) as (i0 & its0 & c & Hi0 & Hits0 & Hc & Hcases).
  simpl in Hi0, Hits0. rewrite Hi in Hi0. rewrite Hits in Hits0.
  injection Hi0 as <-. injection Hits0 as <-.
  assert (FlowNode.fork (flow s0) = None) as Hnofork.
  { unfold FlowNode.fork. simpl.
    assert (FlowNode.first_training (flow s) = Some i) as ->.
    { apply first_training_Some. split; [by exists n|done]. }
    by rewrite Hn, Hfork. }
  destruct Hcases as [[Hl _]|[(n0 & Hn0 & Htr0 & _)|[H|H]]].
  { simpl in Hl. lia. }
  { simpl in Hn0. rewrite Hn in Hn0. injection Hn0 as <-. by rewrite Htr in Htr0. }
  { destruct H as (_ & _ & forked & _ & _ & _ & Hf & _). by rewrite Hnofork in Hf. }
  destruct H as (n0 & d0 & Hn0 & _ & Hd0 & _ & Hstep).
  simpl in Hn0. rewrite Hn in Hn0. injection Hn0 as <-.
  rewrite Hd in Hd0. injection Hd0 as <-.
  cbn [iter remaining] in Hstep. change (store s0) with (store s) in Hstep.
  rewrite Hst in Hstep. cbn [default] in Hstep.
  destruct Hstep as (n1 & Hn1 & Hst1 & Hstep).
  rewrite local_trained_flow, list_lookup_alter_eq in Hn1.
  change (flow s0) with (flow s) in Hn1. rewrite Hn in Hn1.
  assert (n1 = train_all (x :: rest) n) as -> by (by injection Hn1). clear Hn1.
  pose proof (local_trained_store i r (x :: rest) s0 Hst) as Hstore.
  pose proof (local_trained_flow i (SharedIterator r) (x :: rest) s0) as G0.
  destruct (local_trained_frame i (SharedIterator r) (x :: rest) s0)
    as (_ & G2 & G3 & _).
  remember (train_all (x :: rest) n) as n2 eqn:Hn2.
  remember (local_trained i (SharedIterator r) (x :: rest) s0) as s2 eqn:Hs2.
  destruct (loop_inv_continue s0 _ Hinv Hstep) as [Hinv1 _].
  rewrite Hstep.
  destruct (phase_closed_frame i n2 (EFlowNodeStopTraining i) s2)
    as (_ & F2 & _ & _ & _ & _ & _ & F8 & F9 & F10 & _).
  assert (Node.is_training (stopped n2) = true) as Htr2.
  { apply is_training_remaining.
    injection Hst1 as Hseq Hphase.
    unfold Node.get_remaining_train_phase, stopped. simpl.
    rewrite Hseq, Hphase. lia. }
  rewrite Htr2 in F10. rewrite G0, list_insert_alter_same in F9.
  (* the second phase finds the iterator used up *)
  destruct (loop_empty_source m (phase_closed i n2 (EFlowNodeStopTraining i) s2)
              i (stopped n2) its (OneShot r))
    as (s' & Hloop & Hi' & Hfl'); try done.
  - by rewrite F10, G2.
  - rewrite F9. by apply list_lookup_insert_eq.
  - by rewrite F2, G3.
  - cbn [iter remaining]. by rewrite F8, Hstore.
  - exists s'. split; [|split].
    + rewrite Hloop. unfold empty_source_error.
      injection Hst1 as _ Hphase.
      unfold Node.get_current_train_phase, stopped. simpl. by rewrite Hphase, Hph.
    + rewrite Hfl', F9. by apply list_lookup_insert_eq.
    + apply is_parallel_training_true. by exists i.
Qed.

Lemma one_shot_source_fails_second_local_phase_witness :
  exists s',
    _next_train_phase one_shot_entry_state
    = (Raise (FlowException (NotReplayable (0 + 1))), s')
    /\ flow s' !! 0 = Some (stopped (train_all ([1] :: [[2]]) (fresh_node [false; false])))
    /\ is_parallel_training s' = true.
Proof.
  apply (one_shot_source_fails_second_local_phase one_shot_entry_state 0
           (fresh_node [false; false]) [OneShot 0] 0 [1] [[2]]).
  - split; [|split].
    + exists [OneShot 0]. split; [reflexivity|simpl; lia].
    + by eexists.
    + exact I.
  - reflexivity.
  - reflexivity.
  - intros k n Hk. lia.
  - reflexivity.
  - reflexivity.
  - reflexivity.
  - reflexivity.
  - simpl. lia.
  - reflexivity.
Defined.
